(** * Attendance timing and face matching of the FARIS attendance system

    A shallow embedding of [config.py], of the attendance, schedule and
    enrollment parts of [database.py], of the liveness, matching and marking
    code of [vit_face_recognition.py], of [attendance_tracker.py] and of the
    marking button of [attendance_window.py], followed by the properties of
    the specification and further properties of the code stated on that
    embedding.

    Conventions of the embedding.
    - A [datetime.time] is the number of seconds since midnight, a [Z] in
      [0, 86400).  [(datetime.combine(today, t) +/- timedelta(minutes=m)).time()]
      drops the date, so it is addition modulo one day.
    - The SQLite tables are lists of rows in insertion order.  [fetchone]
      is the first matching row, [UPDATE ... WHERE] maps over all rows, and
      an [INSERT] that breaks a [UNIQUE] constraint raises.
    - A numpy float is the rational number it denotes ([Q]), so comparing
      two floats is comparing two rationals; what numpy rounds in the
      matching (dot product, difference, quotient) is a parameter, as are the
      image, the detector, the encoder and the texture analysis. *)

From Stdlib Require Import ZArith List String Bool Lia QArith Lqa.
Import ListNotations.
Open Scope Z_scope.

(** ** config.py *)

Module Config.

Inductive attendance_status : Type :=
| STATUS_PRESENT
| STATUS_ABSENT
| STATUS_LATE
| STATUS_NA
| STATUS_PARTIAL_ATTENDANCE
| STATUS_UNAUTHORIZED_DEPARTURE.

Definition status_text (s : attendance_status) : string :=
  match s with
  | STATUS_PRESENT => "Present"
  | STATUS_ABSENT => "Absent"
  | STATUS_LATE => "Late"
  | STATUS_NA => "N/A"
  | STATUS_PARTIAL_ATTENDANCE => "Partial Attendance"
  | STATUS_UNAUTHORIZED_DEPARTURE => "Unauthorized Departure"
  end.

Definition status_eqb (a b : attendance_status) : bool :=
  match a, b with
  | STATUS_PRESENT, STATUS_PRESENT
  | STATUS_ABSENT, STATUS_ABSENT
  | STATUS_LATE, STATUS_LATE
  | STATUS_NA, STATUS_NA
  | STATUS_PARTIAL_ATTENDANCE, STATUS_PARTIAL_ATTENDANCE
  | STATUS_UNAUTHORIZED_DEPARTURE, STATUS_UNAUTHORIZED_DEPARTURE => true
  | _, _ => false
  end.

Definition FACE_RECOGNITION_TOLERANCE : Q := (98 # 100)%Q.

Definition EARLY_ARRIVAL_MARGIN : Z := 5.
Definition LATE_THRESHOLD : Z := 15.
Definition EARLY_DEPARTURE_THRESHOLD : Z := 15.
Definition SECOND_CHECKIN_WINDOW : Z := 5.

End Config.

(** ** Times of day *)

Module Clock.

Definition t : Type := Z.

Definition seconds_per_day : Z := 86400.

Definition valid (x : t) : Prop := 0 <= x < seconds_per_day.

(** [strptime(s, "%H:%M:%S").time()] and [strptime(s, "%H:%M").time()]. *)
Definition hms (h m s : Z) : t := 3600 * h + 60 * m + s.
Definition hm (h m : Z) : t := hms h m 0.

(** [(datetime.combine(date.today(), x) - timedelta(minutes=m)).time()] *)
Definition minus_minutes (x : t) (m : Z) : t :=
  (x - 60 * m) mod seconds_per_day.

(** [(datetime.combine(date.today(), x) + timedelta(minutes=m)).time()] *)
Definition plus_minutes (x : t) (m : Z) : t :=
  (x + 60 * m) mod seconds_per_day.

End Clock.

(** ** database.py: the attendance methods *)

Module Database.
Import Config.

Record attendance_row : Type := mk_row {
  student_id : string;
  course_id : Z;
  date : string;
  time : option Clock.t;
  second_time : option Clock.t;
  status : attendance_status;
  (* INTEGER DEFAULT 0; the code only ever stores 0 or 1 *)
  is_cancelled : bool
}.

Record course : Type := mk_course {
  reference_number : Z;
  start_time : Clock.t;
  end_time : Clock.t
}.

Record custom_time : Type := mk_custom_time {
  ct_course_id : Z;
  ct_date : string;
  custom_end_time : Clock.t
}.

Record enrollment : Type := mk_enrollment {
  e_course_id : Z;
  e_student_id : string
}.

Record user : Type := mk_user {
  id : string;
  name : string
}.

(** The connection: the tables the attendance code reads and writes. *)
Record t : Type := mk_db {
  users : list user;
  courses : list course;
  enrollments : list enrollment;
  lecture_custom_times : list custom_time;
  attendance : list attendance_row
}.

Definition set_attendance (d : t) (rows : list attendance_row) : t :=
  {| users := users d; courses := courses d; enrollments := enrollments d;
     lecture_custom_times := lecture_custom_times d; attendance := rows |}.

Definition set_lecture_custom_times (d : t) (l : list custom_time) : t :=
  {| users := users d; courses := courses d; enrollments := enrollments d;
     lecture_custom_times := l; attendance := attendance d |}.

(** *** Row-level SQL *)

(** [WHERE student_id = ? AND course_id = ? AND date = ?] *)
Definition same_key (sid : string) (cid : Z) (dt : string)
    (r : attendance_row) : bool :=
  String.eqb (student_id r) sid && (course_id r =? cid) && String.eqb (date r) dt.

(** [WHERE course_id = ? AND date = ?] *)
Definition same_lecture (cid : Z) (dt : string) (r : attendance_row) : bool :=
  (course_id r =? cid) && String.eqb (date r) dt.

Definition sql_update (where_ : attendance_row -> bool)
    (set_ : attendance_row -> attendance_row)
    (rows : list attendance_row) : list attendance_row :=
  map (fun r => if where_ r then set_ r else r) rows.

(** [INSERT INTO attendance]: [None] is sqlite3.IntegrityError, raised
    when [UNIQUE(student_id, course_id, date)] would be broken. *)
Definition sql_insert (r : attendance_row) (rows : list attendance_row)
    : option (list attendance_row) :=
  if existsb (same_key (student_id r) (course_id r) (date r)) rows
  then None
  else Some (rows ++ [r]).

Definition set_second_time (tm : Clock.t) (r : attendance_row) : attendance_row :=
  mk_row (student_id r) (course_id r) (date r) (time r) (Some tm)
         (status r) (is_cancelled r).

Definition set_second_time_status (tm : Clock.t) (st : attendance_status)
    (r : attendance_row) : attendance_row :=
  mk_row (student_id r) (course_id r) (date r) (time r) (Some tm)
         st (is_cancelled r).

Definition set_status (st : attendance_status) (r : attendance_row)
    : attendance_row :=
  mk_row (student_id r) (course_id r) (date r) (time r) (second_time r)
         st (is_cancelled r).

Definition set_status_cancelled (st : attendance_status) (r : attendance_row)
    : attendance_row :=
  mk_row (student_id r) (course_id r) (date r) (time r) (second_time r)
         st true.

(** [SELECT time, second_time, is_cancelled FROM attendance WHERE ...]
    followed by [fetchone()]. *)
Definition fetch_attendance (d : t) (sid : string) (cid : Z) (dt : string)
    : option attendance_row :=
  find (same_key sid cid dt) (attendance d).

(** *** Lookups *)

Definition get_course_by_id (d : t) (reference : Z) : option course :=
  find (fun c => reference_number c =? reference) (courses d).

Definition get_custom_end_time (d : t) (cid : Z) (dt : string)
    : option Clock.t :=
  match find (fun c => (ct_course_id c =? cid) && String.eqb (ct_date c) dt)
             (lecture_custom_times d) with
  | Some c => Some (custom_end_time c)
  | None => None
  end.

(** [SELECT u.id, ... FROM users u JOIN enrollments e ON u.id = e.student_id
    WHERE e.course_id = ?]; only the ids are used by the callers here. *)
Definition get_enrolled_students (d : t) (cid : Z) : list string :=
  map e_student_id
      (filter (fun e => (e_course_id e =? cid) &&
                        existsb (fun u => String.eqb (id u) (e_student_id e))
                                (users d))
              (enrollments d)).

Definition is_student_enrolled_in_course (d : t) (sid : string) (cid : Z)
    : bool :=
  existsb (fun e => String.eqb (e_student_id e) sid && (e_course_id e =? cid))
          (enrollments d).

Definition get_user_by_id (d : t) (uid : string) : option user :=
  find (fun u => String.eqb (id u) uid) (users d).

(** [course_end]: the custom end time of the day if there is one, else the
    scheduled end time. *)
Definition course_end_on (d : t) (c : course) (cid : Z) (today : string)
    : Clock.t :=
  match get_custom_end_time d cid today with
  | Some e => e
  | None => end_time c
  end.

(** *** mark_attendance *)

Definition mark_attendance (d : t) (sid : string) (cid : Z) (dt : string)
    (tm : Clock.t) (st : attendance_status) : bool * t :=
  match fetch_attendance d sid cid dt with
  | Some result =>
      if is_cancelled result then (false, d)
      else
        match second_time result with
        | None =>
            (true,
             set_attendance d
               (sql_update (same_key sid cid dt)
                           (set_second_time_status tm st) (attendance d)))
        | Some _ => (false, d)
        end
  | None =>
      match sql_insert (mk_row sid cid dt (Some tm) None st false)
                       (attendance d) with
      | Some rows => (true, set_attendance d rows)
      | None => (false, d)
      end
  end.

(** *** auto_mark_attendance

    [today] and [current_time] are what [datetime.datetime.now()] gives. *)

Definition auto_mark_attendance (d : t) (today : string)
    (current_time : Clock.t) (sid : string) (cid : Z) : bool * t :=
  match get_course_by_id d cid with
  | None => (false, d)
  | Some course =>
      let course_start := start_time course in
      let course_end := course_end_on d course cid today in
      let early_arrival := Clock.minus_minutes course_start EARLY_ARRIVAL_MARGIN in
      let late_threshold := Clock.plus_minutes course_start LATE_THRESHOLD in
      match fetch_attendance d sid cid today with
      | Some result =>
          if is_cancelled result then (false, d)
          else
            let second_checkin_start :=
              Clock.minus_minutes course_end SECOND_CHECKIN_WINDOW in
            let second_checkin_end :=
              Clock.plus_minutes course_end SECOND_CHECKIN_WINDOW in
            match second_time result with
            | None =>
                if (second_checkin_start <=? current_time) &&
                   (current_time <=? second_checkin_end)
                then
                  (true,
                   set_attendance d
                     (sql_update (same_key sid cid today)
                                 (set_second_time current_time) (attendance d)))
                else (false, d)
            | Some _ => (false, d)
            end
      | None =>
          (* "Using a 10-minute window before end" *)
          let early_departure := Clock.minus_minutes course_end 10 in
          if (early_arrival <=? current_time) &&
             (current_time <=? early_departure)
          then
            let st := if current_time >? late_threshold
                      then STATUS_LATE else STATUS_PRESENT in
            match sql_insert (mk_row sid cid today (Some current_time) None
                                     st false)
                             (attendance d) with
            | Some rows => (true, set_attendance d rows)
            | None => (false, d)
            end
          else (false, d)
      end
  end.

(** *** update_partial_attendance *)

Definition partial_where (today : string) (r : attendance_row) : bool :=
  String.eqb (date r) today &&
  (match time r with Some _ => true | None => false end) &&
  (match second_time r with None => true | Some _ => false end) &&
  status_eqb (status r) STATUS_PRESENT &&
  negb (is_cancelled r).

Definition update_partial_attendance (d : t) (today : string) : bool * t :=
  (true,
   set_attendance d
     (sql_update (partial_where today)
                 (set_status STATUS_UNAUTHORIZED_DEPARTURE) (attendance d))).

(** *** end_lecture_early: [INSERT OR REPLACE INTO lecture_custom_times] *)

Definition end_lecture_early (d : t) (cid : Z) (dt : string) (tm : Clock.t)
    : bool * t :=
  (true,
   set_lecture_custom_times d
     (filter (fun c => negb ((ct_course_id c =? cid) && String.eqb (ct_date c) dt))
             (lecture_custom_times d)
      ++ [mk_custom_time cid dt tm])).

(** *** cancel_lecture *)

(** The loop over the enrolled students.  An IntegrityError leaves the
    loop; the rows inserted before it stay in the open transaction. *)
Fixpoint insert_cancelled (cid : Z) (dt : string) (students : list string)
    (rows : list attendance_row) : bool * list attendance_row :=
  match students with
  | [] => (true, rows)
  | sid :: rest =>
      match sql_insert (mk_row sid cid dt None None STATUS_NA true) rows with
      | Some rows' => insert_cancelled cid dt rest rows'
      | None => (false, rows)
      end
  end.

Definition cancel_lecture (d : t) (cid : Z) (dt : string) : bool * t :=
  let already_cancelled :=
    0 <? Z.of_nat (List.length
                     (filter (fun r => same_lecture cid dt r && is_cancelled r)
                             (attendance d))) in
  if already_cancelled then (true, d)
  else
    let count := Z.of_nat (List.length (filter (same_lecture cid dt)
                                               (attendance d))) in
    if 0 <? count then
      (true,
       set_attendance d
         (sql_update (same_lecture cid dt) (set_status_cancelled STATUS_NA)
                     (attendance d)))
    else
      let students := get_enrolled_students d cid in
      let '(ok, rows) := insert_cancelled cid dt students (attendance d) in
      (ok, set_attendance d rows).

(** *** Notions used to state the properties *)

Definition row_key (r : attendance_row) : string * Z * string :=
  (student_id r, course_id r, date r).

(** [UNIQUE(student_id, course_id, date)] holds of the table. *)
Definition unique_keys (rows : list attendance_row) : Prop :=
  NoDup (map row_key rows).

(** The time lies in the second check-in window around [course_end]. *)
Definition in_second_window (course_end now : Clock.t) : Prop :=
  Clock.minus_minutes course_end SECOND_CHECKIN_WINDOW <= now
    <= Clock.plus_minutes course_end SECOND_CHECKIN_WINDOW.

(** The row [cancel_lecture] inserts for a student. *)
Definition cancelled_row (cid : Z) (dt : string) (sid : string)
    : attendance_row :=
  mk_row sid cid dt None None STATUS_NA true.

(** The rows of one lecture (course and date). *)
Definition lecture_rows (d : t) (cid : Z) (dt : string)
    : list attendance_row :=
  filter (same_lecture cid dt) (attendance d).

End Database.

(** ** vit_face_recognition.py *)

Module Vit.
Import Config.

(** A face box [(x, y, w, h)] as the detector returns it. *)
Definition rect : Type := (Z * Z * Z * Z)%type.

(** What the code gets from OpenCV, numpy and the ViT model. *)
Class Externals : Type := {
  Frame : Type;
  Landmarks : Type;
  (** [face_detector.detectMultiScale(gray, ...)] *)
  detectMultiScale : Frame -> list rect;
  (** [LivenessDetector.analyze_texture]: the FFT test on the image *)
  analyze_texture : Frame -> bool;
  (** [LivenessDetector.calculate_eye_aspect_ratio] *)
  calculate_eye_aspect_ratio : Landmarks -> Q;
  (** [np.linalg.norm(np.array(a) - np.array(b))] *)
  linalg_norm_diff : rect -> rect -> Q;
  (** preprocess, ViT forward pass, projection head, flatten *)
  vit_encode : Frame -> rect -> list Q;
  (** [v / np.linalg.norm(v)] *)
  normalize : list Q -> list Q;
  (** [np.dot(a, b)] of two float32 vectors *)
  float32_dot : list Q -> list Q -> Q;
  (** [a - b] and [a / b] on float32 values, rounded as numpy rounds them *)
  float32_sub : Q -> Q -> Q;
  float32_div : Q -> Q -> Q;
  (** Rounding is monotone, and 0 and 1 are float32 values. *)
  float32_sub_nonneg :
    forall a b : Q, (b <= a)%Q -> (0 <= float32_sub a b)%Q;
  float32_div_le_one :
    forall a b : Q, (0 < b)%Q -> (a <= b)%Q -> (float32_div a b <= 1)%Q
}.

(** [FACE_RECOGNITION_TOLERANCE] as the comparison and the division take
    it.  The encodings are float32 arrays (the output of the model), so
    [min_distance] is a float32 scalar, and numpy converts the Python float
    0.98 to the type of the other operand: to the float32 nearest to 0.98,
    which is 16441672 / 2^24. *)
Definition tolerance_float32 : Q := (16441672 # 16777216)%Q.

Definition Qltb (a b : Q) : bool := negb (Qle_bool b a).

Definition Qsum (l : list Q) : Q := fold_left Qplus l 0%Q.

(** [sum(h) / len(h)] *)
Definition average (h : list Q) : Q :=
  (Qsum h / inject_Z (Z.of_nat (List.length h)))%Q.

(** *** LivenessDetector *)

Record LivenessDetector : Type := mk_liveness {
  blink_count : Z;
  head_movement_count : Z;
  last_face_position : option rect;
  required_blinks : Z;
  required_movements : Z;
  blink_history : list Q;
  movement_history : list Q;
  history_size : nat
}.

(** The fields [__init__] sets. *)
Definition new_detector : LivenessDetector :=
  mk_liveness 0 0 None 1 1 [] [] 5.

(** [h.append(v)] then [if len(h) > history_size: h.pop(0)] *)
Definition push_history (size : nat) (h : list Q) (v : Q) : list Q :=
  let h' := h ++ [v] in
  if (size <? List.length h')%nat then tl h' else h'.

Section WithExternals.
Context {E : Externals}.

Definition detect_blink (s : LivenessDetector) (landmarks : Landmarks)
    : LivenessDetector * bool :=
  let ear := calculate_eye_aspect_ratio landmarks in
  let hist := push_history (history_size s) (blink_history s) ear in
  let s1 := mk_liveness (blink_count s) (head_movement_count s)
                        (last_face_position s) (required_blinks s)
                        (required_movements s) hist (movement_history s)
                        (history_size s) in
  if (List.length hist <? history_size s)%nat then (s1, false)
  else
    let avg_ear := average hist in
    if Qltb ear (avg_ear * (7 # 10))%Q then
      (mk_liveness (blink_count s + 1) (head_movement_count s)
                   (last_face_position s) (required_blinks s)
                   (required_movements s) hist (movement_history s)
                   (history_size s), true)
    else (s1, false).

Definition detect_head_movement (s : LivenessDetector) (face_position : rect)
    : LivenessDetector * bool :=
  match last_face_position s with
  | None =>
      (mk_liveness (blink_count s) (head_movement_count s)
                   (Some face_position) (required_blinks s)
                   (required_movements s) (blink_history s)
                   (movement_history s) (history_size s), false)
  | Some last =>
      let movement := linalg_norm_diff face_position last in
      let hist := push_history (history_size s) (movement_history s) movement in
      let s1 := mk_liveness (blink_count s) (head_movement_count s)
                            (Some face_position) (required_blinks s)
                            (required_movements s) (blink_history s) hist
                            (history_size s) in
      if (List.length hist <? history_size s)%nat then (s1, false)
      else
        let avg_movement := average hist in
        if Qltb (avg_movement * (12 # 10))%Q movement then
          (mk_liveness (blink_count s) (head_movement_count s + 1)
                       (Some face_position) (required_blinks s)
                       (required_movements s) (blink_history s) hist
                       (history_size s), true)
        else (s1, false)
  end.

Definition check_liveness (s : LivenessDetector) (face_image : Frame)
    (landmarks : option Landmarks) (face_position : option rect)
    : LivenessDetector * bool :=
  let s1 := match landmarks with
            | Some lm => fst (detect_blink s lm)
            | None => s
            end in
  let s2 := match face_position with
            | Some p => fst (detect_head_movement s1 p)
            | None => s1
            end in
  let texture_check := analyze_texture face_image in
  (s2,
   ((required_blinks s2 <=? blink_count s2) ||
    (required_movements s2 <=? head_movement_count s2)) && texture_check).

Definition reset (s : LivenessDetector) : LivenessDetector :=
  mk_liveness 0 0 None (required_blinks s) (required_movements s) [] []
              (history_size s).

(** *** ViTFaceRecognitionSystem *)

Record ViTFaceRecognitionSystem : Type := mk_system {
  database : Database.t;
  known_face_encodings : list (list Q);
  known_face_ids : list string;
  liveness_detector : LivenessDetector
}.

(** [load_face_encodings]: [student_encodings] is what
    [get_student_face_encodings()] returns, a blob being [None] when it
    is empty or cannot be unpickled. *)
Fixpoint load_loop (student_encodings : list (string * option (list Q)))
    (encs : list (list Q)) (ids : list string)
    : list (list Q) * list string :=
  match student_encodings with
  | [] => (encs, ids)
  | (sid, Some encoding) :: rest =>
      load_loop rest (encs ++ [normalize encoding]) (ids ++ [sid])
  | (_, None) :: rest => load_loop rest encs ids
  end.

Definition load_face_encodings (sys : ViTFaceRecognitionSystem)
    (student_encodings : list (string * option (list Q)))
    : ViTFaceRecognitionSystem :=
  let '(encs, ids) := load_loop student_encodings [] [] in
  mk_system (database sys) encs ids (liveness_detector sys).

Record recognized_student : Type := mk_recognized {
  r_student_id : string;
  r_name : string;
  confidence : Q;
  r_location : rect
}.

Record unrecognized_face : Type := mk_unrecognized {
  u_location : rect;
  u_message : string
}.

Record recognition_results : Type := mk_results {
  recognized : list recognized_student;
  unrecognized : list unrecognized_face
}.

(** The dot product of two vectors without rounding. *)
Fixpoint dot (a b : list Q) : Q :=
  match a, b with
  | x :: a', y :: b' => (x * y + dot a' b')%Q
  | _, _ => 0%Q
  end.

(** [np.argmin]: the index of the first occurrence of the minimum *)
Fixpoint argmin_from (best_index : nat) (best : Q) (i : nat) (l : list Q)
    : nat :=
  match l with
  | [] => best_index
  | x :: rest =>
      if Qltb x best then argmin_from i x (S i) rest
      else argmin_from best_index best (S i) rest
  end.

Definition argmin (l : list Q) : nat :=
  match l with
  | [] => 0%nat
  | x :: rest => argmin_from 0 x 1 rest
  end.

Definition face_location (face : rect) : rect :=
  let '(x, y, w, h) := face in (y, x + w, y + h, x).

Definition face_distances (sys : ViTFaceRecognitionSystem)
    (face_encoding : list Q) : list Q :=
  map (fun known_encoding =>
         let similarity := float32_dot face_encoding known_encoding in
         float32_sub 1 similarity)
      (known_face_encodings sys).

(** The body of the loop over the detected faces.  [None] is the
    IndexError of [known_face_ids[best_match_index]]. *)
Definition recognize_face (sys : ViTFaceRecognitionSystem) (frame : Frame)
    (reference : option Z)
    (st : LivenessDetector * recognition_results) (face : rect)
    : option (LivenessDetector * recognition_results) :=
  let '(live, res) := st in
  let '(live', ok) := check_liveness live frame None (Some face) in
  if negb ok then
    Some (live',
          mk_results (recognized res)
            (unrecognized res ++
             [mk_unrecognized (face_location face) "Liveness check failed"]))
  else
    let face_encoding := normalize (vit_encode frame face) in
    let distances := face_distances sys face_encoding in
    if (0 <? List.length distances)%nat then
      let best_match_index := argmin distances in
      let min_distance := nth best_match_index distances 0%Q in
      if Qle_bool min_distance tolerance_float32 then
        match nth_error (known_face_ids sys) best_match_index with
        | None => None
        | Some sid =>
            let not_enrolled :=
              match reference with
              | Some cid =>
                  negb (Database.is_student_enrolled_in_course
                          (database sys) sid cid)
              | None => false
              end in
            if not_enrolled then
              Some (live',
                    mk_results (recognized res)
                      (unrecognized res ++
                       [mk_unrecognized (face_location face) "Not enrolled"]))
            else
              let student_name :=
                match Database.get_user_by_id (database sys) sid with
                | Some u => Database.name u
                | None => String.append "Student " sid
                end in
              Some (live',
                    mk_results
                      (recognized res ++
                       [mk_recognized sid student_name
                          (float32_sub 1
                             (float32_div min_distance tolerance_float32))
                          (face_location face)])
                      (unrecognized res))
        end
      else
        Some (live',
              mk_results (recognized res)
                (unrecognized res ++
                 [mk_unrecognized (face_location face) "Unknown"]))
    else
      Some (live',
            mk_results (recognized res)
              (unrecognized res ++
               [mk_unrecognized (face_location face) "Unknown"])).

Fixpoint recognize_loop (sys : ViTFaceRecognitionSystem) (frame : Frame)
    (reference : option Z) (faces : list rect)
    (st : LivenessDetector * recognition_results)
    : option (LivenessDetector * recognition_results) :=
  match faces with
  | [] => Some st
  | face :: rest =>
      match recognize_face sys frame reference st face with
      | Some st' => recognize_loop sys frame reference rest st'
      | None => None
      end
  end.

Definition set_liveness (sys : ViTFaceRecognitionSystem)
    (live : LivenessDetector) : ViTFaceRecognitionSystem :=
  mk_system (database sys) (known_face_encodings sys) (known_face_ids sys)
            live.

Definition recognize_faces (sys : ViTFaceRecognitionSystem) (frame : Frame)
    (reference : option Z)
    : option (ViTFaceRecognitionSystem * recognition_results) :=
  match known_face_encodings sys with
  | [] => Some (sys, mk_results [] [])
  | _ :: _ =>
      let faces := detectMultiScale frame in
      match faces with
      | [] => Some (sys, mk_results [] [])
      | _ :: _ =>
          match recognize_loop sys frame reference faces
                  (liveness_detector sys, mk_results [] []) with
          | Some (live, res) => Some (set_liveness sys live, res)
          | None => None
          end
      end
  end.

(** *** Notions used to state the properties *)

(** The count test of [check_liveness]. *)
Definition count_condition (s : LivenessDetector) : Prop :=
  required_blinks s <= blink_count s \/
  required_movements s <= head_movement_count s.

(** A run of [check_liveness] calls on one detector, each with its own
    image, landmarks and face position. *)
Fixpoint run_checks (s : LivenessDetector)
    (calls : list (Frame * option Landmarks * option rect))
    : LivenessDetector :=
  match calls with
  | [] => s
  | (img, lm, pos) :: rest =>
      run_checks (fst (check_liveness s img lm pos)) rest
  end.

(** [m] is the least of [ds] and [i] the first index where it occurs. *)
Definition is_first_min (ds : list Q) (i : nat) (m : Q) : Prop :=
  nth_error ds i = Some m /\
  (forall j dj, nth_error ds j = Some dj -> (m <= dj)%Q) /\
  (forall j dj, (j < i)%nat -> nth_error ds j = Some dj -> (m < dj)%Q).

End WithExternals.

(** *** mark_attendance_for_recognized_students *)

Record attendance_result : Type := mk_attendance_result {
  a_student_id : string;
  a_name : string;
  success : bool;
  message : string
}.

(** The body of the loop over [recognition_results['recognized']], with
    the thresholds computed before the loop.  [None] is an IntegrityError
    of the INSERT, which this method does not catch. *)
Definition mark_one (reference : Z) (today : string) (current_time : Clock.t)
    (course_end early_arrival late_threshold
     second_checkin_start second_checkin_end : Clock.t)
    (d : Database.t) (sid : string) (nm : string)
    : option (attendance_result * Database.t) :=
  if Database.is_student_enrolled_in_course d sid reference then
    match Database.fetch_attendance d sid reference today with
    | Some result =>
        if Database.is_cancelled result then
          Some (mk_attendance_result sid nm false "Class cancelled", d)
        else
          if (match Database.second_time result with
              | None => true | Some _ => false end) &&
             (second_checkin_start <=? current_time) &&
             (current_time <=? second_checkin_end)
          then
            Some (mk_attendance_result sid nm true "Second check-in recorded",
                  Database.set_attendance d
                    (Database.sql_update
                       (Database.same_key sid reference today)
                       (Database.set_second_time current_time)
                       (Database.attendance d)))
          else
            Some (mk_attendance_result sid nm false "Already checked in", d)
    | None =>
        if current_time <? early_arrival then
          Some (mk_attendance_result sid nm false "Too early", d)
        else if current_time >? course_end then
          Some (mk_attendance_result sid nm false "Class ended", d)
        else
          let st := if current_time <=? late_threshold
                    then STATUS_PRESENT else STATUS_LATE in
          match Database.sql_insert
                  (Database.mk_row sid reference today (Some current_time)
                                   None st false)
                  (Database.attendance d) with
          | Some rows =>
              Some (mk_attendance_result sid nm true
                      (String.append "Marked as " (status_text st)),
                    Database.set_attendance d rows)
          | None => None
          end
    end
  else
    Some (mk_attendance_result sid nm false "Not enrolled in this course", d).

Fixpoint mark_loop (step : Database.t -> string -> string ->
                           option (attendance_result * Database.t))
    (students : list (string * string)) (results : list attendance_result)
    (d : Database.t) : option (list attendance_result * Database.t) :=
  match students with
  | [] => Some (results, d)
  | (sid, nm) :: rest =>
      match step d sid nm with
      | Some (r, d') => mark_loop step rest (results ++ [r]) d'
      | None => None
      end
  end.

(** [students] lists the ['student_id'] and ['name'] of the entries of
    [recognition_results['recognized']]. *)
Definition mark_attendance_for_recognized_students (d : Database.t)
    (today : string) (current_time : Clock.t)
    (students : list (string * string)) (reference : Z)
    : option (list attendance_result * Database.t) :=
  match Database.get_course_by_id d reference with
  | None => Some ([], d)
  | Some course =>
      let course_start := Database.start_time course in
      let course_end := Database.course_end_on d course reference today in
      let early_arrival := Clock.minus_minutes course_start EARLY_ARRIVAL_MARGIN in
      let late_threshold := Clock.plus_minutes course_start LATE_THRESHOLD in
      (* computed by the method and never read *)
      let early_departure :=
        Clock.minus_minutes course_end EARLY_DEPARTURE_THRESHOLD in
      let second_checkin_start :=
        Clock.minus_minutes course_end SECOND_CHECKIN_WINDOW in
      let second_checkin_end :=
        Clock.plus_minutes course_end SECOND_CHECKIN_WINDOW in
      mark_loop (mark_one reference today current_time course_end
                          early_arrival late_threshold
                          second_checkin_start second_checkin_end)
                students [] d
  end.

End Vit.

(** ** database.py: the courses in session *)

Module Schedule.
Import Config.

(** [strptime(now.strftime("%H:%M"), "%H:%M").time()]: the current time
    with its seconds dropped. *)
Definition minute_of (now : Clock.t) : Clock.t := 60 * (now / 60).

(** [get_current_courses].  [all_courses] is what the SELECT returns: the
    courses held on the weekday of today whose date range contains today.
    The loop keeps the rows whose window contains the current minute. *)
Definition get_current_courses (all_courses : list Database.course)
    (now : Clock.t) : list Database.course :=
  let now_time := minute_of now in
  filter (fun course =>
            let early_time :=
              Clock.minus_minutes (Database.start_time course)
                                  EARLY_ARRIVAL_MARGIN in
            (early_time <=? now_time) &&
            (now_time <=? Database.end_time course))
         all_courses.

End Schedule.

(** ** database.py: enrollment *)

Module Registrar.

(** The columns of the [courses] table that enrollment reads;
    [Database.course] holds the timing columns of the same rows. *)
Record course_row : Type := mk_course_row {
  reference_number : Z;
  code : string;
  capacity : Z
}.

Definition set_enrollments (d : Database.t) (l : list Database.enrollment)
    : Database.t :=
  Database.mk_db (Database.users d) (Database.courses d) l
                 (Database.lecture_custom_times d) (Database.attendance d).

(** [SELECT COUNT( * ) FROM enrollments WHERE course_id = ?] *)
Definition enrolled_count (d : Database.t) (reference : Z) : Z :=
  Z.of_nat (List.length
              (filter (fun e => Database.e_course_id e =? reference)
                      (Database.enrollments d))).

Record enrollment_data : Type := mk_enrollment_data {
  enrolled : Z;
  data_capacity : Z;
  available : Z
}.

(** [get_enrollment_data].  [None] is the TypeError of
    [self.cursor.fetchone()[0]] when the course does not exist. *)
Definition get_enrollment_data (catalog : list course_row) (d : Database.t)
    (reference : Z) : option enrollment_data :=
  let enrolled_count := enrolled_count d reference in
  match find (fun c => reference_number c =? reference) catalog with
  | Some c =>
      Some (mk_enrollment_data enrolled_count (capacity c)
                               (capacity c - enrolled_count))
  | None => None
  end.

(** The student is enrolled in another section of the course [course_code]:
    the join of [enrollments] and [courses] on the reference number. *)
Definition in_other_section (catalog : list course_row) (d : Database.t)
    (student_id : string) (course_code : string) (course_id : Z) : bool :=
  existsb (fun e =>
             String.eqb (Database.e_student_id e) student_id &&
             existsb (fun c =>
                        (reference_number c =? Database.e_course_id e) &&
                        String.eqb (code c) course_code &&
                        negb (reference_number c =? course_id))
                     catalog)
          (Database.enrollments d).

(** [INSERT INTO enrollments]: [None] is the IntegrityError of
    [UNIQUE(course_id, student_id)]. *)
Definition insert_enrollment (e : Database.enrollment)
    (l : list Database.enrollment) : option (list Database.enrollment) :=
  if existsb (fun x => (Database.e_course_id x =? Database.e_course_id e) &&
                       String.eqb (Database.e_student_id x)
                                  (Database.e_student_id e)) l
  then None
  else Some (l ++ [e]).

Definition enroll_student (catalog : list course_row) (d : Database.t)
    (course_id : Z) (student_id : string) : bool * Database.t :=
  let is_enrolled_in_section :=
    0 <? Z.of_nat (List.length
                     (filter (fun e => (Database.e_course_id e =? course_id) &&
                                       String.eqb (Database.e_student_id e)
                                                  student_id)
                             (Database.enrollments d))) in
  if is_enrolled_in_section then (false, d)
  else
    match find (fun c => reference_number c =? course_id) catalog with
    | None => (false, d)
    | Some result =>
        let course_code := code result in
        if in_other_section catalog d student_id course_code course_id
        then (false, d)
        else
          match get_enrollment_data catalog d course_id with
          | None => (false, d)
          | Some enrollment_data =>
              if data_capacity enrollment_data <=? enrolled enrollment_data
              then (false, d)
              else
                match insert_enrollment
                        (Database.mk_enrollment course_id student_id)
                        (Database.enrollments d) with
                | Some l => (true, set_enrollments d l)
                | None => (false, d)
                end
          end
    end.

(** [DELETE FROM enrollments WHERE course_id = ? AND student_id = ?] *)
Definition unenroll_student (d : Database.t) (course_id : Z)
    (student_id : string) : Database.t :=
  set_enrollments d
    (filter (fun e => negb ((Database.e_course_id e =? course_id) &&
                            String.eqb (Database.e_student_id e) student_id))
            (Database.enrollments d)).

(** *** Notions used to state the properties *)

(** [UNIQUE(course_id, student_id)] holds of the table. *)
Definition unique_enrollments (d : Database.t) : Prop :=
  NoDup (map (fun e => (Database.e_course_id e, Database.e_student_id e))
             (Database.enrollments d)).

(** [reference_number] is the primary key of [courses]. *)
Definition unique_references (catalog : list course_row) : Prop :=
  NoDup (map reference_number catalog).

(** No section holds more students than its capacity. *)
Definition within_capacity (catalog : list course_row) (d : Database.t)
    : Prop :=
  forall c, In c catalog -> enrolled_count d (reference_number c) <= capacity c.

(** A student is enrolled in at most one section of a course code. *)
Definition single_section (catalog : list course_row) (d : Database.t)
    : Prop :=
  forall e1 e2 c1 c2,
    In e1 (Database.enrollments d) -> In e2 (Database.enrollments d) ->
    Database.e_student_id e1 = Database.e_student_id e2 ->
    In c1 catalog -> In c2 catalog ->
    reference_number c1 = Database.e_course_id e1 ->
    reference_number c2 = Database.e_course_id e2 ->
    code c1 = code c2 ->
    Database.e_course_id e1 = Database.e_course_id e2.

End Registrar.

(** ** attendance_tracker.py *)

Module Tracker.
Import Config.

(** [self.max_absence_percentage] *)
Definition max_absence_percentage : Q := 20.

Record student_attendance : Type := mk_student_attendance {
  percentage : Q;
  absence_count : Z;
  total_lectures : Z;
  absence_dates : list string;
  sa_max_absence_percentage : Q
}.

(** [COUNT(DISTINCT date)] over a list of rows *)
Definition count_distinct_dates (rows : list Database.attendance_row) : Z :=
  Z.of_nat (List.length (nodup string_dec (map Database.date rows))).

(** [WHERE course_id = ? AND is_cancelled = 0] *)
Definition held (reference : Z) (r : Database.attendance_row) : bool :=
  (Database.course_id r =? reference) && negb (Database.is_cancelled r).

(** [status IN ('Absent', 'Unauthorized Departure')] *)
Definition is_absence (r : Database.attendance_row) : bool :=
  status_eqb (Database.status r) STATUS_ABSENT ||
  status_eqb (Database.status r) STATUS_UNAUTHORIZED_DEPARTURE.

(** [WHERE student_id = ? AND course_id = ? AND is_cancelled = 0] *)
Definition held_for (student_id : string) (reference : Z)
    (r : Database.attendance_row) : bool :=
  String.eqb (Database.student_id r) student_id && held reference r.

(** [ORDER BY date DESC] and [absence_dates.sort(reverse=True)] *)
Fixpoint insert_desc (x : string) (l : list string) : list string :=
  match l with
  | [] => [x]
  | y :: rest =>
      if String.leb y x then x :: l else y :: insert_desc x rest
  end.

Definition sort_desc (l : list string) : list string :=
  fold_right insert_desc [] l.

(** [100.0 * (total_lectures - absence_count) / total_lectures] *)
Definition attendance_percentage (total absent : Z) : Q :=
  (100 * inject_Z (total - absent) / inject_Z total)%Q.

Definition get_student_attendance (d : Database.t) (student_id : string)
    (reference : Z) : student_attendance :=
  let total_lectures :=
    count_distinct_dates (filter (held reference) (Database.attendance d)) in
  if total_lectures =? 0 then
    mk_student_attendance 100 0 0 [] max_absence_percentage
  else
    let absences :=
      filter (fun r => held_for student_id reference r && is_absence r)
             (Database.attendance d) in
    let absence_count := Z.of_nat (List.length absences) in
    let absence_dates := sort_desc (map Database.date absences) in
    mk_student_attendance
      (attendance_percentage total_lectures absence_count)
      absence_count total_lectures absence_dates max_absence_percentage.

Record student_stat : Type := mk_student_stat {
  ss_student_id : string;
  ss_student_name : string;
  ss_percentage : Q;
  ss_absence_count : Z;
  ss_total_lectures : Z;
  ss_absence_dates : list string;
  ss_max_absence_percentage : Q
}.

(** The summary; the ['total_lectures'] key is missing when no lecture was
    held. *)
Record summary : Type := mk_summary {
  good_count : Z;
  warning_count : Z;
  risk_count : Z;
  denied_count : Z;
  student_stats : list student_stat;
  summary_total_lectures : option Z
}.

(** [SELECT e.student_id, u.name FROM enrollments e JOIN users u
    ON e.student_id = u.id WHERE e.course_id = ?] *)
Definition enrolled_with_names (d : Database.t) (reference : Z)
    : list (string * string) :=
  flat_map (fun e =>
              if Database.e_course_id e =? reference then
                map (fun u => (Database.e_student_id e, Database.name u))
                    (filter (fun u => String.eqb (Database.id u)
                                                 (Database.e_student_id e))
                            (Database.users d))
              else [])
           (Database.enrollments d).

(** The inner loop over the records of a student. *)
Fixpoint count_absences (records : list Database.attendance_row)
    (absence_count : Z) (absence_dates : list string) : Z * list string :=
  match records with
  | [] => (absence_count, absence_dates)
  | r :: rest =>
      if is_absence r
      then count_absences rest (absence_count + 1)
                          (absence_dates ++ [Database.date r])
      else count_absences rest absence_count absence_dates
  end.

(** The body of the loop over the students. *)
Definition summary_step (d : Database.t) (reference : Z) (total_lectures : Z)
    (acc : summary) (student : string * string) : summary :=
  let '(student_id, student_name) := student in
  let records := filter (held_for student_id reference) (Database.attendance d) in
  let '(absence_count, absence_dates) := count_absences records 0 [] in
  let attendance_percentage :=
    if 0 <? total_lectures
    then attendance_percentage total_lectures absence_count
    else 100%Q in
  let absence_dates := sort_desc absence_dates in
  let stat := mk_student_stat student_id student_name attendance_percentage
                              absence_count total_lectures absence_dates
                              max_absence_percentage in
  if Qle_bool 90 attendance_percentage then
    mk_summary (good_count acc + 1) (warning_count acc) (risk_count acc)
               (denied_count acc) (student_stats acc ++ [stat])
               (summary_total_lectures acc)
  else if Qle_bool 85 attendance_percentage then
    mk_summary (good_count acc) (warning_count acc + 1) (risk_count acc)
               (denied_count acc) (student_stats acc ++ [stat])
               (summary_total_lectures acc)
  else if Qle_bool 80 attendance_percentage then
    mk_summary (good_count acc) (warning_count acc) (risk_count acc + 1)
               (denied_count acc) (student_stats acc ++ [stat])
               (summary_total_lectures acc)
  else
    mk_summary (good_count acc) (warning_count acc) (risk_count acc)
               (denied_count acc + 1) (student_stats acc ++ [stat])
               (summary_total_lectures acc).

Definition get_course_attendance_summary (d : Database.t) (reference : Z)
    : summary :=
  let students := enrolled_with_names d reference in
  let total_lectures :=
    count_distinct_dates (filter (held reference) (Database.attendance d)) in
  if total_lectures =? 0 then
    mk_summary (Z.of_nat (List.length students)) 0 0 0 [] None
  else
    fold_left (summary_step d reference total_lectures) students
              (mk_summary 0 0 0 0 [] (Some total_lectures)).

(** *** Notions used to state the properties *)

(** A list of dates from the most recent to the oldest. *)
Fixpoint sorted_desc (l : list string) : Prop :=
  match l with
  | [] => True
  | x :: rest =>
      (forall y, In y rest -> String.leb y x = true) /\ sorted_desc rest
  end.

(** The figures of an entry of the summary are those that
    [get_student_attendance] gives for the same student. *)
Definition stat_matches (d : Database.t) (reference : Z) (st : student_stat)
    : Prop :=
  ss_percentage st
    = percentage (get_student_attendance d (ss_student_id st) reference)
  /\ ss_absence_count st
     = absence_count (get_student_attendance d (ss_student_id st) reference)
  /\ ss_total_lectures st
     = total_lectures (get_student_attendance d (ss_student_id st) reference)
  /\ ss_absence_dates st
     = absence_dates (get_student_attendance d (ss_student_id st) reference)
  /\ ss_max_absence_percentage st
     = sa_max_absence_percentage
         (get_student_attendance d (ss_student_id st) reference).

End Tracker.

(** ** attendance_window.py: the "Mark Attendance" button *)

Module Window.
Import Config.

Definition micro : Z := 1000000.

(** [AttendanceWindow.mark_attendance].  [course] is [self.course], read
    when the window was opened; [now_us] is [datetime.now()] in microseconds
    since midnight; the result is the title of the message box and the
    database.  [None] is an IntegrityError of the INSERT, which the method
    does not catch. *)
Definition mark_attendance (d : Database.t) (course : Database.course)
    (course_id : Z) (today : string) (now_us : Z)
    (recognized_students : list (string * string))
    : option (string * Database.t) :=
  match rev recognized_students with
  | [] => Some ("No Student Detected"%string, d)
  | (student_id, name) :: _ =>
      let current_time := now_us / micro in
      match Database.fetch_attendance d student_id course_id today with
      | Some _ => Some ("Already Marked"%string, d)
      | None =>
          let course_start := Database.start_time course in
          let late_threshold := Clock.plus_minutes course_start 15 in
          let status := if now_us >? late_threshold * micro
                        then STATUS_LATE else STATUS_PRESENT in
          match Database.sql_insert
                  (Database.mk_row student_id course_id today
                                   (Some current_time) None status false)
                  (Database.attendance d) with
          | Some rows => Some ("Success"%string, Database.set_attendance d rows)
          | None => None
          end
      end
  end.

End Window.

(** ** Concrete data used by the examples *)

Module Demo.
Import Config Database.

Definition day1 : string := "2024-05-02".
Definition day0 : string := "2024-05-01".

Definition alice : user := mk_user "s1" "Alice".
Definition bob : user := mk_user "s2" "Bob".

(** A course from 08:00 to 09:00. *)
Definition course101 : course := mk_course 101 (Clock.hm 8 0) (Clock.hm 9 0).

Definition with_rows (rows : list attendance_row) : Database.t :=
  mk_db [alice; bob] [course101]
        [mk_enrollment 101 "s1"; mk_enrollment 101 "s2"] [] rows.

(** Nobody has checked in. *)
Definition empty_day : Database.t := with_rows [].

(** Alice checked in at 08:00 and was marked Present. *)
Definition alice_present : attendance_row :=
  mk_row "s1" 101 day1 (Some (Clock.hm 8 0)) None STATUS_PRESENT false.

Definition alice_in : Database.t := with_rows [alice_present].

(** Alice's row after the lecture was cancelled. *)
Definition alice_cancelled : attendance_row :=
  mk_row "s1" 101 day1 (Some (Clock.hm 8 0)) None STATUS_NA true.

Definition cancelled_day : Database.t := with_rows [alice_cancelled].

(** A Present row of the day before with no second check-in. *)
Definition alice_yesterday : attendance_row :=
  mk_row "s1" 101 day0 (Some (Clock.hm 8 0)) None STATUS_PRESENT false.

(** A Late row of the day with no second check-in. *)
Definition bob_late : attendance_row :=
  mk_row "s2" 101 day1 (Some (Clock.hm 8 20)) None STATUS_LATE false.

(** A stand-in for the camera and the model: frames are numbered, every
    frame shows one face at the same place, odd frames fail the texture
    test, and every face encodes to the vector (1, 0). *)
Definition face0 : Vit.rect := (10, 20, 30, 40).

Definition externals : Vit.Externals :=
  {| Vit.Frame := nat;
     Vit.Landmarks := unit;
     Vit.detectMultiScale := fun _ => [face0];
     Vit.analyze_texture := Nat.even;
     Vit.calculate_eye_aspect_ratio := fun _ => (3 # 10)%Q;
     Vit.linalg_norm_diff := fun _ _ => 0%Q;
     Vit.vit_encode := fun _ _ => [1%Q; 0%Q];
     Vit.normalize := fun v => v;
     Vit.float32_dot := Vit.dot;
     Vit.float32_sub := Qminus;
     Vit.float32_div := Qdiv;
     Vit.float32_sub_nonneg :=
       fun a b H => proj1 (Qle_minus_iff b a) H;
     Vit.float32_div_le_one :=
       fun a b Hb H =>
         Qle_shift_div_r a b 1 Hb
           (Qle_trans a b (1 * b) H
              (proj2 (Qle_lteq b (1 * b))
                 (or_intror (Qeq_sym (1 * b) b (Qmult_1_l b))))) |}.

(** A detector that has already counted one head movement. *)
Definition warmed_up : Vit.LivenessDetector :=
  Vit.mk_liveness 0 1 (Some face0) 1 1 [] [] 5.

(** Three enrolled encodings; the last two are both at distance 0 from
    (1, 0). *)
Definition gallery_ids : list string := ["s1"; "s2"; "s3"]%string.
Definition gallery : list (list Q) :=
  [[0%Q; 1%Q]; [1%Q; 0%Q]; [1%Q; 0%Q]].

Definition system : @Vit.ViTFaceRecognitionSystem :=
  Vit.mk_system alice_in gallery gallery_ids warmed_up.

Definition empty_system : @Vit.ViTFaceRecognitionSystem :=
  Vit.mk_system alice_in [] [] warmed_up.

End Demo.

(** ** More concrete data *)

Module Samples.
Import Config Database.

(** A course from 00:02 to 01:00. *)
Definition night_course : course := mk_course 202 (Clock.hm 0 2) (Clock.hm 1 0).

Definition night_school : Database.t :=
  mk_db [Demo.alice] [night_course] [mk_enrollment 202 "s1"] [] [].

(** Two sections of the course CS101, the first with room for one student,
    and one section of MA201. *)
Definition catalog : list Registrar.course_row :=
  [Registrar.mk_course_row 101 "CS101" 1;
   Registrar.mk_course_row 102 "CS101" 30;
   Registrar.mk_course_row 301 "MA201" 30].

(** Nobody is enrolled anywhere. *)
Definition no_enrollment : Database.t :=
  mk_db [Demo.alice; Demo.bob] [Demo.course101] [] [] [].

(** Alice was absent on the first day, left early on the second and was
    present on the third; Bob was present on the three days. *)
Definition day2 : string := "2024-05-03".
Definition day3 : string := "2024-05-06".

Definition term_rows : list attendance_row :=
  [mk_row "s1" 101 Demo.day0 None None STATUS_ABSENT false;
   mk_row "s2" 101 Demo.day0 (Some (Clock.hm 8 0)) (Some (Clock.hm 9 0))
          STATUS_PRESENT false;
   mk_row "s1" 101 Demo.day1 (Some (Clock.hm 8 0)) None
          STATUS_UNAUTHORIZED_DEPARTURE false;
   mk_row "s2" 101 Demo.day1 (Some (Clock.hm 8 0)) (Some (Clock.hm 9 0))
          STATUS_PRESENT false;
   mk_row "s1" 101 day2 (Some (Clock.hm 8 0)) (Some (Clock.hm 9 0))
          STATUS_PRESENT false;
   mk_row "s2" 101 day2 (Some (Clock.hm 8 0)) (Some (Clock.hm 9 0))
          STATUS_PRESENT false].

Definition term : Database.t := Demo.with_rows term_rows.

(** A course from 00:00 to 01:00 and a course from 23:45 to 23:59; nobody
    has checked in. *)
Definition midnight_course : course := mk_course 401 (Clock.hm 0 0) (Clock.hm 1 0).

Definition midnight_school : Database.t :=
  mk_db [Demo.alice] [midnight_course] [mk_enrollment 401 "s1"] [] [].

Definition evening_course : course :=
  mk_course 402 (Clock.hm 23 45) (Clock.hm 23 59).

Definition evening_school : Database.t :=
  mk_db [Demo.alice] [evening_course] [mk_enrollment 402 "s1"] [] [].

(** A course from 23:00 to 23:55, where Alice checked in at 23:00. *)
Definition late_course : course := mk_course 403 (Clock.hm 23 0) (Clock.hm 23 55).

Definition alice_at_eleven : attendance_row :=
  mk_row "s1" 403 Demo.day1 (Some (Clock.hm 23 0)) None STATUS_PRESENT false.

Definition late_school : Database.t :=
  mk_db [Demo.alice] [late_course] [mk_enrollment 403 "s1"] []
        [alice_at_eleven].

(** Alice checked in at 08:00 and was then removed from the course: her
    row of the day stays. *)
Definition alice_unenrolled : Database.t :=
  Registrar.unenroll_student Demo.alice_in 101 "s1".

(** A gallery whose last two entries have the dot product 335544 / 2^24
    with the query (1, 0), so that their distance is 16441672 / 2^24, the
    float32 next above 0.98.  On these values every operation of the
    matching is exact in float32. *)
Definition boundary_entry : list Q :=
  [(335544 # 16777216)%Q; (16773861 # 16777216)%Q].

Definition boundary_gallery : list (list Q) :=
  [[0%Q; 1%Q]; boundary_entry; boundary_entry].

Definition boundary_system : @Vit.ViTFaceRecognitionSystem :=
  Vit.mk_system Demo.alice_in boundary_gallery Demo.gallery_ids Demo.warmed_up.

End Samples.

(** * Properties *)

Import Config.

(** ** Times of day *)

Lemma minus_minutes_no_wrap (x m : Z) :
  0 <= x - 60 * m < Clock.seconds_per_day ->
  Clock.minus_minutes x m = x - 60 * m.
Proof.
  intros H. unfold Clock.minus_minutes. now apply Z.mod_small.
Qed.

Lemma plus_minutes_no_wrap (x m : Z) :
  0 <= x + 60 * m < Clock.seconds_per_day ->
  Clock.plus_minutes x m = x + 60 * m.
Proof.
  intros H. unfold Clock.plus_minutes. now apply Z.mod_small.
Qed.

Lemma minus_minutes_valid (x m : Z) : Clock.valid (Clock.minus_minutes x m).
Proof.
  unfold Clock.valid, Clock.minus_minutes, Clock.seconds_per_day.
  apply Z.mod_pos_bound. lia.
Qed.

Lemma plus_minutes_valid (x m : Z) : Clock.valid (Clock.plus_minutes x m).
Proof.
  unfold Clock.valid, Clock.plus_minutes, Clock.seconds_per_day.
  apply Z.mod_pos_bound. lia.
Qed.

(** Past midnight the computed bound wraps: five minutes before 00:02 is
    23:57 as a time of day. *)
Example minus_minutes_wraps :
  Clock.minus_minutes (Clock.hm 0 2) EARLY_ARRIVAL_MARGIN = Clock.hm 23 57.
Proof. reflexivity. Qed.

(** ** Rows and keys *)

Section Rows.
Import Database.

Lemma find_none_existsb {A : Type} (p : A -> bool) (l : list A) :
  find p l = None -> existsb p l = false.
Proof.
  induction l as [|a l IH]; simpl; [reflexivity|].
  destruct (p a); [discriminate|]. exact IH.
Qed.

Lemma same_key_spec sid cid dt r :
  same_key sid cid dt r = true <->
  student_id r = sid /\ course_id r = cid /\ date r = dt.
Proof.
  unfold same_key. rewrite !andb_true_iff, !String.eqb_eq, Z.eqb_eq. tauto.
Qed.

(** After a [fetchone] that found nothing, the INSERT cannot break the
    UNIQUE constraint. *)
Lemma sql_insert_fresh d sid cid dt tm tm2 st c :
  fetch_attendance d sid cid dt = None ->
  sql_insert (mk_row sid cid dt tm tm2 st c) (attendance d)
  = Some (attendance d ++ [mk_row sid cid dt tm tm2 st c]).
Proof.
  intros H. unfold sql_insert. simpl.
  unfold fetch_attendance in H. now rewrite (find_none_existsb _ _ H).
Qed.

Lemma set_attendance_same d : set_attendance d (attendance d) = d.
Proof. now destruct d. Qed.

(** An UPDATE whose SET clause changes no status leaves the status
    column as it was. *)
Lemma sql_update_status w f rows :
  (forall r, status (f r) = status r) ->
  map status (sql_update w f rows) = map status rows.
Proof.
  intros Hf. unfold sql_update. rewrite map_map. apply map_ext.
  intros r. destruct (w r); [apply Hf | reflexivity].
Qed.

End Rows.

(** ** First check-in *)

Section FirstCheckIn.
Import Database.

(** The window of [auto_mark_attendance] for a first check-in: it is
    accepted exactly from [start - EARLY_ARRIVAL_MARGIN] to ten minutes
    before the end of the day's lecture. *)
Lemma auto_mark_first_window d today now sid cid c :
  get_course_by_id d cid = Some c ->
  fetch_attendance d sid cid today = None ->
  (fst (auto_mark_attendance d today now sid cid) = true <->
   Clock.minus_minutes (start_time c) EARLY_ARRIVAL_MARGIN <= now
     <= Clock.minus_minutes (course_end_on d c cid today) 10).
Proof.
  intros Hc Hf. unfold auto_mark_attendance. rewrite Hc, Hf.
  rewrite sql_insert_fresh by exact Hf.
  destruct (Z.leb_spec (Clock.minus_minutes (start_time c) EARLY_ARRIVAL_MARGIN) now);
    destruct (Z.leb_spec now (Clock.minus_minutes (course_end_on d c cid today) 10));
    simpl; split; intros; try lia; try discriminate; reflexivity.
Qed.

(** The recognition path answers "Class ended" for a first check-in
    exactly when the time is past the end of the lecture itself. *)
Lemma mark_one_class_ended ref today now ce ea lt s1 s2 d sid nm :
  is_student_enrolled_in_course d sid ref = true ->
  fetch_attendance d sid ref today = None ->
  (Vit.mark_one ref today now ce ea lt s1 s2 d sid nm
     = Some (Vit.mk_attendance_result sid nm false "Class ended", d)
   <-> ea <= now /\ ce < now).
Proof.
  intros He Hf. unfold Vit.mark_one. rewrite He, Hf.
  rewrite sql_insert_fresh by exact Hf.
  destruct (Z.ltb_spec now ea).
  - split; [discriminate | lia].
  - rewrite Z.gtb_ltb. destruct (Z.ltb_spec ce now).
    + split; [lia | reflexivity].
    + split; [discriminate | lia].
Qed.

End FirstCheckIn.

(** C1 (the code departs from the claim).  The first check-in window should
    close [EARLY_DEPARTURE_THRESHOLD] = 15 minutes before the end in both
    paths.  For the 08:00-09:00 course, 08:50 is later than 09:00 - 15 min,
    yet [auto_mark_attendance] (which closes the window 10 minutes before
    the end) and the recognition path (which closes it at the end itself)
    both create a row; at 08:55 the two paths moreover disagree with each
    other. *)
Theorem C1_first_checkin_close_evaluated :
  Clock.minus_minutes (Clock.hm 9 0) EARLY_DEPARTURE_THRESHOLD < Clock.hm 8 50
  /\ Database.auto_mark_attendance Demo.empty_day Demo.day1 (Clock.hm 8 50) "s1" 101
     = (true,
        Demo.with_rows
          [Database.mk_row "s1" 101 Demo.day1 (Some (Clock.hm 8 50)) None
                           STATUS_LATE false])
  /\ Vit.mark_attendance_for_recognized_students
       Demo.empty_day Demo.day1 (Clock.hm 8 50) [("s1"%string, "Alice"%string)] 101
     = Some ([Vit.mk_attendance_result "s1" "Alice" true "Marked as Late"],
             Demo.with_rows
               [Database.mk_row "s1" 101 Demo.day1 (Some (Clock.hm 8 50)) None
                                STATUS_LATE false])
  /\ Database.auto_mark_attendance Demo.empty_day Demo.day1 (Clock.hm 8 55) "s1" 101
     = (false, Demo.empty_day)
  /\ Vit.mark_attendance_for_recognized_students
       Demo.empty_day Demo.day1 (Clock.hm 8 55) [("s1"%string, "Alice"%string)] 101
     = Some ([Vit.mk_attendance_result "s1" "Alice" true "Marked as Late"],
             Demo.with_rows
               [Database.mk_row "s1" 101 Demo.day1 (Some (Clock.hm 8 55)) None
                                STATUS_LATE false])
  /\ Vit.mark_attendance_for_recognized_students
       Demo.empty_day Demo.day1 (Clock.hms 9 0 1) [("s1"%string, "Alice"%string)] 101
     = Some ([Vit.mk_attendance_result "s1" "Alice" false "Class ended"],
             Demo.empty_day).
Proof.
  repeat split; vm_compute; reflexivity.
Qed.

(** A first check-in through [auto_mark_attendance], in terms of the
    bounds as the method computes them. *)
Lemma first_checkin_by_time_of_day d today now sid cid c :
  Database.get_course_by_id d cid = Some c ->
  Database.fetch_attendance d sid cid today = None ->
  (now < Clock.minus_minutes (Database.start_time c) EARLY_ARRIVAL_MARGIN ->
   Database.auto_mark_attendance d today now sid cid = (false, d))
  /\
  (Clock.minus_minutes (Database.start_time c) EARLY_ARRIVAL_MARGIN <= now
     <= Clock.minus_minutes (Database.course_end_on d c cid today) 10 ->
   Database.auto_mark_attendance d today now sid cid
   = (true,
      Database.set_attendance d
        (Database.attendance d ++
         [Database.mk_row sid cid today (Some now) None
            (if now <=? Clock.plus_minutes (Database.start_time c) LATE_THRESHOLD
             then STATUS_PRESENT else STATUS_LATE)
            false])))
  /\
  (60 * EARLY_DEPARTURE_THRESHOLD <= Database.course_end_on d c cid today
     < Clock.seconds_per_day ->
   Clock.minus_minutes (Database.start_time c) EARLY_ARRIVAL_MARGIN <= now
     <= Clock.minus_minutes (Database.course_end_on d c cid today)
                            EARLY_DEPARTURE_THRESHOLD ->
   Database.auto_mark_attendance d today now sid cid
   = (true,
      Database.set_attendance d
        (Database.attendance d ++
         [Database.mk_row sid cid today (Some now) None
            (if now <=? Clock.plus_minutes (Database.start_time c) LATE_THRESHOLD
             then STATUS_PRESENT else STATUS_LATE)
            false]))).
Proof.
  intros Hc Hf.
  assert (Hin : Clock.minus_minutes (Database.start_time c) EARLY_ARRIVAL_MARGIN <= now
                <= Clock.minus_minutes (Database.course_end_on d c cid today) 10 ->
          Database.auto_mark_attendance d today now sid cid
          = (true,
             Database.set_attendance d
               (Database.attendance d ++
                [Database.mk_row sid cid today (Some now) None
                   (if now <=? Clock.plus_minutes (Database.start_time c) LATE_THRESHOLD
                    then STATUS_PRESENT else STATUS_LATE)
                   false]))).
  { intros [H1 H2]. unfold Database.auto_mark_attendance. rewrite Hc, Hf.
    apply Z.leb_le in H1. apply Z.leb_le in H2. rewrite H1, H2. simpl.
    rewrite Z.gtb_ltb.
    destruct (Z.leb_spec now (Clock.plus_minutes (Database.start_time c) LATE_THRESHOLD));
      destruct (Z.ltb_spec (Clock.plus_minutes (Database.start_time c) LATE_THRESHOLD) now);
      try lia; now rewrite sql_insert_fresh by exact Hf. }
  split; [|split].
  - intros Hlt. unfold Database.auto_mark_attendance. rewrite Hc, Hf.
    destruct (Z.leb_spec (Clock.minus_minutes (Database.start_time c) EARLY_ARRIVAL_MARGIN) now);
      [lia | reflexivity].
  - exact Hin.
  - intros Hend Hw. apply Hin.
    rewrite (minus_minutes_no_wrap _ EARLY_DEPARTURE_THRESHOLD) in Hw
      by (unfold EARLY_DEPARTURE_THRESHOLD, Clock.seconds_per_day in *; lia).
    rewrite (minus_minutes_no_wrap _ 10)
      by (unfold EARLY_DEPARTURE_THRESHOLD, Clock.seconds_per_day in *; lia).
    unfold EARLY_DEPARTURE_THRESHOLD in *. lia.
Qed.

(** After the close of its window [auto_mark_attendance] refuses a first
    check-in. *)
Lemma first_checkin_after_window d today now sid cid c :
  Database.get_course_by_id d cid = Some c ->
  Database.fetch_attendance d sid cid today = None ->
  Clock.minus_minutes (Database.course_end_on d c cid today) 10 < now ->
  Database.auto_mark_attendance d today now sid cid = (false, d).
Proof.
  intros Hc Hf Hlt. unfold Database.auto_mark_attendance. rewrite Hc, Hf.
  destruct (Z.leb_spec now
              (Clock.minus_minutes (Database.course_end_on d c cid today) 10));
    [lia|]. now rewrite andb_false_r.
Qed.

(** C2 as stated fails next to midnight, where the bounds wrap.  The course
    from 00:00 to 01:00: 00:01 is not before start - 5 min and lies in the
    window, yet the check-in is refused, the early bound being 23:55.  The
    course from 23:45 to 23:59: 23:46 is in the window and not after
    start + 15 min, yet the row is stored as Late, the late bound being
    00:00. *)
Lemma C2_wraps_at_midnight :
  (Database.start_time Samples.midnight_course - 60 * EARLY_ARRIVAL_MARGIN
     <= Clock.hm 0 1
     <= Database.end_time Samples.midnight_course - 60 * 10)
  /\ Database.fetch_attendance Samples.midnight_school "s1" 401 Demo.day1 = None
  /\ Database.auto_mark_attendance Samples.midnight_school Demo.day1
                                   (Clock.hm 0 1) "s1" 401
     = (false, Samples.midnight_school)
  /\ (Database.start_time Samples.evening_course - 60 * EARLY_ARRIVAL_MARGIN
        <= Clock.hm 23 46
        <= Database.end_time Samples.evening_course - 60 * 10)
  /\ Clock.hm 23 46
     <= Database.start_time Samples.evening_course + 60 * LATE_THRESHOLD
  /\ Database.fetch_attendance Samples.evening_school "s1" 402 Demo.day1 = None
  /\ Database.auto_mark_attendance Samples.evening_school Demo.day1
                                   (Clock.hm 23 46) "s1" 402
     = (true,
        Database.set_attendance Samples.evening_school
          [Database.mk_row "s1" 402 Demo.day1 (Some (Clock.hm 23 46)) None
                           STATUS_LATE false]).
Proof.
  repeat split; vm_compute; congruence.
Qed.

(** C2 (amended).  A first check-in through [auto_mark_attendance] (course
    found, no row yet for the student, course and day).  The bounds are
    times of day: [start - EARLY_ARRIVAL_MARGIN], [start + LATE_THRESHOLD]
    and the close of the window, ten minutes before the end of the day's
    lecture, are taken modulo 24 hours.  With the bounds so taken: before
    the early bound the check-in is rejected and the database is left as it
    was; from the early bound to the close of the window a row is appended
    with the current time as first time, no second time, and status Present
    when the time is at most the late bound, Late otherwise; after the close
    it is rejected.  When none of the three bounds crosses midnight (the
    start is at least [EARLY_ARRIVAL_MARGIN] minutes after 00:00,
    [start + LATE_THRESHOLD] is before 24:00 and the end is at least ten
    minutes after 00:00) the same holds of the bounds in plain arithmetic,
    and the window contains the one that closes [EARLY_DEPARTURE_THRESHOLD]
    minutes before the end. *)
Theorem C2_first_checkin_status d today now sid cid c :
  Database.get_course_by_id d cid = Some c ->
  Database.fetch_attendance d sid cid today = None ->
  (now < (Database.start_time c - 60 * EARLY_ARRIVAL_MARGIN) mod 86400 ->
   Database.auto_mark_attendance d today now sid cid = (false, d))
  /\
  ((Database.start_time c - 60 * EARLY_ARRIVAL_MARGIN) mod 86400 <= now
     <= (Database.course_end_on d c cid today - 60 * 10) mod 86400 ->
   Database.auto_mark_attendance d today now sid cid
   = (true,
      Database.set_attendance d
        (Database.attendance d ++
         [Database.mk_row sid cid today (Some now) None
            (if now <=? (Database.start_time c + 60 * LATE_THRESHOLD) mod 86400
             then STATUS_PRESENT else STATUS_LATE)
            false])))
  /\
  ((Database.course_end_on d c cid today - 60 * 10) mod 86400 < now ->
   Database.auto_mark_attendance d today now sid cid = (false, d))
  /\
  (60 * EARLY_ARRIVAL_MARGIN <= Database.start_time c ->
   Database.start_time c + 60 * LATE_THRESHOLD < 86400 ->
   60 * 10 <= Database.course_end_on d c cid today < 86400 ->
   (now < Database.start_time c - 60 * EARLY_ARRIVAL_MARGIN ->
    Database.auto_mark_attendance d today now sid cid = (false, d))
   /\
   (Database.start_time c - 60 * EARLY_ARRIVAL_MARGIN <= now
      <= Database.course_end_on d c cid today - 60 * 10 ->
    Database.auto_mark_attendance d today now sid cid
    = (true,
       Database.set_attendance d
         (Database.attendance d ++
          [Database.mk_row sid cid today (Some now) None
             (if now <=? Database.start_time c + 60 * LATE_THRESHOLD
              then STATUS_PRESENT else STATUS_LATE)
             false])))
   /\
   (Database.course_end_on d c cid today - 60 * 10 < now ->
    Database.auto_mark_attendance d today now sid cid = (false, d))
   /\
   (Database.start_time c - 60 * EARLY_ARRIVAL_MARGIN <= now
      <= Database.course_end_on d c cid today - 60 * EARLY_DEPARTURE_THRESHOLD ->
    Database.auto_mark_attendance d today now sid cid
    = (true,
       Database.set_attendance d
         (Database.attendance d ++
          [Database.mk_row sid cid today (Some now) None
             (if now <=? Database.start_time c + 60 * LATE_THRESHOLD
              then STATUS_PRESENT else STATUS_LATE)
             false])))).
Proof.
  intros Hc Hf.
  destruct (first_checkin_by_time_of_day d today now sid cid c Hc Hf)
    as (Hearly & Hin & _).
  pose proof (first_checkin_after_window d today now sid cid c Hc Hf) as Hafter.
  unfold Clock.minus_minutes, Clock.plus_minutes, Clock.seconds_per_day
    in Hearly, Hin, Hafter.
  split; [exact Hearly|]. split; [exact Hin|]. split; [exact Hafter|].
  intros Hs Hl He.
  assert (E1 : (Database.start_time c - 60 * EARLY_ARRIVAL_MARGIN) mod 86400
               = Database.start_time c - 60 * EARLY_ARRIVAL_MARGIN).
  { apply Z.mod_small. unfold EARLY_ARRIVAL_MARGIN, LATE_THRESHOLD in *. lia. }
  assert (E2 : (Database.start_time c + 60 * LATE_THRESHOLD) mod 86400
               = Database.start_time c + 60 * LATE_THRESHOLD).
  { apply Z.mod_small. unfold EARLY_ARRIVAL_MARGIN, LATE_THRESHOLD in *. lia. }
  assert (E3 : (Database.course_end_on d c cid today - 60 * 10) mod 86400
               = Database.course_end_on d c cid today - 60 * 10).
  { apply Z.mod_small. lia. }
  rewrite E1 in Hearly, Hin. rewrite E2 in Hin. rewrite E3 in Hin, Hafter.
  split; [exact Hearly|]. split; [exact Hin|]. split; [exact Hafter|].
  intros Hw. apply Hin. unfold EARLY_DEPARTURE_THRESHOLD in Hw. lia.
Qed.

(** The instance of section 8: start 08:00, late threshold 15 minutes, margin
    5 minutes; 07:54 is rejected, 07:56 is Present, 08:16 is Late.  Moreover
    08:15 is still Present, 08:50 is the last minute of the window and 08:51
    is rejected; and for the course that starts at 23:45, whose late bound
    is 00:00, 23:46 is Late. *)
Lemma C2_boundary_instance :
  Database.auto_mark_attendance Demo.empty_day Demo.day1 (Clock.hm 7 54) "s1" 101
  = (false, Demo.empty_day)
  /\ Database.auto_mark_attendance Demo.empty_day Demo.day1 (Clock.hm 7 56) "s1" 101
     = (true,
        Demo.with_rows
          [Database.mk_row "s1" 101 Demo.day1 (Some (Clock.hm 7 56)) None
                           STATUS_PRESENT false])
  /\ Database.auto_mark_attendance Demo.empty_day Demo.day1 (Clock.hm 8 16) "s1" 101
     = (true,
        Demo.with_rows
          [Database.mk_row "s1" 101 Demo.day1 (Some (Clock.hm 8 16)) None
                           STATUS_LATE false])
  /\ Database.auto_mark_attendance Demo.empty_day Demo.day1 (Clock.hm 8 15) "s1" 101
     = (true,
        Demo.with_rows
          [Database.mk_row "s1" 101 Demo.day1 (Some (Clock.hm 8 15)) None
                           STATUS_PRESENT false])
  /\ Database.auto_mark_attendance Demo.empty_day Demo.day1 (Clock.hm 8 50) "s1" 101
     = (true,
        Demo.with_rows
          [Database.mk_row "s1" 101 Demo.day1 (Some (Clock.hm 8 50)) None
                           STATUS_LATE false])
  /\ Database.auto_mark_attendance Demo.empty_day Demo.day1 (Clock.hm 8 51) "s1" 101
     = (false, Demo.empty_day)
  /\ Database.auto_mark_attendance Samples.evening_school Demo.day1
                                   (Clock.hm 23 46) "s1" 402
     = (true,
        Database.set_attendance Samples.evening_school
          [Database.mk_row "s1" 402 Demo.day1 (Some (Clock.hm 23 46)) None
                           STATUS_LATE false]).
Proof.
  assert (P1 : 60 * EARLY_ARRIVAL_MARGIN <= Database.start_time Demo.course101)
    by discriminate.
  assert (P2 : Database.start_time Demo.course101 + 60 * LATE_THRESHOLD < 86400)
    by reflexivity.
  assert (P3 : 60 * 10
               <= Database.course_end_on Demo.empty_day Demo.course101 101
                    Demo.day1 < 86400)
    by (split; [discriminate | reflexivity]).
  pose proof (fun now =>
                proj2 (proj2 (proj2
                  (C2_first_checkin_status Demo.empty_day Demo.day1 now
                     "s1" 101 Demo.course101 eq_refl eq_refl))) P1 P2 P3) as B.
  split; [|split; [|split; [|split; [|split; [|split]]]]].
  - apply (proj1 (B (Clock.hm 7 54))). reflexivity.
  - apply (proj1 (proj2 (B (Clock.hm 7 56)))). split; discriminate.
  - apply (proj1 (proj2 (B (Clock.hm 8 16)))). split; discriminate.
  - apply (proj2 (proj2 (proj2 (B (Clock.hm 8 15))))). split; discriminate.
  - apply (proj1 (proj2 (B (Clock.hm 8 50)))). split; discriminate.
  - apply (proj1 (proj2 (proj2 (B (Clock.hm 8 51))))). reflexivity.
  - apply (proj1 (proj2
             (C2_first_checkin_status Samples.evening_school Demo.day1
                (Clock.hm 23 46) "s1" 402 Samples.evening_course
                eq_refl eq_refl))).
    split; discriminate.
Defined.

(** The same first check-in through the recognition path: "Too early"
    before [start - EARLY_ARRIVAL_MARGIN], and from there to the end of the
    lecture a row with the same status rule. *)
Lemma recognition_first_checkin d today now sid nm cid c :
  Database.get_course_by_id d cid = Some c ->
  Database.is_student_enrolled_in_course d sid cid = true ->
  Database.fetch_attendance d sid cid today = None ->
  (now < Clock.minus_minutes (Database.start_time c) EARLY_ARRIVAL_MARGIN ->
   Vit.mark_attendance_for_recognized_students d today now [(sid, nm)] cid
   = Some ([Vit.mk_attendance_result sid nm false "Too early"], d))
  /\
  (Clock.minus_minutes (Database.start_time c) EARLY_ARRIVAL_MARGIN <= now
     <= Database.course_end_on d c cid today ->
   Vit.mark_attendance_for_recognized_students d today now [(sid, nm)] cid
   = Some ([Vit.mk_attendance_result sid nm true
              (String.append "Marked as "
                 (status_text
                    (if now <=? Clock.plus_minutes (Database.start_time c) LATE_THRESHOLD
                     then STATUS_PRESENT else STATUS_LATE)))],
           Database.set_attendance d
             (Database.attendance d ++
              [Database.mk_row sid cid today (Some now) None
                 (if now <=? Clock.plus_minutes (Database.start_time c) LATE_THRESHOLD
                  then STATUS_PRESENT else STATUS_LATE)
                 false]))).
Proof.
  intros Hc He Hf.
  unfold Vit.mark_attendance_for_recognized_students. rewrite Hc.
  unfold Vit.mark_loop, Vit.mark_one. rewrite He, Hf.
  rewrite sql_insert_fresh by exact Hf.
  split.
  - intros Hlt. apply Z.ltb_lt in Hlt. now rewrite Hlt.
  - intros [H1 H2].
    destruct (Z.ltb_spec now
                (Clock.minus_minutes (Database.start_time c) EARLY_ARRIVAL_MARGIN));
      [lia|].
    rewrite Z.gtb_ltb.
    destruct (Z.ltb_spec (Database.course_end_on d c cid today) now); [lia|].
    reflexivity.
Qed.

(** ** Second check-in *)

Section SecondCheckIn.
Import Database.

Lemma find_sql_update sid cid dt f rows :
  (forall r, same_key sid cid dt (f r) = same_key sid cid dt r) ->
  find (same_key sid cid dt) (sql_update (same_key sid cid dt) f rows)
  = option_map f (find (same_key sid cid dt) rows).
Proof.
  intros Hk. induction rows as [|a rows IH]; simpl; [reflexivity|].
  destruct (same_key sid cid dt a) eqn:Ha.
  - now rewrite Hk, Ha.
  - now rewrite Ha.
Qed.

Lemma in_second_window_dec course_end now :
  (Clock.minus_minutes course_end SECOND_CHECKIN_WINDOW <=? now) &&
  (now <=? Clock.plus_minutes course_end SECOND_CHECKIN_WINDOW) = true
  <-> in_second_window course_end now.
Proof.
  unfold in_second_window.
  rewrite andb_true_iff, !Z.leb_le. tauto.
Qed.

End SecondCheckIn.

(** C3 as stated fails in three ways.  On the manual path:
    [mark_attendance] records a second time for a row without one at 08:20,
    far outside the window [08:55, 09:05] of the 09:00 end, and overwrites
    the status.  Next to midnight: for the lecture that ends at 23:55 the
    upper bound of the window is 00:00, and a check-in at 23:55, inside
    [23:50, 24:00], is refused by both automatic paths.  In the recognition
    path: a student with a row who is no longer enrolled is refused inside
    the window, where [auto_mark_attendance] accepts. *)
Lemma C3_manual_mark_has_no_window :
  ~ Database.in_second_window (Clock.hm 9 0) (Clock.hm 8 20)
  /\ Database.fetch_attendance Demo.alice_in "s1" 101 Demo.day1
     = Some Demo.alice_present
  /\ Database.second_time Demo.alice_present = None
  /\ Database.is_cancelled Demo.alice_present = false
  /\ Database.mark_attendance Demo.alice_in "s1" 101 Demo.day1 (Clock.hm 8 20)
                              STATUS_ABSENT
     = (true,
        Demo.with_rows
          [Database.mk_row "s1" 101 Demo.day1 (Some (Clock.hm 8 0))
                           (Some (Clock.hm 8 20)) STATUS_ABSENT false])
  /\ (Database.end_time Samples.late_course - 60 * SECOND_CHECKIN_WINDOW
        <= Clock.hm 23 55
        <= Database.end_time Samples.late_course + 60 * SECOND_CHECKIN_WINDOW)
  /\ Database.fetch_attendance Samples.late_school "s1" 403 Demo.day1
     = Some Samples.alice_at_eleven
  /\ Database.auto_mark_attendance Samples.late_school Demo.day1
                                   (Clock.hm 23 55) "s1" 403
     = (false, Samples.late_school)
  /\ Vit.mark_attendance_for_recognized_students Samples.late_school Demo.day1
       (Clock.hm 23 55) [("s1"%string, "Alice"%string)] 403
     = Some ([Vit.mk_attendance_result "s1" "Alice" false "Already checked in"],
             Samples.late_school)
  /\ (Clock.hm 9 0 - 60 * SECOND_CHECKIN_WINDOW <= Clock.hm 8 58
        <= Clock.hm 9 0 + 60 * SECOND_CHECKIN_WINDOW)
  /\ Database.fetch_attendance Samples.alice_unenrolled "s1" 101 Demo.day1
     = Some Demo.alice_present
  /\ Database.is_student_enrolled_in_course Samples.alice_unenrolled "s1" 101
     = false
  /\ fst (Database.auto_mark_attendance Samples.alice_unenrolled Demo.day1
                                        (Clock.hm 8 58) "s1" 101) = true
  /\ Vit.mark_attendance_for_recognized_students Samples.alice_unenrolled
       Demo.day1 (Clock.hm 8 58) [("s1"%string, "Alice"%string)] 101
     = Some ([Vit.mk_attendance_result "s1" "Alice" false
                "Not enrolled in this course"],
             Samples.alice_unenrolled).
Proof.
  split; [|repeat split; vm_compute; congruence].
  intros [H _]. vm_compute in H. apply H. reflexivity.
Qed.

(** The second check-in through the two automatic paths, in terms of the
    window as the methods compute it. *)
Lemma second_checkin_automatic_paths d today now sid nm cid c r :
  Database.get_course_by_id d cid = Some c ->
  Database.fetch_attendance d sid cid today = Some r ->
  Database.is_cancelled r = false ->
  (Database.second_time r = None ->
   (fst (Database.auto_mark_attendance d today now sid cid) = true <->
    Database.in_second_window (Database.course_end_on d c cid today) now))
  /\
  (Database.second_time r = None ->
   Database.in_second_window (Database.course_end_on d c cid today) now ->
   Database.auto_mark_attendance d today now sid cid
   = (true,
      Database.set_attendance d
        (map (fun x => if Database.same_key sid cid today x
                       then Database.set_second_time now x else x)
             (Database.attendance d)))
   /\ Database.fetch_attendance
        (snd (Database.auto_mark_attendance d today now sid cid)) sid cid today
      = Some (Database.mk_row (Database.student_id r) (Database.course_id r)
                (Database.date r) (Database.time r) (Some now)
                (Database.status r) false))
  /\
  (Database.second_time r <> None \/
   ~ Database.in_second_window (Database.course_end_on d c cid today) now ->
   Database.auto_mark_attendance d today now sid cid = (false, d))
  /\
  map Database.status
      (Database.attendance (snd (Database.auto_mark_attendance d today now sid cid)))
  = map Database.status (Database.attendance d)
  /\
  (Database.is_student_enrolled_in_course d sid cid = true ->
   (Database.second_time r = None ->
    Database.in_second_window (Database.course_end_on d c cid today) now ->
    Vit.mark_attendance_for_recognized_students d today now [(sid, nm)] cid
    = Some ([Vit.mk_attendance_result sid nm true "Second check-in recorded"],
            Database.set_attendance d
              (map (fun x => if Database.same_key sid cid today x
                             then Database.set_second_time now x else x)
                   (Database.attendance d))))
   /\
   (Database.second_time r <> None \/
    ~ Database.in_second_window (Database.course_end_on d c cid today) now ->
    Vit.mark_attendance_for_recognized_students d today now [(sid, nm)] cid
    = Some ([Vit.mk_attendance_result sid nm false "Already checked in"], d))).
Proof.
  intros Hc Hf Hnc.
  pose proof (in_second_window_dec (Database.course_end_on d c cid today) now) as Hw.
  assert (Hacc : Database.second_time r = None ->
                 Database.in_second_window (Database.course_end_on d c cid today) now ->
                 Database.auto_mark_attendance d today now sid cid
                 = (true,
                    Database.set_attendance d
                      (map (fun x => if Database.same_key sid cid today x
                                     then Database.set_second_time now x else x)
                           (Database.attendance d)))).
  { intros Hs Hin. unfold Database.auto_mark_attendance.
    rewrite Hc, Hf, Hnc, Hs. apply Hw in Hin. now rewrite Hin. }
  assert (Hrej : Database.second_time r <> None \/
                 ~ Database.in_second_window (Database.course_end_on d c cid today) now ->
                 Database.auto_mark_attendance d today now sid cid = (false, d)).
  { intros Hor. unfold Database.auto_mark_attendance. rewrite Hc, Hf, Hnc.
    destruct (Database.second_time r) as [t2|]; [reflexivity|].
    destruct Hor as [Hs | Hout]; [now elim Hs|].
    destruct ((Clock.minus_minutes (Database.course_end_on d c cid today)
                 SECOND_CHECKIN_WINDOW <=? now) &&
              (now <=? Clock.plus_minutes (Database.course_end_on d c cid today)
                 SECOND_CHECKIN_WINDOW)) eqn:Hb; [|reflexivity].
    elim Hout. now apply Hw. }
  split; [|split; [|split; [|split]]].
  - intros Hs. split.
    + intros Ht.
      destruct ((Clock.minus_minutes (Database.course_end_on d c cid today)
                   SECOND_CHECKIN_WINDOW <=? now) &&
                (now <=? Clock.plus_minutes (Database.course_end_on d c cid today)
                   SECOND_CHECKIN_WINDOW)) eqn:Hb; [now apply Hw|].
      rewrite Hrej in Ht; [discriminate|].
      right. intros Hin. apply Hw in Hin. congruence.
    + intros Hin. now rewrite Hacc.
  - intros Hs Hin. split; [now apply Hacc|].
    rewrite Hacc by assumption. simpl.
    unfold Database.fetch_attendance. simpl.
    change (map (fun x => if Database.same_key sid cid today x
                          then Database.set_second_time now x else x)
                (Database.attendance d))
      with (Database.sql_update (Database.same_key sid cid today)
              (Database.set_second_time now) (Database.attendance d)).
    rewrite find_sql_update by reflexivity.
    unfold Database.fetch_attendance in Hf. rewrite Hf. simpl.
    unfold Database.set_second_time. now rewrite Hnc.
  - exact Hrej.
  - destruct (Database.second_time r) as [t2|] eqn:Hs.
    + rewrite Hrej; [reflexivity | left; discriminate].
    + destruct ((Clock.minus_minutes (Database.course_end_on d c cid today)
                   SECOND_CHECKIN_WINDOW <=? now) &&
                (now <=? Clock.plus_minutes (Database.course_end_on d c cid today)
                   SECOND_CHECKIN_WINDOW)) eqn:Hb.
      * rewrite Hacc; [|reflexivity | now apply Hw]. simpl.
        apply (sql_update_status (Database.same_key sid cid today)
                 (Database.set_second_time now)).
        reflexivity.
      * rewrite Hrej; [reflexivity|].
        right. intros Hin. apply Hw in Hin. congruence.
  - intros He. split.
    + intros Hs Hin. unfold Vit.mark_attendance_for_recognized_students.
      rewrite Hc. unfold Vit.mark_loop, Vit.mark_one.
      rewrite He, Hf, Hnc, Hs. apply Hw in Hin.
      rewrite andb_true_l. now rewrite Hin.
    + intros Hor. unfold Vit.mark_attendance_for_recognized_students.
      rewrite Hc. unfold Vit.mark_loop, Vit.mark_one.
      rewrite He, Hf, Hnc.
      destruct (Database.second_time r) as [t2|]; [reflexivity|].
      destruct Hor as [Hs | Hout]; [now elim Hs|].
      rewrite andb_true_l.
      destruct ((Clock.minus_minutes (Database.course_end_on d c cid today)
                   SECOND_CHECKIN_WINDOW <=? now) &&
                (now <=? Clock.plus_minutes (Database.course_end_on d c cid today)
                   SECOND_CHECKIN_WINDOW)) eqn:Hb.
      * elim Hout. now apply Hw.
      * reflexivity.
Qed.

(** The manual path on a row that is not cancelled: no window. *)
Lemma manual_second_checkin d today sid cid r tm st :
  Database.fetch_attendance d sid cid today = Some r ->
  Database.is_cancelled r = false ->
  (Database.second_time r = None ->
   Database.mark_attendance d sid cid today tm st
   = (true,
      Database.set_attendance d
        (map (fun x => if Database.same_key sid cid today x
                       then Database.set_second_time_status tm st x else x)
             (Database.attendance d)))
   /\ Database.fetch_attendance
        (snd (Database.mark_attendance d sid cid today tm st)) sid cid today
      = Some (Database.mk_row (Database.student_id r) (Database.course_id r)
                (Database.date r) (Database.time r) (Some tm) st false))
  /\
  (Database.second_time r <> None ->
   Database.mark_attendance d sid cid today tm st = (false, d)).
Proof.
  intros Hf Hnc. unfold Database.mark_attendance. rewrite Hf, Hnc. split.
  - intros Hs. rewrite Hs. split; [reflexivity|]. simpl.
    unfold Database.fetch_attendance. simpl.
    rewrite find_sql_update by reflexivity.
    unfold Database.fetch_attendance in Hf. rewrite Hf. simpl.
    unfold Database.set_second_time_status. now rewrite Hnc.
  - intros Hs. destruct (Database.second_time r); [reflexivity | now elim Hs].
Qed.

(** C3 (amended).  For a row of the student, course and day that is not
    cancelled, [end] being the custom end time of the day if there is one
    and the scheduled end otherwise.  The second check-in window runs from
    [end - SECOND_CHECKIN_WINDOW] to [end + SECOND_CHECKIN_WINDOW], both
    bounds being times of day taken modulo 24 hours; when neither crosses
    midnight it is the interval of plain arithmetic.  [auto_mark_attendance],
    and the recognition path for a student enrolled in the course, accept a
    further check-in exactly when the row has no second time and the current
    time lies in the window; on acceptance the row gets the current time as
    second time and no status changes; otherwise the attempt is rejected
    ("Already checked in" in the recognition path) and the database is left
    as it was.  The recognition path rejects a student who is not enrolled
    in the course ("Not enrolled in this course") and leaves the database as
    it was.  The manual [mark_attendance] applies no window: on a row with
    no second time it sets the second time to the given time and the status
    to the given status; on a row with a second time it is rejected and
    leaves the database as it was. *)
Theorem C3_second_checkin_window d today now sid nm cid c r tm st :
  Database.get_course_by_id d cid = Some c ->
  Database.fetch_attendance d sid cid today = Some r ->
  Database.is_cancelled r = false ->
  (Database.in_second_window (Database.course_end_on d c cid today) now <->
   (Database.course_end_on d c cid today - 60 * SECOND_CHECKIN_WINDOW) mod 86400
     <= now
     <= (Database.course_end_on d c cid today + 60 * SECOND_CHECKIN_WINDOW)
          mod 86400)
  /\
  (60 * SECOND_CHECKIN_WINDOW <= Database.course_end_on d c cid today ->
   Database.course_end_on d c cid today + 60 * SECOND_CHECKIN_WINDOW < 86400 ->
   (Database.in_second_window (Database.course_end_on d c cid today) now <->
    Database.course_end_on d c cid today - 60 * SECOND_CHECKIN_WINDOW
      <= now
      <= Database.course_end_on d c cid today + 60 * SECOND_CHECKIN_WINDOW))
  /\
  (Database.second_time r = None ->
   (fst (Database.auto_mark_attendance d today now sid cid) = true <->
    Database.in_second_window (Database.course_end_on d c cid today) now))
  /\
  (Database.second_time r = None ->
   Database.in_second_window (Database.course_end_on d c cid today) now ->
   Database.auto_mark_attendance d today now sid cid
   = (true,
      Database.set_attendance d
        (map (fun x => if Database.same_key sid cid today x
                       then Database.set_second_time now x else x)
             (Database.attendance d)))
   /\ Database.fetch_attendance
        (snd (Database.auto_mark_attendance d today now sid cid)) sid cid today
      = Some (Database.mk_row (Database.student_id r) (Database.course_id r)
                (Database.date r) (Database.time r) (Some now)
                (Database.status r) false))
  /\
  (Database.second_time r <> None \/
   ~ Database.in_second_window (Database.course_end_on d c cid today) now ->
   Database.auto_mark_attendance d today now sid cid = (false, d))
  /\
  map Database.status
      (Database.attendance (snd (Database.auto_mark_attendance d today now sid cid)))
  = map Database.status (Database.attendance d)
  /\
  (Database.is_student_enrolled_in_course d sid cid = true ->
   (Database.second_time r = None ->
    Database.in_second_window (Database.course_end_on d c cid today) now ->
    Vit.mark_attendance_for_recognized_students d today now [(sid, nm)] cid
    = Some ([Vit.mk_attendance_result sid nm true "Second check-in recorded"],
            Database.set_attendance d
              (map (fun x => if Database.same_key sid cid today x
                             then Database.set_second_time now x else x)
                   (Database.attendance d))))
   /\
   (Database.second_time r <> None \/
    ~ Database.in_second_window (Database.course_end_on d c cid today) now ->
    Vit.mark_attendance_for_recognized_students d today now [(sid, nm)] cid
    = Some ([Vit.mk_attendance_result sid nm false "Already checked in"], d)))
  /\
  (Database.is_student_enrolled_in_course d sid cid = false ->
   Vit.mark_attendance_for_recognized_students d today now [(sid, nm)] cid
   = Some ([Vit.mk_attendance_result sid nm false
              "Not enrolled in this course"], d))
  /\
  (Database.second_time r = None ->
   Database.mark_attendance d sid cid today tm st
   = (true,
      Database.set_attendance d
        (map (fun x => if Database.same_key sid cid today x
                       then Database.set_second_time_status tm st x else x)
             (Database.attendance d)))
   /\ Database.fetch_attendance
        (snd (Database.mark_attendance d sid cid today tm st)) sid cid today
      = Some (Database.mk_row (Database.student_id r) (Database.course_id r)
                (Database.date r) (Database.time r) (Some tm) st false))
  /\
  (Database.second_time r <> None ->
   Database.mark_attendance d sid cid today tm st = (false, d)).
Proof.
  intros Hc Hf Hnc.
  destruct (second_checkin_automatic_paths d today now sid nm cid c r Hc Hf Hnc)
    as (A1 & A2 & A3 & A4 & A5).
  destruct (manual_second_checkin d today sid cid r tm st Hf Hnc) as (M1 & M2).
  split; [reflexivity|].
  split.
  { intros Hlo Hhi. unfold Database.in_second_window.
    rewrite minus_minutes_no_wrap, plus_minutes_no_wrap;
      unfold SECOND_CHECKIN_WINDOW, Clock.seconds_per_day in *; lia. }
  split; [exact A1|]. split; [exact A2|]. split; [exact A3|].
  split; [exact A4|]. split; [exact A5|].
  split; [|split; [exact M1 | exact M2]].
  intros He. unfold Vit.mark_attendance_for_recognized_students.
  rewrite Hc. unfold Vit.mark_loop, Vit.mark_one. now rewrite He.
Qed.

(** The instance of section 8: end 09:00, window 5 minutes; 08:58 is
    accepted and sets the second time, 08:40 is rejected.  Moreover 08:55
    and 09:05 are the first and the last accepted times, and the manual
    path accepts 08:20 and stores the status it is given. *)
Lemma C3_second_checkin_instance :
  Database.auto_mark_attendance Demo.alice_in Demo.day1 (Clock.hm 8 58) "s1" 101
  = (true,
     Demo.with_rows
       [Database.mk_row "s1" 101 Demo.day1 (Some (Clock.hm 8 0))
                        (Some (Clock.hm 8 58)) STATUS_PRESENT false])
  /\ Database.auto_mark_attendance Demo.alice_in Demo.day1 (Clock.hm 8 40) "s1" 101
     = (false, Demo.alice_in)
  /\ (forall now,
        fst (Database.auto_mark_attendance Demo.alice_in Demo.day1 now "s1" 101)
        = true
        <-> Clock.hm 8 55 <= now <= Clock.hm 9 5)
  /\ Database.mark_attendance Demo.alice_in "s1" 101 Demo.day1 (Clock.hm 8 20)
                              STATUS_ABSENT
     = (true,
        Demo.with_rows
          [Database.mk_row "s1" 101 Demo.day1 (Some (Clock.hm 8 0))
                           (Some (Clock.hm 8 20)) STATUS_ABSENT false]).
Proof.
  pose proof (fun now tm st =>
                C3_second_checkin_window Demo.alice_in Demo.day1 now
                  "s1" "Alice" 101 Demo.course101 Demo.alice_present tm st
                  eq_refl eq_refl eq_refl) as T.
  assert (P1 : 60 * SECOND_CHECKIN_WINDOW
               <= Database.course_end_on Demo.alice_in Demo.course101 101
                    Demo.day1) by discriminate.
  assert (P2 : Database.course_end_on Demo.alice_in Demo.course101 101 Demo.day1
               + 60 * SECOND_CHECKIN_WINDOW < 86400) by reflexivity.
  split; [|split; [|split]].
  - destruct (T (Clock.hm 8 58) 0 STATUS_PRESENT)
      as (_ & W & _ & Hacc & _).
    refine (proj1 (Hacc eq_refl _)).
    apply (W P1 P2). split; discriminate.
  - destruct (T (Clock.hm 8 40) 0 STATUS_PRESENT)
      as (_ & W & _ & _ & Hrej & _).
    apply Hrej. right. intros Hin. apply (W P1 P2) in Hin.
    destruct Hin as [Hin _]. apply Hin. reflexivity.
  - intros now.
    destruct (T now 0 STATUS_PRESENT) as (_ & W & Hiff & _).
    rewrite (Hiff eq_refl). exact (W P1 P2).
  - destruct (T 0 (Clock.hm 8 20) STATUS_ABSENT)
      as (_ & _ & _ & _ & _ & _ & _ & _ & Hman & _).
    exact (proj1 (Hman eq_refl)).
Defined.

(** ** Cancelled lectures are locked *)

Section Cancelled.
Import Database.

Lemma same_key_refl r : same_key (student_id r) (course_id r) (date r) r = true.
Proof. apply same_key_spec. auto. Qed.

Lemma same_key_row_key r x :
  same_key (student_id r) (course_id r) (date r) x = true ->
  row_key x = row_key r.
Proof.
  intros H. apply same_key_spec in H. destruct H as (H1 & H2 & H3).
  unfold row_key. now rewrite H1, H2, H3.
Qed.

(** Under the UNIQUE constraint, [fetchone] on the key of a stored row
    returns that row. *)
Lemma fetch_unique rows r :
  unique_keys rows -> In r rows ->
  find (same_key (student_id r) (course_id r) (date r)) rows = Some r.
Proof.
  unfold unique_keys. induction rows as [|a rows IH]; intros Hu Hin.
  - destruct Hin.
  - simpl in Hu. inversion Hu as [|k ks Hnotin Hrest]; subst.
    simpl. destruct Hin as [-> | Hin].
    + now rewrite same_key_refl.
    + destruct (same_key (student_id r) (course_id r) (date r) a) eqn:Ha.
      * exfalso. apply Hnotin. rewrite (same_key_row_key _ _ Ha).
        now apply in_map.
      * now apply IH.
Qed.

End Cancelled.

(** C6.  Once the row of a student, course and date has [is_cancelled] set,
    [mark_attendance] and [auto_mark_attendance] on that student, course and
    date return [False] and leave the whole database as it was, whatever
    the time and the status given. *)
Theorem C6_cancelled_is_terminal d r tm st now :
  Database.unique_keys (Database.attendance d) ->
  In r (Database.attendance d) ->
  Database.is_cancelled r = true ->
  Database.mark_attendance d (Database.student_id r) (Database.course_id r)
                           (Database.date r) tm st = (false, d)
  /\ Database.auto_mark_attendance d (Database.date r) now
                                   (Database.student_id r) (Database.course_id r)
     = (false, d).
Proof.
  intros Hu Hin Hc.
  pose proof (fetch_unique _ _ Hu Hin) as Hf.
  split.
  - unfold Database.mark_attendance, Database.fetch_attendance.
    now rewrite Hf, Hc.
  - unfold Database.auto_mark_attendance, Database.fetch_attendance.
    destruct (Database.get_course_by_id d (Database.course_id r)); [|reflexivity].
    now rewrite Hf, Hc.
Qed.

Lemma C6_cancelled_instance :
  Database.mark_attendance Demo.cancelled_day "s1" 101 Demo.day1 (Clock.hm 8 58)
                           STATUS_PRESENT = (false, Demo.cancelled_day)
  /\ Database.auto_mark_attendance Demo.cancelled_day Demo.day1 (Clock.hm 8 58)
                                   "s1" 101 = (false, Demo.cancelled_day).
Proof.
  refine (C6_cancelled_is_terminal Demo.cancelled_day Demo.alice_cancelled
            (Clock.hm 8 58) STATUS_PRESENT (Clock.hm 8 58) _ _ eq_refl).
  - unfold Database.unique_keys. simpl. constructor.
    + intros H. destruct H.
    + constructor.
  - simpl. left. reflexivity.
Defined.

(** The recognition path answers "Class cancelled" on such a row and writes
    nothing. *)
Lemma recognition_cancelled d today now sid nm cid c r :
  Database.get_course_by_id d cid = Some c ->
  Database.is_student_enrolled_in_course d sid cid = true ->
  Database.fetch_attendance d sid cid today = Some r ->
  Database.is_cancelled r = true ->
  Vit.mark_attendance_for_recognized_students d today now [(sid, nm)] cid
  = Some ([Vit.mk_attendance_result sid nm false "Class cancelled"], d).
Proof.
  intros Hc He Hf Hcan.
  unfold Vit.mark_attendance_for_recognized_students. rewrite Hc.
  unfold Vit.mark_loop, Vit.mark_one. now rewrite He, Hf, Hcan.
Qed.

(** ** End-of-day reconciliation *)

(** C5 as stated fails for rows of another day: a Present row of the day
    before, with a first time, no second time and not cancelled, is left
    Present by the batch run on [day1]. *)
Lemma C5_other_day_not_reconciled :
  Database.is_cancelled Demo.alice_yesterday = false
  /\ Database.time Demo.alice_yesterday = Some (Clock.hm 8 0)
  /\ Database.second_time Demo.alice_yesterday = None
  /\ Database.status Demo.alice_yesterday = STATUS_PRESENT
  /\ Database.update_partial_attendance
       (Demo.with_rows [Demo.alice_yesterday]) Demo.day1
     = (true, Demo.with_rows [Demo.alice_yesterday]).
Proof.
  repeat split.
Qed.

Lemma partial_where_spec today r :
  Database.partial_where today r = true <->
  Database.date r = today /\ Database.time r <> None /\
  Database.second_time r = None /\ Database.status r = STATUS_PRESENT /\
  Database.is_cancelled r = false.
Proof.
  unfold Database.partial_where.
  rewrite !andb_true_iff, String.eqb_eq, negb_true_iff.
  destruct (Database.time r), (Database.second_time r), (Database.status r);
    simpl; intuition congruence.
Qed.

(** C5 (amended to the rows of the current day).  The batch returns [True];
    row by row, a row dated today that is not cancelled, has a first time,
    no second time and status Present gets status Unauthorized Departure
    and keeps its other fields; every other row, so every Late row and
    every row of another day, is left as it was; no row is added or
    removed. *)
Theorem C5_reconciliation d today i r :
  nth_error (Database.attendance d) i = Some r ->
  fst (Database.update_partial_attendance d today) = true
  /\ List.length (Database.attendance
                    (snd (Database.update_partial_attendance d today)))
     = List.length (Database.attendance d)
  /\ (Database.date r = today ->
      Database.time r <> None ->
      Database.second_time r = None ->
      Database.status r = STATUS_PRESENT ->
      Database.is_cancelled r = false ->
      nth_error (Database.attendance
                   (snd (Database.update_partial_attendance d today))) i
      = Some (Database.mk_row (Database.student_id r) (Database.course_id r)
                (Database.date r) (Database.time r) None
                STATUS_UNAUTHORIZED_DEPARTURE false))
  /\ (Database.date r <> today \/ Database.time r = None \/
      Database.second_time r <> None \/ Database.status r <> STATUS_PRESENT \/
      Database.is_cancelled r = true ->
      nth_error (Database.attendance
                   (snd (Database.update_partial_attendance d today))) i
      = Some r)
  /\ (Database.status r = STATUS_LATE ->
      nth_error (Database.attendance
                   (snd (Database.update_partial_attendance d today))) i
      = Some r).
Proof.
  intros Hi.
  assert (Hnth : nth_error (Database.attendance
                   (snd (Database.update_partial_attendance d today))) i
                 = Some (if Database.partial_where today r
                         then Database.set_status STATUS_UNAUTHORIZED_DEPARTURE r
                         else r)).
  { simpl. unfold Database.sql_update. rewrite nth_error_map, Hi. reflexivity. }
  assert (Hother : Database.partial_where today r = false ->
                   nth_error (Database.attendance
                     (snd (Database.update_partial_attendance d today))) i
                   = Some r).
  { intros Hp. now rewrite Hnth, Hp. }
  split; [reflexivity|]. split.
  { simpl. unfold Database.sql_update. apply length_map. }
  split; [|split].
  - intros H1 H2 H3 H4 H5. rewrite Hnth.
    assert (Hp : Database.partial_where today r = true)
      by (apply partial_where_spec; auto).
    rewrite Hp. unfold Database.set_status. now rewrite H3, H5.
  - intros Hor. apply Hother.
    destruct (Database.partial_where today r) eqn:Hp; [|reflexivity].
    apply partial_where_spec in Hp. destruct Hp as (P1 & P2 & P3 & P4 & P5).
    destruct Hor as [H|[H|[H|[H|H]]]]; congruence.
  - intros Hl. apply Hother.
    destruct (Database.partial_where today r) eqn:Hp; [|reflexivity].
    apply partial_where_spec in Hp. destruct Hp as (P1 & P2 & P3 & P4 & P5).
    congruence.
Qed.

(** The instance of section 8: the Present row with no second time becomes
    Unauthorized Departure, the Late row of the same shape stays Late. *)
Lemma C5_reconciliation_instance :
  nth_error (Database.attendance
               (snd (Database.update_partial_attendance
                       (Demo.with_rows [Demo.alice_present; Demo.bob_late])
                       Demo.day1))) 0
  = Some (Database.mk_row "s1" 101 Demo.day1 (Some (Clock.hm 8 0)) None
            STATUS_UNAUTHORIZED_DEPARTURE false)
  /\ nth_error (Database.attendance
                  (snd (Database.update_partial_attendance
                          (Demo.with_rows [Demo.alice_present; Demo.bob_late])
                          Demo.day1))) 1
     = Some Demo.bob_late.
Proof.
  split.
  - refine (proj1 (proj2 (proj2
             (C5_reconciliation (Demo.with_rows [Demo.alice_present; Demo.bob_late])
                Demo.day1 0%nat Demo.alice_present eq_refl)))
             eq_refl _ eq_refl eq_refl eq_refl).
    discriminate.
  - exact (proj2 (proj2 (proj2 (proj2
             (C5_reconciliation (Demo.with_rows [Demo.alice_present; Demo.bob_late])
                Demo.day1 1%nat Demo.bob_late eq_refl)))) eq_refl).
Defined.

(** ** Lecture cancellation *)

Section Cancel.
Import Database.

Lemma count_positive {A : Type} (p : A -> bool) (l : list A) :
  (0 <? Z.of_nat (List.length (filter p l))) = existsb p l.
Proof.
  induction l as [|a l IH]; simpl; [reflexivity|].
  destruct (p a); simpl; [|exact IH].
  apply Z.ltb_lt. lia.
Qed.

Lemma no_lecture_rows_no_key sid cid dt rows :
  existsb (same_lecture cid dt) rows = false ->
  existsb (same_key sid cid dt) rows = false.
Proof.
  induction rows as [|a rows IH]; simpl; [reflexivity|].
  intros H. apply orb_false_iff in H. destruct H as [Ha Hr].
  rewrite (IH Hr), orb_false_r.
  unfold same_key. unfold same_lecture in Ha.
  rewrite <- andb_assoc, Ha. apply andb_false_r.
Qed.

Lemma cancelled_row_marks cid dt sid :
  same_lecture cid dt (cancelled_row cid dt sid) &&
  is_cancelled (cancelled_row cid dt sid) = true.
Proof.
  unfold same_lecture, cancelled_row. simpl.
  now rewrite Z.eqb_refl, String.eqb_refl.
Qed.

(** The loop only appends rows. *)
Lemma insert_cancelled_extends cid dt students :
  forall rows, exists extra,
    snd (insert_cancelled cid dt students rows) = rows ++ extra.
Proof.
  induction students as [|s rest IH]; intros rows; simpl.
  - exists []. now rewrite app_nil_r.
  - destruct (sql_insert (mk_row s cid dt None None STATUS_NA true) rows)
      as [rows'|] eqn:Hi.
    + unfold sql_insert in Hi.
      destruct (existsb _ rows); [discriminate|].
      injection Hi as <-.
      destruct (IH (rows ++ [mk_row s cid dt None None STATUS_NA true]))
        as [extra He].
      exists (mk_row s cid dt None None STATUS_NA true :: extra).
      rewrite He. now rewrite <- app_assoc.
    + exists []. now rewrite app_nil_r.
Qed.

(** With distinct students none of whom has a row of the lecture, the
    loop appends one cancelled N/A row per student, in order. *)
Lemma insert_cancelled_fresh cid dt students :
  NoDup students ->
  forall rows,
    (forall s, In s students -> existsb (same_key s cid dt) rows = false) ->
    insert_cancelled cid dt students rows
    = (true, rows ++ map (cancelled_row cid dt) students).
Proof.
  induction 1 as [|s rest Hnotin Hnd IH]; intros rows Hfree; simpl.
  - now rewrite app_nil_r.
  - unfold sql_insert. simpl. rewrite (Hfree s) by now left.
    fold (cancelled_row cid dt s).
    rewrite IH.
    + now rewrite <- app_assoc.
    + intros s' Hs'. rewrite existsb_app, (Hfree s') by now right.
      simpl. rewrite orb_false_r. unfold same_key, cancelled_row. simpl.
      destruct (String.eqb_spec s s') as [->|]; [contradiction | reflexivity].
Qed.

(** Cancelling a lecture that has no row yet, the enrolled students being
    distinct: one N/A row with [is_cancelled] set per enrolled student. *)
Lemma cancel_lecture_no_rows d cid dt :
  lecture_rows d cid dt = [] ->
  NoDup (get_enrolled_students d cid) ->
  cancel_lecture d cid dt
  = (true,
     set_attendance d
       (attendance d ++ map (cancelled_row cid dt) (get_enrolled_students d cid))).
Proof.
  intros Hnone Hnd. unfold lecture_rows in Hnone.
  assert (Hex : existsb (same_lecture cid dt) (attendance d) = false).
  { rewrite <- count_positive, Hnone. reflexivity. }
  unfold cancel_lecture. rewrite !count_positive, Hex.
  assert (Hc : existsb (fun r => same_lecture cid dt r && is_cancelled r)
                       (attendance d) = false).
  { clear - Hex. induction (attendance d) as [|a l IH]; simpl in *;
      [reflexivity|].
    apply orb_false_iff in Hex. destruct Hex as [Ha Hl].
    now rewrite Ha, (IH Hl). }
  rewrite Hc.
  rewrite (insert_cancelled_fresh cid dt _ Hnd); [reflexivity|].
  intros s _. now apply no_lecture_rows_no_key.
Qed.

(** Cancelling a lecture that has rows, none of them cancelled: the rows
    of the lecture are overwritten, and no row is added. *)
Lemma cancel_lecture_existing_rows d cid dt :
  existsb (fun r => same_lecture cid dt r && is_cancelled r) (attendance d)
    = false ->
  lecture_rows d cid dt <> [] ->
  cancel_lecture d cid dt
  = (true,
     set_attendance d
       (map (fun r => if same_lecture cid dt r
                      then mk_row (student_id r) (course_id r) (date r)
                                  (time r) (second_time r) STATUS_NA true
                      else r)
            (attendance d))).
Proof.
  intros Hc Hrows. unfold cancel_lecture. rewrite !count_positive, Hc.
  unfold lecture_rows in Hrows.
  destruct (existsb (same_lecture cid dt) (attendance d)) eqn:Hex;
    [reflexivity|].
  rewrite <- count_positive in Hex.
  destruct (filter (same_lecture cid dt) (attendance d));
    [now elim Hrows | discriminate].
Qed.

(** A second call returns [True] and changes nothing. *)
Lemma cancel_lecture_idempotent d cid dt :
  cancel_lecture (snd (cancel_lecture d cid dt)) cid dt
  = (true, snd (cancel_lecture d cid dt)).
Proof.
  assert (Hdone : forall d',
            existsb (fun r => same_lecture cid dt r && is_cancelled r)
                    (attendance d') = true ->
            cancel_lecture d' cid dt = (true, d')).
  { intros d' H. unfold cancel_lecture. now rewrite count_positive, H. }
  destruct (existsb (fun r => same_lecture cid dt r && is_cancelled r)
                    (attendance d)) eqn:Hc.
  { rewrite (Hdone d Hc). simpl. now apply Hdone. }
  destruct (existsb (same_lecture cid dt) (attendance d)) eqn:Hex.
  - apply Hdone. unfold cancel_lecture. rewrite !count_positive, Hc, Hex.
    simpl. clear Hc Hdone.
    induction (attendance d) as [|a l IH]; simpl in *; [discriminate|].
    destruct (same_lecture cid dt a) eqn:Ha.
    + unfold set_status_cancelled at 1. unfold same_lecture at 1. simpl.
      unfold same_lecture in Ha. now rewrite Ha.
    + rewrite Ha. simpl in Hex. rewrite (IH Hex). apply orb_true_r.
  - destruct (get_enrolled_students d cid) as [|s rest] eqn:Hst.
    + assert (Hsame : cancel_lecture d cid dt = (true, d)).
      { unfold cancel_lecture. rewrite !count_positive, Hc, Hex, Hst.
        simpl. now rewrite set_attendance_same. }
      rewrite Hsame. simpl. exact Hsame.
    + apply Hdone. unfold cancel_lecture.
      rewrite !count_positive, Hc, Hex, Hst. simpl.
      unfold sql_insert. simpl.
      rewrite (no_lecture_rows_no_key s cid dt _ Hex).
      destruct (insert_cancelled_extends cid dt rest
                  (attendance d ++ [mk_row s cid dt None None STATUS_NA true]))
        as [extra He].
      destruct (insert_cancelled cid dt rest
                  (attendance d ++ [mk_row s cid dt None None STATUS_NA true]))
        as [ok out].
      simpl in He. simpl. rewrite He, !existsb_app. simpl.
      fold (cancelled_row cid dt s). rewrite cancelled_row_marks.
      simpl. now rewrite orb_true_r.
Qed.

End Cancel.

(** C4 (the code departs from the claim).  Alice and Bob are enrolled and
    only Alice has a row for the day.  [cancel_lecture] overwrites Alice's
    row and returns [True], but creates no row for Bob: the branch that
    inserts rows for the enrolled students runs only when the lecture has no
    row at all.  A second call returns [True] and adds nothing; Bob can
    still check in on the cancelled day. *)
Theorem C4_cancel_with_partial_rows_evaluated :
  Database.get_enrolled_students Demo.alice_in 101 = ["s1"%string; "s2"%string]
  /\ Database.cancel_lecture Demo.alice_in 101 Demo.day1
     = (true, Demo.cancelled_day)
  /\ Database.attendance Demo.cancelled_day = [Demo.alice_cancelled]
  /\ Database.fetch_attendance Demo.cancelled_day "s2" 101 Demo.day1 = None
  /\ Database.cancel_lecture Demo.cancelled_day 101 Demo.day1
     = (true, Demo.cancelled_day)
  /\ Database.auto_mark_attendance Demo.cancelled_day Demo.day1 (Clock.hm 8 10)
                                   "s2" 101
     = (true,
        Demo.with_rows
          [Demo.alice_cancelled;
           Database.mk_row "s2" 101 Demo.day1 (Some (Clock.hm 8 10)) None
                           STATUS_PRESENT false])
  /\ Database.cancel_lecture Demo.empty_day 101 Demo.day1
     = (true,
        Demo.with_rows
          [Database.mk_row "s1" 101 Demo.day1 None None STATUS_NA true;
           Database.mk_row "s2" 101 Demo.day1 None None STATUS_NA true]).
Proof.
  repeat split.
Qed.

(** ** Liveness *)

Section Liveness.
Import Vit.
Context {E : Externals}.

Lemma detect_blink_counters s lm :
  blink_count s <= blink_count (fst (detect_blink s lm))
  /\ head_movement_count (fst (detect_blink s lm)) = head_movement_count s
  /\ required_blinks (fst (detect_blink s lm)) = required_blinks s
  /\ required_movements (fst (detect_blink s lm)) = required_movements s.
Proof.
  unfold detect_blink.
  destruct (List.length _ <? history_size s)%nat; simpl;
    [repeat split; lia|].
  destruct (Qltb _ _); simpl; repeat split; lia.
Qed.

Lemma detect_head_movement_counters s p :
  blink_count (fst (detect_head_movement s p)) = blink_count s
  /\ head_movement_count s <= head_movement_count (fst (detect_head_movement s p))
  /\ required_blinks (fst (detect_head_movement s p)) = required_blinks s
  /\ required_movements (fst (detect_head_movement s p)) = required_movements s.
Proof.
  unfold detect_head_movement.
  destruct (last_face_position s); simpl; [|repeat split; lia].
  destruct (List.length _ <? history_size s)%nat; simpl;
    [repeat split; lia|].
  destruct (Qltb _ _); simpl; repeat split; lia.
Qed.

Lemma check_liveness_counters s img lm pos :
  blink_count s <= blink_count (fst (check_liveness s img lm pos))
  /\ head_movement_count s <= head_movement_count (fst (check_liveness s img lm pos))
  /\ required_blinks (fst (check_liveness s img lm pos)) = required_blinks s
  /\ required_movements (fst (check_liveness s img lm pos)) = required_movements s.
Proof.
  unfold check_liveness. simpl.
  destruct lm as [l|], pos as [p|].
  - destruct (detect_blink_counters s l) as (B1 & B2 & B3 & B4).
    destruct (detect_head_movement_counters (fst (detect_blink s l)) p)
      as (H1 & H2 & H3 & H4).
    repeat split; lia.
  - destruct (detect_blink_counters s l) as (B1 & B2 & B3 & B4).
    repeat split; lia.
  - destruct (detect_head_movement_counters s p) as (H1 & H2 & H3 & H4).
    repeat split; lia.
  - repeat split; lia.
Qed.

Lemma check_liveness_result s img lm pos :
  snd (check_liveness s img lm pos) = true <->
  count_condition (fst (check_liveness s img lm pos)) /\
  analyze_texture img = true.
Proof.
  unfold check_liveness, count_condition. simpl.
  rewrite andb_true_iff, orb_true_iff, !Z.leb_le. tauto.
Qed.

Lemma count_condition_kept s img lm pos :
  count_condition s -> count_condition (fst (check_liveness s img lm pos)).
Proof.
  unfold count_condition.
  destruct (check_liveness_counters s img lm pos) as (H1 & H2 & H3 & H4).
  lia.
Qed.

Lemma run_checks_counters calls :
  forall s,
    blink_count s <= blink_count (run_checks s calls)
    /\ head_movement_count s <= head_movement_count (run_checks s calls)
    /\ required_blinks (run_checks s calls) = required_blinks s
    /\ required_movements (run_checks s calls) = required_movements s.
Proof.
  induction calls as [|[[img lm] pos] rest IH]; intros s; cbn [run_checks].
  - repeat split; lia.
  - destruct (IH (fst (check_liveness s img lm pos))) as (I1 & I2 & I3 & I4).
    destruct (check_liveness_counters s img lm pos) as (H1 & H2 & H3 & H4).
    repeat split; lia.
Qed.

(** Whatever a face gets, the detector it leaves behind is the one
    [check_liveness] returns. *)
Lemma recognize_face_detector sys frame reference live res face st' :
  recognize_face sys frame reference (live, res) face = Some st' ->
  fst st' = fst (check_liveness live frame None (Some face)).
Proof.
  unfold recognize_face.
  destruct (check_liveness live frame None (Some face)) as [live' ok].
  simpl.
  destruct ok; simpl.
  - destruct (0 <? _)%nat; [|now intros [= <-]].
    destruct (Qle_bool _ _); [|now intros [= <-]].
    destruct (nth_error _ _); [|discriminate].
    destruct (match reference with Some _ => _ | None => _ end);
      now intros [= <-].
  - now intros [= <-].
Qed.

(** The detector is threaded through all the faces of a frame. *)
Lemma recognize_loop_detector sys frame reference faces :
  forall live res st',
    recognize_loop sys frame reference faces (live, res) = Some st' ->
    fst st' = run_checks live (map (fun f => (frame, None, Some f)) faces).
Proof.
  induction faces as [|face rest IH]; intros live res st';
    cbn [recognize_loop map run_checks].
  - now intros [= <-].
  - destruct (recognize_face sys frame reference (live, res) face)
      as [[live1 res1]|] eqn:Hf; [|discriminate].
    apply recognize_face_detector in Hf. cbn [fst] in Hf. rewrite <- Hf.
    apply IH.
Qed.

End Liveness.



(** C10.  Over any run of [check_liveness] calls on the detector of a
    session, whatever the images and face positions, the blink and head
    movement counters never decrease; [reset] sets both to zero.  The
    counters belong to the detector and not to a face: once one of them has
    reached its required count, the count test holds after any further
    calls, and every later call, for any face position, returns the result
    of the texture analysis alone.  The detector that [recognize_faces]
    keeps for the next frame has gone through one such call per face. *)
Theorem C10_session_wide_counters {E : Vit.Externals}
    (s : Vit.LivenessDetector)
    (calls : list (Vit.Frame * option Vit.Landmarks * option Vit.rect))
    (img : Vit.Frame) (lm : option Vit.Landmarks) (pos : option Vit.rect) :
  (Vit.blink_count s <= Vit.blink_count (Vit.run_checks s calls)
   /\ Vit.head_movement_count s <= Vit.head_movement_count (Vit.run_checks s calls))
  /\
  (Vit.blink_count (Vit.reset s) = 0 /\ Vit.head_movement_count (Vit.reset s) = 0)
  /\
  (Vit.count_condition s ->
   Vit.count_condition (Vit.run_checks s calls)
   /\ snd (Vit.check_liveness (Vit.run_checks s calls) img lm pos)
      = Vit.analyze_texture img)
  /\
  (forall sys frame reference sys' res,
     Vit.liveness_detector sys = s ->
     Vit.count_condition s ->
     Vit.recognize_faces sys frame reference = Some (sys', res) ->
     Vit.count_condition (Vit.liveness_detector sys')).
Proof.
  assert (Hkeep : forall cs, Vit.count_condition s ->
                             Vit.count_condition (Vit.run_checks s cs)).
  { intros cs Hc. unfold Vit.count_condition in *.
    destruct (run_checks_counters cs s) as (H1 & H2 & H3 & H4). lia. }
  split; [|split; [|split]].
  - destruct (run_checks_counters calls s) as (H1 & H2 & _). now split.
  - now split.
  - intros Hc. split; [now apply Hkeep|].
    pose proof (count_condition_kept (Vit.run_checks s calls) img lm pos
                  (Hkeep calls Hc)) as Hafter.
    pose proof (check_liveness_result (Vit.run_checks s calls) img lm pos) as Hres.
    destruct (Vit.analyze_texture img) eqn:Ht.
    + apply Hres. now split.
    + destruct (snd (Vit.check_liveness (Vit.run_checks s calls) img lm pos));
        [|reflexivity].
      destruct Hres as [Hres _]. destruct (Hres eq_refl) as [_ Hx]. discriminate.
  - intros sys frame reference sys' res Hs Hc Hrun.
    unfold Vit.recognize_faces in Hrun.
    destruct (Vit.known_face_encodings sys);
      [injection Hrun as <- _; now rewrite Hs|].
    destruct (Vit.detectMultiScale frame) as [|f fs] eqn:Hd;
      [injection Hrun as <- _; now rewrite Hs|].
    destruct (Vit.recognize_loop sys frame reference (f :: fs)
                (Vit.liveness_detector sys, Vit.mk_results [] []))
      as [[live res1]|] eqn:Hl; [|discriminate].
    injection Hrun as <- _. simpl.
    apply recognize_loop_detector in Hl. simpl fst in Hl. rewrite Hl, Hs.
    now apply Hkeep.
Qed.

(** The detector has counted one movement of the face at [face0]; after a
    further frame, a face at another place of an even frame is accepted on
    its texture alone. *)
Lemma C10_session_instance :
  snd (@Vit.check_liveness Demo.externals
         (@Vit.run_checks Demo.externals Demo.warmed_up
            [(0%nat, None, Some Demo.face0)])
         2%nat None (Some (200, 300, 30, 40)))
  = true.
Proof.
  refine (proj2 (proj1 (proj2 (proj2
            (@C10_session_wide_counters Demo.externals Demo.warmed_up
               [(0%nat, None, Some Demo.face0)] 2%nat None
               (Some (200, 300, 30, 40))))) _)).
  right. discriminate.
Defined.

(** ** Identity matching *)

Section Matching.
Import Vit.

Lemma Qltb_lt a b : Qltb a b = true <-> (a < b)%Q.
Proof.
  unfold Qltb. rewrite negb_true_iff. split.
  - intros H. apply Qnot_le_lt. intros Hle.
    apply Qle_bool_iff in Hle. congruence.
  - intros H. destruct (Qle_bool b a) eqn:Hb; [|reflexivity].
    apply Qle_bool_iff in Hb. exfalso. exact (Qlt_not_le _ _ H Hb).
Qed.

Lemma Qltb_ge a b : Qltb a b = false <-> (b <= a)%Q.
Proof.
  unfold Qltb. rewrite negb_false_iff. apply Qle_bool_iff.
Qed.

Lemma nth_error_snoc {A : Type} (pre : list A) (x : A) j dj :
  nth_error (pre ++ [x]) j = Some dj ->
  nth_error pre j = Some dj \/ (j = List.length pre /\ dj = x).
Proof.
  intros H. destruct (Nat.lt_ge_cases j (List.length pre)) as [Hlt | Hge].
  - left. now rewrite nth_error_app1 in H.
  - right. rewrite nth_error_app2 in H by exact Hge.
    destruct (j - List.length pre)%nat as [|n] eqn:Hd; simpl in H.
    + injection H as <-. split; [lia | reflexivity].
    + destruct n; discriminate.
Qed.

(** The scan keeps the first index of the least value seen so far. *)
Lemma argmin_from_spec l :
  forall pre b bi,
    nth_error pre bi = Some b ->
    (forall j dj, nth_error pre j = Some dj -> (b <= dj)%Q) ->
    (forall j dj, (j < bi)%nat -> nth_error pre j = Some dj -> (b < dj)%Q) ->
    exists m,
      is_first_min (pre ++ l) (argmin_from bi b (List.length pre) l) m.
Proof.
  induction l as [|x rest IH]; intros pre b bi Hb Hmin Hfirst.
  - exists b. rewrite app_nil_r. simpl. repeat split; assumption.
  - simpl.
    assert (Hlen : S (List.length pre) = List.length (pre ++ [x]))
      by (rewrite length_app; simpl; lia).
    assert (Happ : pre ++ x :: rest = (pre ++ [x]) ++ rest)
      by (now rewrite <- app_assoc).
    rewrite Hlen, Happ.
    destruct (Qltb x b) eqn:Hx.
    + apply Qltb_lt in Hx. apply IH.
      * rewrite nth_error_app2 by lia. now rewrite Nat.sub_diag.
      * intros j dj Hj. apply nth_error_snoc in Hj.
        destruct Hj as [Hj | [_ ->]].
        -- specialize (Hmin j dj Hj). lra.
        -- lra.
      * intros j dj Hlt Hj. rewrite nth_error_app1 in Hj by exact Hlt.
        specialize (Hmin j dj Hj). lra.
    + apply Qltb_ge in Hx.
      assert (Hbi : (bi < List.length pre)%nat)
        by (apply nth_error_Some; congruence).
      apply IH.
      * now rewrite nth_error_app1.
      * intros j dj Hj. apply nth_error_snoc in Hj.
        destruct Hj as [Hj | [_ ->]]; [now apply (Hmin j) | exact Hx].
      * intros j dj Hlt Hj. rewrite nth_error_app1 in Hj by lia.
        now apply (Hfirst j).
Qed.

(** [np.argmin] on a non-empty list: the first index of the least value. *)
Lemma argmin_first_min ds :
  ds <> [] -> is_first_min ds (argmin ds) (nth (argmin ds) ds 0%Q).
Proof.
  destruct ds as [|x rest]; [now intros H|]. intros _.
  destruct (argmin_from_spec rest [x] x 0%nat) as [m Hm].
  - reflexivity.
  - intros [|j] dj Hj; simpl in Hj.
    + injection Hj as <-. lra.
    + destruct j; discriminate.
  - intros j dj Hlt. lia.
  - simpl in Hm. unfold argmin.
    destruct Hm as (Hn & Hrest).
    rewrite (nth_error_nth _ _ 0%Q Hn). split; assumption.
Qed.

Lemma face_distances_nth {E : Externals} sys q j k :
  nth_error (known_face_encodings sys) j = Some k ->
  nth_error (face_distances sys q) j
  = Some (float32_sub 1 (float32_dot q k)).
Proof.
  intros H. unfold face_distances. now rewrite nth_error_map, H.
Qed.

End Matching.

(** The tolerance of the comparison is the float32 nearest to the
    configured 0.98.  The float32 values between 1/2 and 1 are the
    multiples of 2^-24; 0.98 lies between two of them and is nearer to the
    upper one, which is [tolerance_float32]. *)
Lemma tolerance_float32_nearest :
  (Vit.tolerance_float32 == 16441672 # 16777216)%Q
  /\ (FACE_RECOGNITION_TOLERANCE < Vit.tolerance_float32)%Q
  /\ (Vit.tolerance_float32 - FACE_RECOGNITION_TOLERANCE < 1 # 33554432)%Q.
Proof.
  repeat split.
Qed.

(** Every entry of a loaded gallery is a normalised stored encoding. *)
Lemma load_loop_normalized {E : Vit.Externals}
    (l : list (string * option (list Q))) :
  forall encs ids,
    (forall k, In k encs -> exists e, k = Vit.normalize e) ->
    forall k, In k (fst (Vit.load_loop l encs ids)) ->
              exists e, k = Vit.normalize e.
Proof.
  induction l as [|[sid [enc|]] rest IH]; intros encs ids Hn k Hin; simpl in Hin.
  - now apply Hn.
  - apply (IH _ _) with (2 := Hin). intros k' Hk'.
    apply in_app_or in Hk'. destruct Hk' as [Hk' | [<- | []]].
    + now apply Hn.
    + now exists enc.
  - apply (IH _ _ Hn _ Hin).
Qed.

(** C7 (amended).  For a face that passed the liveness test and a non-empty
    gallery whose ids and encodings go in pairs: the distance to each
    gallery entry is 1 minus the dot product of the normalised query with
    the entry, as numpy computes them in float32, the entries of a loaded
    gallery being normalised stored encodings; the entry chosen is the one
    of least distance, the first such in gallery order; the match is
    accepted exactly when that distance is at most the tolerance taken as a
    float32, which is 16441672 / 2^24, the float32 nearest to the configured
    0.98 and a little above it; an accepted face is matched to the student
    of the chosen entry (and reported as recognized, or as "Not enrolled"
    when a course is given and the student is not enrolled in it), and any
    other face is reported as "Unknown". *)
Theorem C7_identity_matching {E : Vit.Externals}
    (sys : Vit.ViTFaceRecognitionSystem) (frame : Vit.Frame)
    (reference : option Z) (live : Vit.LivenessDetector)
    (res : Vit.recognition_results) (face : Vit.rect) :
  Vit.known_face_encodings sys <> [] ->
  List.length (Vit.known_face_ids sys)
    = List.length (Vit.known_face_encodings sys) ->
  snd (Vit.check_liveness live frame None (Some face)) = true ->
  ((Vit.tolerance_float32 == 16441672 # 16777216)%Q
   /\ (FACE_RECOGNITION_TOLERANCE < Vit.tolerance_float32)%Q
   /\ (Vit.tolerance_float32 - FACE_RECOGNITION_TOLERANCE < 1 # 33554432)%Q)
  /\
  (forall sys0 blobs k,
      In k (Vit.known_face_encodings (Vit.load_face_encodings sys0 blobs)) ->
      exists e, k = Vit.normalize e)
  /\
  exists (i : nat) (dmin : Q) (sid : string),
    (forall j k,
        nth_error (Vit.known_face_encodings sys) j = Some k ->
        nth_error (Vit.face_distances sys
                     (Vit.normalize (Vit.vit_encode frame face))) j
        = Some (Vit.float32_sub 1
                  (Vit.float32_dot
                     (Vit.normalize (Vit.vit_encode frame face)) k)))
    /\ Vit.is_first_min
         (Vit.face_distances sys (Vit.normalize (Vit.vit_encode frame face)))
         i dmin
    /\ nth_error (Vit.known_face_ids sys) i = Some sid
    /\ ((dmin <= Vit.tolerance_float32)%Q ->
        Vit.recognize_face sys frame reference (live, res) face
        = Some (fst (Vit.check_liveness live frame None (Some face)),
                if match reference with
                   | Some cid =>
                       negb (Database.is_student_enrolled_in_course
                               (Vit.database sys) sid cid)
                   | None => false
                   end
                then
                  Vit.mk_results (Vit.recognized res)
                    (Vit.unrecognized res ++
                     [Vit.mk_unrecognized (Vit.face_location face) "Not enrolled"])
                else
                  Vit.mk_results
                    (Vit.recognized res ++
                     [Vit.mk_recognized sid
                        match Database.get_user_by_id (Vit.database sys) sid with
                        | Some u => Database.name u
                        | None => String.append "Student " sid
                        end
                        (Vit.float32_sub 1
                           (Vit.float32_div dmin Vit.tolerance_float32))
                        (Vit.face_location face)])
                    (Vit.unrecognized res)))
    /\ (~ (dmin <= Vit.tolerance_float32)%Q ->
        Vit.recognize_face sys frame reference (live, res) face
        = Some (fst (Vit.check_liveness live frame None (Some face)),
                Vit.mk_results (Vit.recognized res)
                  (Vit.unrecognized res ++
                   [Vit.mk_unrecognized (Vit.face_location face) "Unknown"]))).
Proof.
  intros Hne Hlen Hlive.
  split; [exact tolerance_float32_nearest|].
  split.
  { intros sys0 blobs k. unfold Vit.load_face_encodings.
    pose proof (load_loop_normalized blobs [] []) as Hn.
    destruct (Vit.load_loop blobs [] []) as [encs ids]. simpl in *.
    apply Hn. intros k' []. }
  set (q := Vit.normalize (Vit.vit_encode frame face)).
  set (ds := Vit.face_distances sys q).
  assert (Hds : ds <> []).
  { unfold ds, Vit.face_distances.
    destruct (Vit.known_face_encodings sys); [now elim Hne | discriminate]. }
  assert (Hdlen : List.length ds = List.length (Vit.known_face_encodings sys))
    by (unfold ds, Vit.face_distances; apply length_map).
  pose proof (argmin_first_min ds Hds) as Hmin.
  assert (Hi : (Vit.argmin ds < List.length (Vit.known_face_ids sys))%nat).
  { rewrite Hlen, <- Hdlen. apply nth_error_Some.
    destruct Hmin as [Hn _]. congruence. }
  destruct (nth_error (Vit.known_face_ids sys) (Vit.argmin ds)) as [sid|] eqn:Hsid;
    [|apply nth_error_None in Hsid; lia].
  assert (Hpos : (0 <? List.length ds)%nat = true).
  { apply Nat.ltb_lt. destruct ds; [now elim Hds | simpl; lia]. }
  exists (Vit.argmin ds), (nth (Vit.argmin ds) ds 0%Q), sid.
  split; [intros j k; apply face_distances_nth|].
  split; [exact Hmin|]. split; [exact Hsid|].
  unfold Vit.recognize_face.
  destruct (Vit.check_liveness live frame None (Some face)) as [live' ok].
  simpl in Hlive. subst ok. cbn [negb fst].
  fold q. fold ds. rewrite Hpos, Hsid.
  split.
  - intros Hle. apply Qle_bool_iff in Hle. rewrite Hle.
    destruct (match reference with Some _ => _ | None => _ end); reflexivity.
  - intros Hgt.
    destruct (Qle_bool (nth (Vit.argmin ds) ds 0%Q) Vit.tolerance_float32)
      eqn:Hb; [|reflexivity].
    apply Qle_bool_iff in Hb. contradiction.
Qed.

(** The query (1, 0) against the gallery of three whose distances are 1,
    16441672 / 2^24 and 16441672 / 2^24: the second entry is chosen, the
    distance is within the tolerance and Bob ("s2", enrolled in course 101)
    is recognized, with confidence 0. *)
Lemma C7_matching_instance :
  @Vit.recognize_face Demo.externals Samples.boundary_system 0%nat (Some 101)
     (Demo.warmed_up, Vit.mk_results [] []) Demo.face0
  = Some (Vit.mk_liveness 0 1 (Some Demo.face0) 1 1 [] [0%Q] 5,
          Vit.mk_results
            [Vit.mk_recognized "s2" "Bob"
               (1 - (1 - (1 * (335544 # 16777216)
                          + (0 * (16773861 # 16777216) + 0)))
                    / Vit.tolerance_float32)%Q
               (20, 40, 60, 10)]
            [])
  /\ (1 - (1 - (1 * (335544 # 16777216) + (0 * (16773861 # 16777216) + 0)))
          / Vit.tolerance_float32 == 0)%Q.
Proof.
  split; [|reflexivity].
  destruct (@C7_identity_matching Demo.externals Samples.boundary_system 0%nat
              (Some 101) Demo.warmed_up (Vit.mk_results [] []) Demo.face0)
    as (_ & _ & i & dmin & sid & Hd & Hmin & Hsid & Hacc & Hrej).
  - discriminate.
  - reflexivity.
  - reflexivity.
  - destruct Hmin as (Hn & Hall & Hfirst).
    destruct i as [|[|[|i]]]; simpl in Hn, Hsid.
    + exfalso. injection Hn as <-.
      specialize (Hall 1%nat _ eq_refl). vm_compute in Hall. now apply Hall.
    + injection Hn as <-. injection Hsid as <-.
      rewrite Hacc; [reflexivity | vm_compute; discriminate].
    + exfalso. injection Hn as <-.
      specialize (Hfirst 1%nat _ (Nat.lt_succ_diag_r 1) eq_refl).
      vm_compute in Hfirst. discriminate.
    + destruct i; discriminate.
Defined.

(** C7 as stated fails at the tolerance itself.  The configured tolerance is
    0.98.  The second gallery entry is at distance 16441672 / 2^24 =
    0.98000001907... from the query, the least of the three distances and
    above 0.98, and the face is matched to its student all the same: the
    comparison takes the tolerance as a float32. *)
Lemma C7_accepted_above_configured_tolerance :
  @Vit.face_distances Demo.externals Samples.boundary_system [1%Q; 0%Q]
  = [(1 - (1 * 0 + (0 * 1 + 0)))%Q;
     (1 - (1 * (335544 # 16777216) + (0 * (16773861 # 16777216) + 0)))%Q;
     (1 - (1 * (335544 # 16777216) + (0 * (16773861 # 16777216) + 0)))%Q]
  /\ (1 - (1 * (335544 # 16777216) + (0 * (16773861 # 16777216) + 0))
      == 16441672 # 16777216)%Q
  /\ ~ (16441672 # 16777216 <= FACE_RECOGNITION_TOLERANCE)%Q
  /\ (exists c : Q,
        @Vit.recognize_face Demo.externals Samples.boundary_system 0%nat
           (Some 101) (Demo.warmed_up, Vit.mk_results [] []) Demo.face0
        = Some (Vit.mk_liveness 0 1 (Some Demo.face0) 1 1 [] [0%Q] 5,
                Vit.mk_results
                  [Vit.mk_recognized "s2" "Bob" c (20, 40, 60, 10)] [])).
Proof.
  split; [reflexivity|]. split; [reflexivity|]. split.
  - intros H. vm_compute in H. now apply H.
  - eexists. reflexivity.
Qed.

(** ** The empty gallery *)

(** With no encoding loaded, [recognize_faces] returns before it looks at
    the frame: both lists are empty and the detector is not touched. *)
Lemma recognize_faces_empty_gallery {E : Vit.Externals}
    (sys : Vit.ViTFaceRecognitionSystem) (frame : Vit.Frame)
    (reference : option Z) :
  Vit.known_face_encodings sys = [] ->
  Vit.recognize_faces sys frame reference = Some (sys, Vit.mk_results [] []).
Proof.
  intros H. unfold Vit.recognize_faces. now rewrite H.
Qed.

(** The loop body itself has a branch for an empty list of distances, which
    reports the face as "Unknown". *)
Lemma recognize_face_empty_gallery {E : Vit.Externals}
    (sys : Vit.ViTFaceRecognitionSystem) (frame : Vit.Frame)
    (reference : option Z) (live : Vit.LivenessDetector)
    (res : Vit.recognition_results) (face : Vit.rect) :
  Vit.known_face_encodings sys = [] ->
  snd (Vit.check_liveness live frame None (Some face)) = true ->
  Vit.recognize_face sys frame reference (live, res) face
  = Some (fst (Vit.check_liveness live frame None (Some face)),
          Vit.mk_results (Vit.recognized res)
            (Vit.unrecognized res ++
             [Vit.mk_unrecognized (Vit.face_location face) "Unknown"])).
Proof.
  intros Hg Hl. unfold Vit.recognize_face, Vit.face_distances.
  destruct (Vit.check_liveness live frame None (Some face)) as [live' ok].
  simpl in Hl. subst ok. now rewrite Hg.
Qed.

(** C8 (the code departs from the claim).  The gallery is empty and the
    frame shows one face that would pass the liveness test.
    [recognize_faces] returns two empty lists, so the face appears nowhere
    in the output; the "Unknown" entry that the loop body would add for it
    is never produced. *)
Theorem C8_empty_gallery_evaluated :
  Vit.known_face_encodings Demo.empty_system = []
  /\ @Vit.detectMultiScale Demo.externals 0%nat = [Demo.face0]
  /\ @Vit.recognize_faces Demo.externals Demo.empty_system 0%nat (Some 101)
     = Some (Demo.empty_system, Vit.mk_results [] [])
  /\ @Vit.recognize_face Demo.externals Demo.empty_system 0%nat (Some 101)
       (Demo.warmed_up, Vit.mk_results [] []) Demo.face0
     = Some (Vit.mk_liveness 0 1 (Some Demo.face0) 1 1 [] [0%Q] 5,
             Vit.mk_results []
               [Vit.mk_unrecognized (20, 40, 60, 10) "Unknown"]).
Proof.
  repeat split.
Qed.

(** [load_face_encodings] fills the two lists in step, so an id is always
    found at the index of the best match. *)
Lemma load_face_encodings_lengths {E : Vit.Externals}
    (sys : Vit.ViTFaceRecognitionSystem)
    (student_encodings : list (string * option (list Q))) :
  List.length (Vit.known_face_ids (Vit.load_face_encodings sys student_encodings))
  = List.length (Vit.known_face_encodings
                   (Vit.load_face_encodings sys student_encodings)).
Proof.
  unfold Vit.load_face_encodings.
  assert (H : forall l encs ids,
             List.length ids = List.length encs ->
             List.length (snd (Vit.load_loop l encs ids))
             = List.length (fst (Vit.load_loop l encs ids))).
  { induction l as [|[sid [enc|]] rest IH]; intros encs ids Hl; simpl.
    - exact Hl.
    - apply IH. rewrite !length_app. simpl. lia.
    - now apply IH. }
  specialize (H student_encodings [] [] eq_refl).
  destruct (Vit.load_loop student_encodings [] []) as [encs ids].
  exact H.
Qed.

(** * Further properties of the attendance table *)

Section Table.
Import Database.

Lemma find_app_none {A : Type} (p : A -> bool) (l l' : list A) :
  find p l = None -> find p (l ++ l') = find p l'.
Proof.
  induction l as [|a l IH]; simpl; [reflexivity|].
  destruct (p a); [discriminate | exact IH].
Qed.

Lemma find_app_some {A : Type} (p : A -> bool) (l l' : list A) (x : A) :
  find p l = Some x -> find p (l ++ l') = Some x.
Proof.
  induction l as [|a l IH]; simpl; [discriminate|].
  destruct (p a); [trivial | exact IH].
Qed.

(** [fetchone] through an UPDATE whose SET clause keeps the key columns. *)
Lemma find_sql_update_any sid cid dt w f rows :
  (forall r, same_key sid cid dt (f r) = same_key sid cid dt r) ->
  find (same_key sid cid dt) (sql_update w f rows)
  = option_map (fun r => if w r then f r else r)
               (find (same_key sid cid dt) rows).
Proof.
  intros Hk. induction rows as [|a rows IH]; simpl; [reflexivity|].
  destruct (w a) eqn:Hw.
  - rewrite Hk. destruct (same_key sid cid dt a); [simpl; now rewrite Hw | exact IH].
  - destruct (same_key sid cid dt a); [simpl; now rewrite Hw | exact IH].
Qed.

Lemma sql_update_keys w f rows :
  (forall r, row_key (f r) = row_key r) ->
  map row_key (sql_update w f rows) = map row_key rows.
Proof.
  intros Hf. unfold sql_update. rewrite map_map. apply map_ext.
  intros r. destruct (w r); [apply Hf | reflexivity].
Qed.

Lemma same_key_false_iff sid cid dt r :
  same_key sid cid dt r = false <-> row_key r <> (sid, cid, dt).
Proof.
  split.
  - intros H Heq. unfold row_key in Heq. injection Heq as H1 H2 H3.
    assert (Ht : same_key sid cid dt r = true) by (apply same_key_spec; auto).
    congruence.
  - intros H. destruct (same_key sid cid dt r) eqn:Hs; [|reflexivity].
    apply same_key_spec in Hs. destruct Hs as (H1 & H2 & H3).
    elim H. unfold row_key. now rewrite H1, H2, H3.
Qed.

Lemma existsb_same_key_in sid cid dt rows :
  existsb (same_key sid cid dt) rows = false ->
  ~ In (sid, cid, dt) (map row_key rows).
Proof.
  induction rows as [|a rows IH]; simpl; [tauto|].
  intros H. apply orb_false_iff in H. destruct H as [Ha Hr].
  apply same_key_false_iff in Ha. intros [Heq | Hin]; [contradiction|].
  now apply IH.
Qed.

Lemma sql_insert_unique r rows rows' :
  unique_keys rows -> sql_insert r rows = Some rows' -> unique_keys rows'.
Proof.
  unfold unique_keys, sql_insert. intros Hu H.
  destruct (existsb _ rows) eqn:He; [discriminate|]. injection H as <-.
  rewrite map_app. simpl.
  apply existsb_same_key_in in He.
  apply NoDup_app; [exact Hu | repeat constructor; intros [] |].
  intros k Hk [<- | []]. exact (He Hk).
Qed.

Lemma insert_cancelled_unique cid dt students :
  forall rows, unique_keys rows ->
               unique_keys (snd (insert_cancelled cid dt students rows)).
Proof.
  induction students as [|s rest IH]; intros rows Hu; simpl; [exact Hu|].
  destruct (sql_insert (mk_row s cid dt None None STATUS_NA true) rows)
    as [rows'|] eqn:Hi; [|exact Hu].
  apply IH. exact (sql_insert_unique _ _ _ Hu Hi).
Qed.

End Table.

(** The manual path on a key that has no row: the first [mark_attendance]
    inserts the row, the second records the second time and overwrites the
    status, the third is rejected and changes nothing; the table has gained
    exactly one row. *)
Theorem mark_attendance_three_calls d sid cid dt t1 s1 t2 s2 t3 s3 :
  Database.fetch_attendance d sid cid dt = None ->
  fst (Database.mark_attendance d sid cid dt t1 s1) = true
  /\ Database.fetch_attendance
       (snd (Database.mark_attendance d sid cid dt t1 s1)) sid cid dt
     = Some (Database.mk_row sid cid dt (Some t1) None s1 false)
  /\ fst (Database.mark_attendance
            (snd (Database.mark_attendance d sid cid dt t1 s1))
            sid cid dt t2 s2) = true
  /\ Database.fetch_attendance
       (snd (Database.mark_attendance
               (snd (Database.mark_attendance d sid cid dt t1 s1))
               sid cid dt t2 s2)) sid cid dt
     = Some (Database.mk_row sid cid dt (Some t1) (Some t2) s2 false)
  /\ Database.mark_attendance
       (snd (Database.mark_attendance
               (snd (Database.mark_attendance d sid cid dt t1 s1))
               sid cid dt t2 s2)) sid cid dt t3 s3
     = (false,
        snd (Database.mark_attendance
               (snd (Database.mark_attendance d sid cid dt t1 s1))
               sid cid dt t2 s2))
  /\ List.length
       (Database.attendance
          (snd (Database.mark_attendance
                  (snd (Database.mark_attendance d sid cid dt t1 s1))
                  sid cid dt t2 s2)))
     = S (List.length (Database.attendance d)).
Proof.
  intros Hf.
  assert (H1 : Database.mark_attendance d sid cid dt t1 s1
               = (true,
                  Database.set_attendance d
                    (Database.attendance d ++
                     [Database.mk_row sid cid dt (Some t1) None s1 false]))).
  { unfold Database.mark_attendance. rewrite Hf.
    now rewrite sql_insert_fresh by exact Hf. }
  rewrite H1. cbn [fst snd].
  set (r1 := Database.mk_row sid cid dt (Some t1) None s1 false).
  set (d1 := Database.set_attendance d (Database.attendance d ++ [r1])).
  assert (Hk1 : Database.same_key sid cid dt r1 = true)
    by (apply same_key_spec; repeat split).
  assert (Hf1 : Database.fetch_attendance d1 sid cid dt = Some r1).
  { unfold Database.fetch_attendance, d1. simpl.
    unfold Database.fetch_attendance in Hf.
    rewrite (find_app_none _ _ _ Hf). simpl. now rewrite Hk1. }
  assert (H2 : Database.mark_attendance d1 sid cid dt t2 s2
               = (true,
                  Database.set_attendance d1
                    (Database.sql_update (Database.same_key sid cid dt)
                       (Database.set_second_time_status t2 s2)
                       (Database.attendance d1)))).
  { unfold Database.mark_attendance. now rewrite Hf1. }
  rewrite H2. cbn [fst snd].
  set (d2 := Database.set_attendance d1 _).
  assert (Hf2 : Database.fetch_attendance d2 sid cid dt
                = Some (Database.mk_row sid cid dt (Some t1) (Some t2) s2 false)).
  { unfold Database.fetch_attendance, d2. simpl.
    rewrite find_sql_update by reflexivity.
    unfold Database.fetch_attendance in Hf1. simpl in Hf1. now rewrite Hf1. }
  split; [reflexivity|]. split; [exact Hf1|]. split; [reflexivity|].
  split; [exact Hf2|]. split.
  - unfold Database.mark_attendance. now rewrite Hf2.
  - unfold d2, d1. simpl. unfold Database.sql_update.
    rewrite length_map, length_app. simpl. lia.
Qed.

Lemma mark_attendance_three_calls_instance :
  Database.mark_attendance
    (snd (Database.mark_attendance
            (snd (Database.mark_attendance Demo.empty_day "s1" 101 Demo.day1
                    (Clock.hm 8 0) STATUS_PRESENT))
            "s1" 101 Demo.day1 (Clock.hm 8 58) STATUS_LATE))
    "s1" 101 Demo.day1 (Clock.hm 9 1) STATUS_ABSENT
  = (false,
     Demo.with_rows
       [Database.mk_row "s1" 101 Demo.day1 (Some (Clock.hm 8 0))
                        (Some (Clock.hm 8 58)) STATUS_LATE false]).
Proof.
  exact (proj1 (proj2 (proj2 (proj2 (proj2
           (mark_attendance_three_calls Demo.empty_day "s1" 101 Demo.day1
              (Clock.hm 8 0) STATUS_PRESENT (Clock.hm 8 58) STATUS_LATE
              (Clock.hm 9 1) STATUS_ABSENT eq_refl)))))).
Defined.

(** Every writer of the attendance table keeps
    [UNIQUE(student_id, course_id, date)]: [mark_attendance],
    [auto_mark_attendance], [update_partial_attendance] and
    [cancel_lecture] (also when its loop stops on an IntegrityError). *)
Theorem attendance_writers_keep_unique_keys d sid cid dt tm st today now :
  Database.unique_keys (Database.attendance d) ->
  Database.unique_keys
    (Database.attendance (snd (Database.mark_attendance d sid cid dt tm st)))
  /\ Database.unique_keys
       (Database.attendance
          (snd (Database.auto_mark_attendance d today now sid cid)))
  /\ Database.unique_keys
       (Database.attendance (snd (Database.update_partial_attendance d today)))
  /\ Database.unique_keys
       (Database.attendance (snd (Database.cancel_lecture d cid dt))).
Proof.
  intros Hu.
  assert (Hupd : forall w f,
             (forall r, Database.row_key (f r) = Database.row_key r) ->
             Database.unique_keys (Database.sql_update w f (Database.attendance d))).
  { intros w f Hf. unfold Database.unique_keys.
    now rewrite (sql_update_keys w f _ Hf). }
  split; [|split; [|split]].
  - unfold Database.mark_attendance.
    destruct (Database.fetch_attendance d sid cid dt) as [r|].
    + destruct (Database.is_cancelled r); [exact Hu|].
      destruct (Database.second_time r); [exact Hu|].
      simpl. now apply Hupd.
    + destruct (Database.sql_insert _ _) as [rows|] eqn:Hi; [|exact Hu].
      simpl. exact (sql_insert_unique _ _ _ Hu Hi).
  - unfold Database.auto_mark_attendance.
    destruct (Database.get_course_by_id d cid) as [c|]; [|exact Hu].
    destruct (Database.fetch_attendance d sid cid today) as [r|].
    + destruct (Database.is_cancelled r); [exact Hu|].
      destruct (Database.second_time r); [exact Hu|].
      destruct (_ && _); [|exact Hu].
      simpl. now apply Hupd.
    + destruct (_ && _); [|exact Hu].
      destruct (Database.sql_insert _ _) as [rows|] eqn:Hi; [|exact Hu].
      simpl. exact (sql_insert_unique _ _ _ Hu Hi).
  - simpl. now apply Hupd.
  - unfold Database.cancel_lecture.
    destruct (0 <? _); [exact Hu|].
    destruct (0 <? _); [simpl; now apply Hupd|].
    pose proof (insert_cancelled_unique cid dt
                  (Database.get_enrolled_students d cid) _ Hu) as Hi.
    destruct (Database.insert_cancelled cid dt _ _) as [ok rows].
    exact Hi.
Qed.

Lemma attendance_writers_keep_unique_keys_instance :
  Database.unique_keys
    (Database.attendance
       (snd (Database.cancel_lecture Demo.alice_in 101 Demo.day1))).
Proof.
  refine (proj2 (proj2 (proj2
            (attendance_writers_keep_unique_keys Demo.alice_in "s2" 101
               Demo.day1 (Clock.hm 8 0) STATUS_PRESENT Demo.day1
               (Clock.hm 8 0) _)))).
  unfold Database.unique_keys. simpl. constructor; [intros [] | constructor].
Defined.

(** A check-in for one student, course and day leaves the row of every
    other key as it was, through [mark_attendance] as through
    [auto_mark_attendance]; neither touches another table. *)
Theorem check_in_leaves_other_keys d sid cid dt tm st now sid' cid' dt' :
  (sid', cid', dt') <> (sid, cid, dt) ->
  Database.fetch_attendance
    (snd (Database.mark_attendance d sid cid dt tm st)) sid' cid' dt'
  = Database.fetch_attendance d sid' cid' dt'
  /\ Database.fetch_attendance
       (snd (Database.auto_mark_attendance d dt now sid cid)) sid' cid' dt'
     = Database.fetch_attendance d sid' cid' dt'
  /\ Database.set_attendance
       (snd (Database.mark_attendance d sid cid dt tm st)) (Database.attendance d)
     = d
  /\ Database.set_attendance
       (snd (Database.auto_mark_attendance d dt now sid cid))
       (Database.attendance d)
     = d.
Proof.
  intros Hne.
  assert (Hupd : forall f,
             (forall r, Database.same_key sid' cid' dt' (f r)
                        = Database.same_key sid' cid' dt' r) ->
             find (Database.same_key sid' cid' dt')
                  (Database.sql_update (Database.same_key sid cid dt) f
                     (Database.attendance d))
             = find (Database.same_key sid' cid' dt') (Database.attendance d)).
  { intros f Hf. rewrite find_sql_update_any by exact Hf.
    destruct (find _ (Database.attendance d)) as [r|] eqn:Hr; [|reflexivity].
    simpl. apply find_some in Hr. destruct Hr as [_ Hr].
    destruct (Database.same_key sid cid dt r) eqn:Hs; [|reflexivity].
    apply same_key_spec in Hr. apply same_key_spec in Hs.
    destruct Hr as (A1 & A2 & A3). destruct Hs as (B1 & B2 & B3).
    elim Hne. congruence. }
  assert (Hins : forall r rows,
             Database.row_key r = (sid, cid, dt) ->
             Database.sql_insert r (Database.attendance d) = Some rows ->
             find (Database.same_key sid' cid' dt') rows
             = find (Database.same_key sid' cid' dt') (Database.attendance d)).
  { intros r rows Hk Hi. unfold Database.sql_insert in Hi.
    destruct (existsb _ _); [discriminate|]. injection Hi as <-.
    assert (Hr : Database.same_key sid' cid' dt' r = false).
    { apply same_key_false_iff. rewrite Hk. congruence. }
    destruct (find (Database.same_key sid' cid' dt') (Database.attendance d))
      as [x|] eqn:Hx.
    - exact (find_app_some _ _ _ _ Hx).
    - rewrite (find_app_none _ _ _ Hx). simpl. now rewrite Hr. }
  assert (Hset : forall rows, Database.set_attendance
                                (Database.set_attendance d rows)
                                (Database.attendance d) = d)
    by (intros rows; now destruct d).
  unfold Database.fetch_attendance.
  split; [|split; [|split]].
  - unfold Database.mark_attendance.
    destruct (Database.fetch_attendance d sid cid dt) as [r|].
    + destruct (Database.is_cancelled r); [reflexivity|].
      destruct (Database.second_time r); [reflexivity|].
      simpl. now apply Hupd.
    + destruct (Database.sql_insert _ _) as [rows|] eqn:Hi; [|reflexivity].
      simpl. eapply Hins; [|exact Hi]. reflexivity.
  - unfold Database.auto_mark_attendance.
    destruct (Database.get_course_by_id d cid) as [c|]; [|reflexivity].
    destruct (Database.fetch_attendance d sid cid dt) as [r|].
    + destruct (Database.is_cancelled r); [reflexivity|].
      destruct (Database.second_time r); [reflexivity|].
      destruct (_ && _); [|reflexivity].
      simpl. now apply Hupd.
    + destruct (_ && _); [|reflexivity].
      destruct (Database.sql_insert _ _) as [rows|] eqn:Hi; [|reflexivity].
      simpl. eapply Hins; [|exact Hi]. reflexivity.
  - unfold Database.mark_attendance.
    destruct (Database.fetch_attendance d sid cid dt) as [r|].
    + destruct (Database.is_cancelled r); [apply set_attendance_same|].
      destruct (Database.second_time r); [apply set_attendance_same|].
      apply Hset.
    + destruct (Database.sql_insert _ _) as [rows|];
        [apply Hset | apply set_attendance_same].
  - unfold Database.auto_mark_attendance.
    destruct (Database.get_course_by_id d cid) as [c|];
      [|apply set_attendance_same].
    destruct (Database.fetch_attendance d sid cid dt) as [r|].
    + destruct (Database.is_cancelled r); [apply set_attendance_same|].
      destruct (Database.second_time r); [apply set_attendance_same|].
      destruct (_ && _); [apply Hset | apply set_attendance_same].
    + destruct (_ && _); [|apply set_attendance_same].
      destruct (Database.sql_insert _ _) as [rows|];
        [apply Hset | apply set_attendance_same].
Qed.

Lemma check_in_leaves_other_keys_instance :
  Database.fetch_attendance
    (snd (Database.auto_mark_attendance Demo.alice_in Demo.day1 (Clock.hm 8 10)
            "s2" 101)) "s1" 101 Demo.day1
  = Some Demo.alice_present.
Proof.
  refine (proj1 (proj2
            (check_in_leaves_other_keys Demo.alice_in "s2" 101 Demo.day1
               (Clock.hm 8 10) STATUS_PRESENT (Clock.hm 8 10)
               "s1" 101 Demo.day1 _))).
  discriminate.
Defined.

(** Running the end-of-day batch again on the same day changes nothing
    more. *)
Theorem update_partial_attendance_idempotent d today :
  Database.update_partial_attendance
    (snd (Database.update_partial_attendance d today)) today
  = Database.update_partial_attendance d today.
Proof.
  unfold Database.update_partial_attendance. simpl.
  unfold Database.set_attendance. simpl. do 2 f_equal.
  unfold Database.sql_update. rewrite map_map. apply map_ext.
  intros r. destruct (Database.partial_where today r) eqn:Hw.
  - assert (Hf : Database.partial_where today
                   (Database.set_status STATUS_UNAUTHORIZED_DEPARTURE r) = false).
    { unfold Database.partial_where. simpl. rewrite andb_false_r.
      reflexivity. }
    now rewrite Hf.
  - now rewrite Hw.
Qed.

(** ** Early dismissal *)

Section EarlyEnd.
Import Database.

Lemma custom_find_replaced cid dt tm l :
  find (fun c => (ct_course_id c =? cid) && String.eqb (ct_date c) dt)
       (filter (fun c => negb ((ct_course_id c =? cid) && String.eqb (ct_date c) dt)) l
        ++ [mk_custom_time cid dt tm])
  = Some (mk_custom_time cid dt tm).
Proof.
  induction l as [|a l IH]; simpl.
  - now rewrite Z.eqb_refl, String.eqb_refl.
  - destruct ((ct_course_id a =? cid) && String.eqb (ct_date a) dt) eqn:Ha;
      simpl; [exact IH|]. now rewrite Ha.
Qed.

Lemma custom_find_other cid dt tm cid' dt' l :
  (cid', dt') <> (cid, dt) ->
  find (fun c => (ct_course_id c =? cid') && String.eqb (ct_date c) dt')
       (filter (fun c => negb ((ct_course_id c =? cid) && String.eqb (ct_date c) dt)) l
        ++ [mk_custom_time cid dt tm])
  = find (fun c => (ct_course_id c =? cid') && String.eqb (ct_date c) dt') l.
Proof.
  intros Hne. induction l as [|a l IH]; simpl.
  - destruct (Z.eqb_spec cid cid') as [->|]; [|reflexivity].
    destruct (String.eqb_spec dt dt') as [->|]; [now elim Hne | reflexivity].
  - destruct ((ct_course_id a =? cid) && String.eqb (ct_date a) dt) eqn:Ha; simpl.
    + apply andb_true_iff in Ha. destruct Ha as [A1 A2].
      apply Z.eqb_eq in A1. apply String.eqb_eq in A2.
      destruct ((ct_course_id a =? cid') && String.eqb (ct_date a) dt') eqn:Hb;
        [|exact IH].
      apply andb_true_iff in Hb. destruct Hb as [B1 B2].
      apply Z.eqb_eq in B1. apply String.eqb_eq in B2.
      elim Hne. congruence.
    + destruct ((ct_course_id a =? cid') && String.eqb (ct_date a) dt');
        [reflexivity | exact IH].
Qed.

Lemma custom_rows_replaced cid dt tm l :
  filter (fun c => (ct_course_id c =? cid) && String.eqb (ct_date c) dt)
         (filter (fun c => negb ((ct_course_id c =? cid) && String.eqb (ct_date c) dt)) l
          ++ [mk_custom_time cid dt tm])
  = [mk_custom_time cid dt tm].
Proof.
  induction l as [|a l IH]; simpl.
  - now rewrite Z.eqb_refl, String.eqb_refl.
  - destruct ((ct_course_id a =? cid) && String.eqb (ct_date a) dt) eqn:Ha;
      simpl; [exact IH|]. now rewrite Ha.
Qed.

Lemma course_end_after_early_end d cid dt tm c :
  course_end_on (snd (end_lecture_early d cid dt tm)) c cid dt = tm.
Proof.
  unfold course_end_on, get_custom_end_time. simpl.
  now rewrite custom_find_replaced.
Qed.

(** A second check-in through [auto_mark_attendance], on any database. *)
Lemma auto_mark_second_window d today now sid cid c r :
  get_course_by_id d cid = Some c ->
  fetch_attendance d sid cid today = Some r ->
  is_cancelled r = false ->
  second_time r = None ->
  (fst (auto_mark_attendance d today now sid cid) = true <->
   in_second_window (course_end_on d c cid today) now).
Proof.
  intros Hc Hf Hn Hs. unfold auto_mark_attendance.
  rewrite Hc, Hf, Hn, Hs.
  rewrite <- in_second_window_dec.
  destruct (_ && _); simpl; split; intros H; congruence.
Qed.

End EarlyEnd.

(** [end_lecture_early] then [get_custom_end_time]: the time just stored
    is read back for that course and date, and it is then the only custom
    time of that course and date, whatever was stored before; the custom
    time of every other course or date is as before, and no attendance row
    and no course is touched. *)
Theorem end_lecture_early_read_back d cid dt tm cid' dt' :
  fst (Database.end_lecture_early d cid dt tm) = true
  /\ Database.get_custom_end_time
       (snd (Database.end_lecture_early d cid dt tm)) cid dt = Some tm
  /\ filter (fun c => (Database.ct_course_id c =? cid) &&
                      String.eqb (Database.ct_date c) dt)
            (Database.lecture_custom_times
               (snd (Database.end_lecture_early d cid dt tm)))
     = [Database.mk_custom_time cid dt tm]
  /\ ((cid', dt') <> (cid, dt) ->
      Database.get_custom_end_time
        (snd (Database.end_lecture_early d cid dt tm)) cid' dt'
      = Database.get_custom_end_time d cid' dt')
  /\ Database.attendance (snd (Database.end_lecture_early d cid dt tm))
     = Database.attendance d
  /\ Database.courses (snd (Database.end_lecture_early d cid dt tm))
     = Database.courses d.
Proof.
  split; [reflexivity|]. split.
  { unfold Database.get_custom_end_time. simpl.
    now rewrite custom_find_replaced. }
  split; [apply custom_rows_replaced|].
  split; [|split; reflexivity].
  intros Hne. unfold Database.get_custom_end_time. simpl.
  now rewrite custom_find_other.
Qed.

Lemma end_lecture_early_read_back_instance :
  Database.get_custom_end_time
    (snd (Database.end_lecture_early
            (snd (Database.end_lecture_early Demo.alice_in 101 Demo.day1
                    (Clock.hm 8 45)))
            101 Demo.day0 (Clock.hm 8 30)))
    101 Demo.day1
  = Some (Clock.hm 8 45).
Proof.
  refine (eq_trans
            (proj1 (proj2 (proj2 (proj2
               (end_lecture_early_read_back
                  (snd (Database.end_lecture_early Demo.alice_in 101 Demo.day1
                          (Clock.hm 8 45)))
                  101 Demo.day0 (Clock.hm 8 30) 101 Demo.day1)))) _)
            _).
  - discriminate.
  - reflexivity.
Defined.

(** After [end_lecture_early] stored the time [tm] for the day,
    [auto_mark_attendance] works from [tm] and no longer from the scheduled
    end: a second check-in is accepted exactly within
    [SECOND_CHECKIN_WINDOW] minutes of [tm], and a first check-in exactly
    from [start - EARLY_ARRIVAL_MARGIN] to ten minutes before [tm]. *)
Theorem early_end_moves_the_windows d cid today tm now sid c :
  Database.get_course_by_id d cid = Some c ->
  (forall r,
      Database.fetch_attendance d sid cid today = Some r ->
      Database.is_cancelled r = false ->
      Database.second_time r = None ->
      (fst (Database.auto_mark_attendance
              (snd (Database.end_lecture_early d cid today tm))
              today now sid cid) = true
       <-> Database.in_second_window tm now))
  /\
  (Database.fetch_attendance d sid cid today = None ->
   (fst (Database.auto_mark_attendance
           (snd (Database.end_lecture_early d cid today tm))
           today now sid cid) = true
    <-> Clock.minus_minutes (Database.start_time c) EARLY_ARRIVAL_MARGIN <= now
          <= Clock.minus_minutes tm 10)).
Proof.
  intros Hc. split.
  - intros r Hf Hn Hs.
    rewrite (auto_mark_second_window
               (snd (Database.end_lecture_early d cid today tm))
               today now sid cid c r Hc Hf Hn Hs).
    now rewrite course_end_after_early_end.
  - intros Hf.
    rewrite (auto_mark_first_window
               (snd (Database.end_lecture_early d cid today tm))
               today now sid cid c Hc Hf).
    now rewrite course_end_after_early_end.
Qed.

(** The lecture of 08:00-09:00 is ended at 08:30: Alice's second check-in
    at 08:32 is accepted, which the scheduled end would have refused. *)
Lemma early_end_moves_the_windows_instance :
  fst (Database.auto_mark_attendance
         (snd (Database.end_lecture_early Demo.alice_in 101 Demo.day1
                 (Clock.hm 8 30)))
         Demo.day1 (Clock.hm 8 32) "s1" 101) = true
  /\ fst (Database.auto_mark_attendance Demo.alice_in Demo.day1 (Clock.hm 8 32)
            "s1" 101) = false.
Proof.
  split; [|reflexivity].
  refine (proj2 (proj1 (early_end_moves_the_windows Demo.alice_in 101 Demo.day1
                          (Clock.hm 8 30) (Clock.hm 8 32) "s1" Demo.course101
                          eq_refl)
                   Demo.alice_present eq_refl eq_refl eq_refl) _).
  split; discriminate.
Defined.

(** ** Cancellation, then check-in *)

Section CancelThenCheckIn.
Import Database.

Lemma existsb_false_find_none {A : Type} (p : A -> bool) (l : list A) :
  existsb p l = false -> find p l = None.
Proof.
  induction l as [|a l IH]; simpl; [reflexivity|].
  destruct (p a); [discriminate | exact IH].
Qed.

Lemma lecture_rows_empty_existsb d cid dt :
  lecture_rows d cid dt = [] ->
  existsb (same_lecture cid dt) (attendance d) = false.
Proof.
  unfold lecture_rows. intros H. now rewrite <- count_positive, H.
Qed.

Lemma find_cancelled_row cid dt sid students :
  In sid students ->
  find (same_key sid cid dt) (map (cancelled_row cid dt) students)
  = Some (cancelled_row cid dt sid).
Proof.
  induction students as [|s rest IH]; intros Hin; [destruct Hin|].
  simpl. unfold same_key at 1. simpl.
  rewrite Z.eqb_refl, String.eqb_refl, !andb_true_r.
  destruct (String.eqb_spec s sid) as [->|Hne]; [reflexivity|].
  destruct Hin as [->|Hin]; [now elim Hne | now apply IH].
Qed.

End CancelThenCheckIn.

(** Cancelling a lecture that has no row yet, the enrolled students being
    distinct: the call succeeds, every enrolled student then has the row
    (no times, N/A, cancelled), and from then on [mark_attendance] and
    [auto_mark_attendance] for that student, course and date return [False]
    and change nothing. *)
Theorem cancel_lecture_locks_enrolled d cid dt sid tm st now :
  Database.lecture_rows d cid dt = [] ->
  NoDup (Database.get_enrolled_students d cid) ->
  In sid (Database.get_enrolled_students d cid) ->
  fst (Database.cancel_lecture d cid dt) = true
  /\ Database.fetch_attendance (snd (Database.cancel_lecture d cid dt)) sid cid dt
     = Some (Database.mk_row sid cid dt None None STATUS_NA true)
  /\ Database.mark_attendance (snd (Database.cancel_lecture d cid dt))
                              sid cid dt tm st
     = (false, snd (Database.cancel_lecture d cid dt))
  /\ Database.auto_mark_attendance (snd (Database.cancel_lecture d cid dt))
                                   dt now sid cid
     = (false, snd (Database.cancel_lecture d cid dt)).
Proof.
  intros Hnone Hnd Hin.
  rewrite (cancel_lecture_no_rows d cid dt Hnone Hnd). cbn [fst snd].
  assert (Hf : Database.fetch_attendance
                 (Database.set_attendance d
                    (Database.attendance d ++
                     map (Database.cancelled_row cid dt)
                         (Database.get_enrolled_students d cid))) sid cid dt
               = Some (Database.cancelled_row cid dt sid)).
  { unfold Database.fetch_attendance. simpl.
    rewrite find_app_none.
    - now apply find_cancelled_row.
    - apply existsb_false_find_none, no_lecture_rows_no_key.
      now apply lecture_rows_empty_existsb. }
  split; [reflexivity|]. split; [exact Hf|]. split.
  - unfold Database.mark_attendance. now rewrite Hf.
  - unfold Database.auto_mark_attendance.
    destruct (Database.get_course_by_id _ cid); [|reflexivity].
    now rewrite Hf.
Qed.

Lemma cancel_lecture_locks_enrolled_instance :
  Database.auto_mark_attendance
    (snd (Database.cancel_lecture Demo.empty_day 101 Demo.day1))
    Demo.day1 (Clock.hm 8 10) "s2" 101
  = (false, snd (Database.cancel_lecture Demo.empty_day 101 Demo.day1)).
Proof.
  refine (proj2 (proj2 (proj2
            (cancel_lecture_locks_enrolled Demo.empty_day 101 Demo.day1 "s2"
               (Clock.hm 8 10) STATUS_PRESENT (Clock.hm 8 10) eq_refl _ _)))).
  - simpl. constructor.
    + intros [H | []]. discriminate H.
    + constructor; [intros [] | constructor].
  - simpl. right. left. reflexivity.
Defined.

(** ** A whole day for one student *)

Section WholeDay.
Import Database.

Lemma auto_mark_first_insert d today now sid cid c :
  get_course_by_id d cid = Some c ->
  fetch_attendance d sid cid today = None ->
  Clock.minus_minutes (start_time c) EARLY_ARRIVAL_MARGIN <= now
    <= Clock.minus_minutes (course_end_on d c cid today) 10 ->
  auto_mark_attendance d today now sid cid
  = (true,
     set_attendance d
       (attendance d ++
        [mk_row sid cid today (Some now) None
           (if now <=? Clock.plus_minutes (start_time c) LATE_THRESHOLD
            then STATUS_PRESENT else STATUS_LATE)
           false])).
Proof.
  intros Hc Hf [H1 H2]. unfold auto_mark_attendance. rewrite Hc, Hf.
  apply Z.leb_le in H1. apply Z.leb_le in H2. rewrite H1, H2. simpl.
  rewrite Z.gtb_ltb, Z.ltb_antisym.
  rewrite sql_insert_fresh by exact Hf.
  now destruct (now <=? Clock.plus_minutes (start_time c) LATE_THRESHOLD).
Qed.

End WholeDay.

(** One student through a day with [auto_mark_attendance] and the
    end-of-day batch.  After a first check-in at [t1] inside the window:
    if no second check-in follows, the batch turns an on-time arrival into
    Unauthorized Departure and leaves a late arrival Late; if a second
    check-in at [t2] inside the second window follows, the batch leaves the
    row with both times and the status of the arrival. *)
Theorem day_of_one_student d today t1 t2 sid cid c :
  Database.get_course_by_id d cid = Some c ->
  Database.fetch_attendance d sid cid today = None ->
  Clock.minus_minutes (Database.start_time c) EARLY_ARRIVAL_MARGIN <= t1
    <= Clock.minus_minutes (Database.course_end_on d c cid today) 10 ->
  Database.fetch_attendance
    (snd (Database.update_partial_attendance
            (snd (Database.auto_mark_attendance d today t1 sid cid)) today))
    sid cid today
  = Some (Database.mk_row sid cid today (Some t1) None
            (if t1 <=? Clock.plus_minutes (Database.start_time c) LATE_THRESHOLD
             then STATUS_UNAUTHORIZED_DEPARTURE else STATUS_LATE)
            false)
  /\
  (Database.in_second_window (Database.course_end_on d c cid today) t2 ->
   Database.fetch_attendance
     (snd (Database.update_partial_attendance
             (snd (Database.auto_mark_attendance
                     (snd (Database.auto_mark_attendance d today t1 sid cid))
                     today t2 sid cid))
             today))
     sid cid today
   = Some (Database.mk_row sid cid today (Some t1) (Some t2)
             (if t1 <=? Clock.plus_minutes (Database.start_time c) LATE_THRESHOLD
              then STATUS_PRESENT else STATUS_LATE)
             false)).
Proof.
  intros Hc Hf Hw.
  rewrite (auto_mark_first_insert d today t1 sid cid c Hc Hf Hw). cbn [snd].
  set (st := if t1 <=? Clock.plus_minutes (Database.start_time c) LATE_THRESHOLD
             then STATUS_PRESENT else STATUS_LATE).
  set (r1 := Database.mk_row sid cid today (Some t1) None st false).
  set (d1 := Database.set_attendance d (Database.attendance d ++ [r1])).
  assert (Hk1 : Database.same_key sid cid today r1 = true)
    by (apply same_key_spec; repeat split).
  assert (Hf1 : Database.fetch_attendance d1 sid cid today = Some r1).
  { unfold Database.fetch_attendance, d1. simpl.
    unfold Database.fetch_attendance in Hf.
    rewrite (find_app_none _ _ _ Hf). simpl. now rewrite Hk1. }
  split.
  - unfold Database.fetch_attendance, Database.update_partial_attendance.
    simpl. rewrite find_sql_update_any by reflexivity.
    unfold Database.fetch_attendance in Hf1. simpl in Hf1. rewrite Hf1. simpl.
    unfold Database.partial_where, r1. simpl. rewrite String.eqb_refl.
    unfold st.
    destruct (t1 <=? Clock.plus_minutes (Database.start_time c) LATE_THRESHOLD);
      reflexivity.
  - intros Hin.
    assert (H2 : Database.auto_mark_attendance d1 today t2 sid cid
                 = (true,
                    Database.set_attendance d1
                      (Database.sql_update (Database.same_key sid cid today)
                         (Database.set_second_time t2)
                         (Database.attendance d1)))).
    { unfold Database.auto_mark_attendance.
      change (Database.get_course_by_id d1 cid)
        with (Database.get_course_by_id d cid).
      rewrite Hc, Hf1.
      change (Database.course_end_on d1 c cid today)
        with (Database.course_end_on d c cid today).
      apply in_second_window_dec in Hin.
      cbn [Database.is_cancelled Database.second_time r1].
      now rewrite Hin. }
    rewrite H2. cbn [snd].
    unfold Database.fetch_attendance, Database.update_partial_attendance.
    cbn [snd Database.attendance Database.set_attendance].
    rewrite find_sql_update_any by reflexivity.
    rewrite find_sql_update by reflexivity.
    unfold Database.fetch_attendance in Hf1.
    cbn [Database.attendance Database.set_attendance d1] in Hf1.
    cbn [Database.attendance Database.set_attendance d1].
    rewrite Hf1. simpl.
    unfold Database.partial_where. simpl.
    now rewrite !andb_false_r.
Qed.

(** Alice arrives at 07:58.  Without a second check-in the batch marks her
    Unauthorized Departure; with one at 08:57 she stays Present. *)
Lemma day_of_one_student_instance :
  Database.fetch_attendance
    (snd (Database.update_partial_attendance
            (snd (Database.auto_mark_attendance Demo.empty_day Demo.day1
                    (Clock.hm 7 58) "s1" 101))
            Demo.day1))
    "s1" 101 Demo.day1
  = Some (Database.mk_row "s1" 101 Demo.day1 (Some (Clock.hm 7 58)) None
            STATUS_UNAUTHORIZED_DEPARTURE false)
  /\
  Database.fetch_attendance
    (snd (Database.update_partial_attendance
            (snd (Database.auto_mark_attendance
                    (snd (Database.auto_mark_attendance Demo.empty_day Demo.day1
                            (Clock.hm 7 58) "s1" 101))
                    Demo.day1 (Clock.hm 8 57) "s1" 101))
            Demo.day1))
    "s1" 101 Demo.day1
  = Some (Database.mk_row "s1" 101 Demo.day1 (Some (Clock.hm 7 58))
            (Some (Clock.hm 8 57)) STATUS_PRESENT false).
Proof.
  assert (Hw : Clock.minus_minutes (Database.start_time Demo.course101)
                                   EARLY_ARRIVAL_MARGIN <= Clock.hm 7 58
               <= Clock.minus_minutes
                    (Database.course_end_on Demo.empty_day Demo.course101 101
                                            Demo.day1) 10)
    by (split; discriminate).
  split.
  - exact (proj1 (day_of_one_student Demo.empty_day Demo.day1 (Clock.hm 7 58)
                    (Clock.hm 8 57) "s1" 101 Demo.course101 eq_refl eq_refl Hw)).
  - refine (proj2 (day_of_one_student Demo.empty_day Demo.day1 (Clock.hm 7 58)
                     (Clock.hm 8 57) "s1" 101 Demo.course101 eq_refl eq_refl Hw)
              _).
    split; discriminate.
Defined.

(** * The courses in session *)

Section CurrentCourses.
Import Database.

Lemma early_time_on_the_minute start :
  start mod 60 = 0 ->
  (Clock.minus_minutes start EARLY_ARRIVAL_MARGIN) mod 60 = 0.
Proof.
  unfold Clock.minus_minutes, EARLY_ARRIVAL_MARGIN, Clock.seconds_per_day.
  intros H. Z.div_mod_to_equations. lia.
Qed.

Lemma minute_of_bounds now x :
  x mod 60 = 0 -> x <= now -> x <= Schedule.minute_of now <= now.
Proof.
  unfold Schedule.minute_of. intros H Hx. Z.div_mod_to_equations. lia.
Qed.

Lemma early_time_after_midnight start :
  0 <= start < 60 * EARLY_ARRIVAL_MARGIN ->
  Clock.seconds_per_day - 60 * EARLY_ARRIVAL_MARGIN
    <= Clock.minus_minutes start EARLY_ARRIVAL_MARGIN.
Proof.
  unfold Clock.minus_minutes, EARLY_ARRIVAL_MARGIN, Clock.seconds_per_day.
  intros H. Z.div_mod_to_equations. lia.
Qed.

End CurrentCourses.

(** Whenever the recognition path marks a first check-in for a course that
    has no custom end time for the day, [get_current_courses] lists that
    course at the same moment (the course being among those of the day and
    its start time a whole minute, as "%H:%M" gives). *)
Theorem current_courses_cover_recognition_check_in
    d today now sid nm cid c all_courses res d' :
  Database.get_course_by_id d cid = Some c ->
  Database.get_custom_end_time d cid today = None ->
  In c all_courses ->
  Database.start_time c mod 60 = 0 ->
  Database.fetch_attendance d sid cid today = None ->
  Vit.mark_attendance_for_recognized_students d today now [(sid, nm)] cid
  = Some ([res], d') ->
  Vit.success res = true ->
  In c (Schedule.get_current_courses all_courses now).
Proof.
  intros Hc Hcustom Hin Hmin Hf Hrun Hok.
  unfold Vit.mark_attendance_for_recognized_students in Hrun.
  rewrite Hc in Hrun. unfold Vit.mark_loop, Vit.mark_one in Hrun.
  unfold Database.course_end_on in Hrun. rewrite Hcustom, Hf in Hrun.
  destruct (Database.is_student_enrolled_in_course d sid cid);
    [|injection Hrun as <- _; discriminate].
  destruct (Z.ltb_spec now
              (Clock.minus_minutes (Database.start_time c) EARLY_ARRIVAL_MARGIN))
    as [Hlt | Hge]; [injection Hrun as <- _; discriminate|].
  rewrite Z.gtb_ltb in Hrun.
  destruct (Z.ltb_spec (Database.end_time c) now) as [Hlate | Hle];
    [injection Hrun as <- _; discriminate|].
  unfold Schedule.get_current_courses. apply filter_In. split; [exact Hin|].
  pose proof (minute_of_bounds now _ (early_time_on_the_minute _ Hmin) Hge)
    as [B1 B2].
  apply andb_true_iff. split; apply Z.leb_le; lia.
Qed.

Lemma current_courses_cover_recognition_check_in_instance :
  In Demo.course101
     (Schedule.get_current_courses [Demo.course101] (Clock.hms 8 59 30)).
Proof.
  refine (current_courses_cover_recognition_check_in
            Demo.empty_day Demo.day1 (Clock.hms 8 59 30) "s1" "Alice" 101
            Demo.course101 [Demo.course101]
            (Vit.mk_attendance_result "s1" "Alice" true "Marked as Late")
            (Demo.with_rows
               [Database.mk_row "s1" 101 Demo.day1 (Some (Clock.hms 8 59 30))
                                None STATUS_LATE false])
            eq_refl eq_refl _ eq_refl eq_refl eq_refl eq_refl).
  left. reflexivity.
Defined.

(** A course that starts less than [EARLY_ARRIVAL_MARGIN] minutes after
    midnight and ends before 23:55 has its early-arrival bound on the
    evening side of the clock: it is never listed by [get_current_courses],
    and (with no custom end time) no first check-in for it is ever
    accepted, neither by the recognition path nor, when it ends at 00:10 or
    later, by [auto_mark_attendance]. *)
Theorem course_just_after_midnight d today now sid nm cid c all_courses :
  0 <= Database.start_time c < 60 * EARLY_ARRIVAL_MARGIN ->
  Database.end_time c < Clock.seconds_per_day - 60 * EARLY_ARRIVAL_MARGIN ->
  ~ In c (Schedule.get_current_courses all_courses now)
  /\
  (Database.get_course_by_id d cid = Some c ->
   Database.get_custom_end_time d cid today = None ->
   Database.fetch_attendance d sid cid today = None ->
   (600 <= Database.end_time c ->
    Database.auto_mark_attendance d today now sid cid = (false, d))
   /\
   (exists msg,
       Vit.mark_attendance_for_recognized_students d today now [(sid, nm)] cid
       = Some ([Vit.mk_attendance_result sid nm false msg], d))).
Proof.
  intros Hstart Hend.
  pose proof (early_time_after_midnight _ Hstart) as Hearly.
  split.
  - intros Hin. unfold Schedule.get_current_courses in Hin.
    apply filter_In in Hin. destruct Hin as [_ Hin].
    apply andb_true_iff in Hin. destruct Hin as [H1 H2].
    apply Z.leb_le in H1. apply Z.leb_le in H2. lia.
  - intros Hc Hcustom Hf. split.
    + intros H600.
      assert (Hno : fst (Database.auto_mark_attendance d today now sid cid) = false).
      { destruct (fst (Database.auto_mark_attendance d today now sid cid)) eqn:Hb;
          [|reflexivity].
        apply (auto_mark_first_window d today now sid cid c Hc Hf) in Hb.
        unfold Database.course_end_on in Hb. rewrite Hcustom in Hb.
        rewrite (minus_minutes_no_wrap _ 10) in Hb
          by (unfold Clock.seconds_per_day, EARLY_ARRIVAL_MARGIN in *; lia).
        lia. }
      unfold Database.auto_mark_attendance in *. rewrite Hc, Hf in *.
      destruct (_ && _); [|reflexivity].
      destruct (Database.sql_insert _ _); [discriminate | reflexivity].
    + unfold Vit.mark_attendance_for_recognized_students. rewrite Hc.
      unfold Vit.mark_loop, Vit.mark_one.
      unfold Database.course_end_on. rewrite Hcustom, Hf.
      destruct (Database.is_student_enrolled_in_course d sid cid);
        [|eexists; reflexivity].
      destruct (Z.ltb_spec now
                  (Clock.minus_minutes (Database.start_time c)
                                       EARLY_ARRIVAL_MARGIN));
        [eexists; reflexivity|].
      rewrite Z.gtb_ltb.
      destruct (Z.ltb_spec (Database.end_time c) now);
        [eexists; reflexivity | lia].
Qed.

Lemma course_just_after_midnight_instance :
  ~ In Samples.night_course
       (Schedule.get_current_courses [Samples.night_course] (Clock.hm 0 10))
  /\ Database.auto_mark_attendance Samples.night_school Demo.day1 (Clock.hm 0 10)
                                   "s1" 202
     = (false, Samples.night_school).
Proof.
  assert (H1 : 0 <= Database.start_time Samples.night_course
               < 60 * EARLY_ARRIVAL_MARGIN)
    by (split; [discriminate | reflexivity]).
  assert (H2 : Database.end_time Samples.night_course
               < Clock.seconds_per_day - 60 * EARLY_ARRIVAL_MARGIN)
    by reflexivity.
  split.
  - exact (proj1 (course_just_after_midnight Samples.night_school Demo.day1
                    (Clock.hm 0 10) "s1" "Alice" 202 Samples.night_course
                    [Samples.night_course] H1 H2)).
  - refine (proj1 (proj2 (course_just_after_midnight Samples.night_school
                            Demo.day1 (Clock.hm 0 10) "s1" "Alice" 202
                            Samples.night_course [Samples.night_course] H1 H2)
                     eq_refl eq_refl eq_refl) _).
    discriminate.
Defined.

(** * Enrollment *)

Section Enrollment.
Import Database Registrar.

Lemma existsb_false_all {A : Type} (p : A -> bool) (l : list A) :
  existsb p l = false -> forall x, In x l -> p x = false.
Proof.
  intros H x Hin. destruct (p x) eqn:Hp; [|reflexivity].
  assert (existsb p l = true) by (apply existsb_exists; eauto). congruence.
Qed.

Lemma is_enrolled_existsb d sid cid :
  is_student_enrolled_in_course d sid cid
  = existsb (fun e => (e_course_id e =? cid) && String.eqb (e_student_id e) sid)
            (enrollments d).
Proof.
  unfold is_student_enrolled_in_course.
  induction (enrollments d) as [|e l IH]; simpl; [reflexivity|].
  now rewrite IH, andb_comm.
Qed.

(** The checks of [enroll_student] in order; the INSERT that follows them
    cannot break the UNIQUE constraint. *)
Lemma enroll_student_cases catalog d cid sid :
  enroll_student catalog d cid sid
  = if is_student_enrolled_in_course d sid cid then (false, d)
    else
      match find (fun c => reference_number c =? cid) catalog with
      | None => (false, d)
      | Some c =>
          if in_other_section catalog d sid (code c) cid then (false, d)
          else if capacity c <=? enrolled_count d cid then (false, d)
          else (true,
                set_enrollments d (enrollments d ++ [mk_enrollment cid sid]))
      end.
Proof.
  unfold enroll_student, get_enrollment_data.
  rewrite count_positive, <- is_enrolled_existsb.
  destruct (is_student_enrolled_in_course d sid cid) eqn:He; [reflexivity|].
  destruct (find _ catalog) as [c|]; [|reflexivity].
  destruct (in_other_section _ _ _ _ _); [reflexivity|]. simpl.
  destruct (capacity c <=? enrolled_count d cid); [reflexivity|].
  unfold insert_enrollment. simpl.
  rewrite is_enrolled_existsb in He. now rewrite He.
Qed.

Lemma find_unique_reference catalog c :
  unique_references catalog -> In c catalog ->
  find (fun x => reference_number x =? reference_number c) catalog = Some c.
Proof.
  unfold unique_references.
  induction catalog as [|a l IH]; intros Hu Hin; [destruct Hin|].
  simpl in Hu. inversion Hu as [|k ks Hnot Hrest]; subst. simpl.
  destruct Hin as [-> | Hin]; [now rewrite Z.eqb_refl|].
  destruct (Z.eqb_spec (reference_number a) (reference_number c)) as [Heq|];
    [|now apply IH].
  exfalso. apply Hnot. rewrite Heq. now apply in_map.
Qed.

Lemma enrolled_count_after d e ref :
  enrolled_count (set_enrollments d (enrollments d ++ [e])) ref
  = enrolled_count d ref + (if e_course_id e =? ref then 1 else 0).
Proof.
  unfold enrolled_count. simpl. rewrite filter_app, length_app. simpl.
  destruct (e_course_id e =? ref); simpl; lia.
Qed.

Lemma set_enrollments_same d : set_enrollments d (enrollments d) = d.
Proof. now destruct d. Qed.

End Enrollment.

(** [enroll_student] returns [True] only when the student was not in the
    section, the section exists, the student is in no other section of the
    same course code, and the section has a free place; the student is then
    appended to the enrollments and is enrolled.  When it returns [False]
    the database is as before. *)
Theorem enroll_student_outcome catalog d cid sid :
  (fst (Registrar.enroll_student catalog d cid sid) = false ->
   snd (Registrar.enroll_student catalog d cid sid) = d)
  /\
  (fst (Registrar.enroll_student catalog d cid sid) = true ->
   Database.is_student_enrolled_in_course d sid cid = false
   /\ (exists c,
          find (fun c => Registrar.reference_number c =? cid) catalog = Some c
          /\ Registrar.in_other_section catalog d sid (Registrar.code c) cid
             = false
          /\ Registrar.enrolled_count d cid < Registrar.capacity c)
   /\ Database.enrollments (snd (Registrar.enroll_student catalog d cid sid))
      = Database.enrollments d ++ [Database.mk_enrollment cid sid]
   /\ Database.is_student_enrolled_in_course
        (snd (Registrar.enroll_student catalog d cid sid)) sid cid = true).
Proof.
  rewrite enroll_student_cases.
  destruct (Database.is_student_enrolled_in_course d sid cid) eqn:He;
    [split; [reflexivity | discriminate]|].
  destruct (find _ catalog) as [c|] eqn:Hc;
    [|split; [reflexivity | discriminate]].
  destruct (Registrar.in_other_section catalog d sid (Registrar.code c) cid)
    eqn:Ho; [split; [reflexivity | discriminate]|].
  destruct (Z.leb_spec (Registrar.capacity c) (Registrar.enrolled_count d cid));
    [split; [reflexivity | discriminate]|].
  split; [discriminate|]. intros _.
  split; [reflexivity|]. split; [exists c; auto|]. split; [reflexivity|].
  simpl. unfold Database.is_student_enrolled_in_course. simpl.
  rewrite existsb_app. simpl.
  now rewrite String.eqb_refl, Z.eqb_refl, orb_true_r.
Qed.

(** Alice takes the only place of section 101; Bob is then refused there,
    and Alice is refused in section 102 of the same course. *)
Lemma enroll_student_outcome_instance :
  Database.is_student_enrolled_in_course
    (snd (Registrar.enroll_student Samples.catalog Samples.no_enrollment
            101 "s1")) "s1" 101 = true
  /\ snd (Registrar.enroll_student Samples.catalog
            (snd (Registrar.enroll_student Samples.catalog Samples.no_enrollment
                    101 "s1")) 101 "s2")
     = snd (Registrar.enroll_student Samples.catalog Samples.no_enrollment
              101 "s1")
  /\ snd (Registrar.enroll_student Samples.catalog
            (snd (Registrar.enroll_student Samples.catalog Samples.no_enrollment
                    101 "s1")) 102 "s1")
     = snd (Registrar.enroll_student Samples.catalog Samples.no_enrollment
              101 "s1").
Proof.
  split; [|split].
  - exact (proj2 (proj2 (proj2
             (proj2 (enroll_student_outcome Samples.catalog
                       Samples.no_enrollment 101 "s1") eq_refl)))).
  - exact (proj1 (enroll_student_outcome Samples.catalog
                    (snd (Registrar.enroll_student Samples.catalog
                            Samples.no_enrollment 101 "s1")) 101 "s2")
             eq_refl).
  - exact (proj1 (enroll_student_outcome Samples.catalog
                    (snd (Registrar.enroll_student Samples.catalog
                            Samples.no_enrollment 101 "s1")) 102 "s1")
             eq_refl).
Defined.

(** [enroll_student] never overbooks: if no section of the catalog holds
    more students than its capacity, the same is true after the call
    (reference numbers being unique in the catalog). *)
Theorem enroll_student_keeps_capacity catalog d cid sid :
  Registrar.unique_references catalog ->
  Registrar.within_capacity catalog d ->
  Registrar.within_capacity catalog
    (snd (Registrar.enroll_student catalog d cid sid)).
Proof.
  intros Hu Hcap. rewrite enroll_student_cases.
  destruct (Database.is_student_enrolled_in_course d sid cid); [exact Hcap|].
  destruct (find _ catalog) as [c|] eqn:Hc; [|exact Hcap].
  destruct (Registrar.in_other_section _ _ _ _ _); [exact Hcap|].
  destruct (Z.leb_spec (Registrar.capacity c) (Registrar.enrolled_count d cid))
    as [|Hfree]; [exact Hcap|].
  intros c' Hin. cbn [snd]. rewrite enrolled_count_after. simpl.
  destruct (Z.eqb_spec cid (Registrar.reference_number c')) as [Heq|Hne].
  - pose proof (find_unique_reference catalog c' Hu Hin) as Hc'.
    rewrite <- Heq in Hc'. rewrite Hc in Hc'. injection Hc' as <-.
    rewrite <- Heq. lia.
  - specialize (Hcap c' Hin). lia.
Qed.

Lemma enroll_student_keeps_capacity_instance :
  Registrar.within_capacity Samples.catalog
    (snd (Registrar.enroll_student Samples.catalog Samples.no_enrollment
            101 "s1")).
Proof.
  apply enroll_student_keeps_capacity.
  - unfold Registrar.unique_references. simpl.
    repeat constructor; simpl; intuition discriminate.
  - intros c Hin. simpl in Hin.
    destruct Hin as [<- | [<- | [<- | []]]]; discriminate.
Defined.

(** [enroll_student] keeps a student in at most one section of each course
    code (reference numbers being unique in the catalog). *)
Theorem enroll_student_keeps_single_section catalog d cid sid :
  Registrar.unique_references catalog ->
  Registrar.single_section catalog d ->
  Registrar.single_section catalog
    (snd (Registrar.enroll_student catalog d cid sid)).
Proof.
  intros Hu Hs. rewrite enroll_student_cases.
  destruct (Database.is_student_enrolled_in_course d sid cid); [exact Hs|].
  destruct (find _ catalog) as [c|] eqn:Hc; [|exact Hs].
  destruct (Registrar.in_other_section catalog d sid (Registrar.code c) cid)
    eqn:Ho; [exact Hs|].
  destruct (Registrar.capacity c <=? Registrar.enrolled_count d cid);
    [exact Hs|].
  assert (Hold : forall e2 c1 c2,
             In e2 (Database.enrollments d) ->
             Database.e_student_id e2 = sid ->
             In c1 catalog -> In c2 catalog ->
             Registrar.reference_number c1 = cid ->
             Registrar.reference_number c2 = Database.e_course_id e2 ->
             Registrar.code c1 = Registrar.code c2 ->
             Database.e_course_id e2 = cid).
  { intros e2 c1 c2 Hin2 Hst Hc1 Hc2 Hr1 Hr2 Hcode.
    pose proof (find_unique_reference catalog c1 Hu Hc1) as Hf1.
    rewrite Hr1, Hc in Hf1. injection Hf1 as ->.
    unfold Registrar.in_other_section in Ho.
    pose proof (existsb_false_all _ _ Ho e2 Hin2) as He2. simpl in He2.
    rewrite Hst, String.eqb_refl in He2. simpl in He2.
    pose proof (existsb_false_all _ _ He2 c2 Hc2) as Hc2'. simpl in Hc2'.
    rewrite Hr2, Z.eqb_refl, <- Hcode, String.eqb_refl in Hc2'. simpl in Hc2'.
    apply negb_false_iff, Z.eqb_eq in Hc2'. congruence. }
  intros e1 e2 c1 c2 Hin1 Hin2 Hst Hc1 Hc2 Hr1 Hr2 Hcode.
  cbn [snd] in Hin1, Hin2. simpl in Hin1, Hin2.
  apply in_app_or in Hin1. apply in_app_or in Hin2.
  destruct Hin1 as [Hin1 | [<- | []]]; destruct Hin2 as [Hin2 | [<- | []]];
    simpl in *.
  - exact (Hs e1 e2 c1 c2 Hin1 Hin2 Hst Hc1 Hc2 Hr1 Hr2 Hcode).
  - exact (Hold e1 c2 c1 Hin1 Hst Hc2 Hc1 Hr2 Hr1 (eq_sym Hcode)).
  - symmetry. exact (Hold e2 c1 c2 Hin2 (eq_sym Hst) Hc1 Hc2 Hr1 Hr2 Hcode).
  - reflexivity.
Qed.

Lemma enroll_student_keeps_single_section_instance :
  Registrar.single_section Samples.catalog
    (snd (Registrar.enroll_student Samples.catalog Samples.no_enrollment
            101 "s1")).
Proof.
  apply enroll_student_keeps_single_section.
  - unfold Registrar.unique_references. simpl.
    repeat constructor; simpl; intuition discriminate.
  - intros e1 e2 c1 c2 Hin. destruct Hin.
Defined.

(** [unenroll_student] undoes a successful [enroll_student]: the database
    is again the one before the enrollment.  After [unenroll_student], on
    any database, the student is not enrolled in the course. *)
Theorem unenroll_student_undoes_enroll catalog d cid sid :
  (fst (Registrar.enroll_student catalog d cid sid) = true ->
   Registrar.unenroll_student
     (snd (Registrar.enroll_student catalog d cid sid)) cid sid = d)
  /\ Database.is_student_enrolled_in_course
       (Registrar.unenroll_student d cid sid) sid cid = false.
Proof.
  split.
  - rewrite enroll_student_cases.
    destruct (Database.is_student_enrolled_in_course d sid cid) eqn:He;
      [discriminate|].
    destruct (find _ catalog) as [c|]; [|discriminate].
    destruct (Registrar.in_other_section _ _ _ _ _); [discriminate|].
    destruct (Registrar.capacity c <=? Registrar.enrolled_count d cid);
      [discriminate|].
    intros _. cbn [snd]. unfold Registrar.unenroll_student. simpl.
    rewrite filter_app. simpl. rewrite Z.eqb_refl, String.eqb_refl. simpl.
    rewrite app_nil_r. rewrite is_enrolled_existsb in He.
    assert (Hkeep : filter
                      (fun e => negb ((Database.e_course_id e =? cid) &&
                                      String.eqb (Database.e_student_id e) sid))
                      (Database.enrollments d)
                    = Database.enrollments d).
    { clear - He. induction (Database.enrollments d) as [|e l IH]; simpl in *;
        [reflexivity|].
      apply orb_false_iff in He. destruct He as [H1 H2].
      rewrite H1. simpl. now rewrite (IH H2). }
    rewrite Hkeep. unfold Registrar.set_enrollments. simpl. now destruct d.
  - rewrite is_enrolled_existsb. unfold Registrar.unenroll_student. simpl.
    induction (Database.enrollments d) as [|e l IH]; simpl; [reflexivity|].
    destruct ((Database.e_course_id e =? cid) &&
              String.eqb (Database.e_student_id e) sid) eqn:Hk; simpl;
      [exact IH|]. now rewrite Hk.
Qed.

Lemma unenroll_student_undoes_enroll_instance :
  Registrar.unenroll_student
    (snd (Registrar.enroll_student Samples.catalog Samples.no_enrollment
            101 "s1")) 101 "s1"
  = Samples.no_enrollment.
Proof.
  exact (proj1 (unenroll_student_undoes_enroll Samples.catalog
                  Samples.no_enrollment 101 "s1") eq_refl).
Defined.

(** * Attendance statistics *)

Section Statistics.
Import Database Tracker.

Lemma percentage_bounds t a :
  0 < t -> 0 <= a <= t ->
  (0 <= attendance_percentage t a <= 100)%Q.
Proof.
  intros Ht Ha. unfold attendance_percentage.
  assert (Hq : (0 < inject_Z t)%Q) by (unfold Qlt; simpl; lia).
  split.
  - apply Qle_shift_div_l; [exact Hq|].
    assert ((0 <= inject_Z (t - a))%Q) by (unfold Qle; simpl; lia). nra.
  - apply Qle_shift_div_r; [exact Hq|].
    assert ((inject_Z (t - a) <= inject_Z t)%Q) by (unfold Qle; simpl; lia).
    nra.
Qed.

(** Rows of one student and course have distinct dates under the UNIQUE
    constraint. *)
Lemma dates_distinct sid cid (p : attendance_row -> bool) rows :
  unique_keys rows ->
  (forall r, p r = true -> student_id r = sid /\ course_id r = cid) ->
  NoDup (map date (filter p rows)).
Proof.
  unfold unique_keys. intros Hu Hp.
  induction rows as [|a rows IH]; simpl; [constructor|].
  simpl in Hu. inversion Hu as [|k ks Hnot Hrest]; subst.
  destruct (p a) eqn:Ha; [|now apply IH].
  simpl. constructor; [|now apply IH].
  intros Hin. apply in_map_iff in Hin. destruct Hin as (r & Hd & Hr).
  apply filter_In in Hr. destruct Hr as [Hr Hpr].
  apply Hnot. apply in_map_iff. exists r. split; [|exact Hr].
  destruct (Hp a Ha) as [A1 A2]. destruct (Hp r Hpr) as [R1 R2].
  unfold row_key. congruence.
Qed.

Lemma held_for_spec sid ref r :
  held_for sid ref r = true ->
  student_id r = sid /\ course_id r = ref /\ held ref r = true.
Proof.
  unfold held_for, held. rewrite !andb_true_iff, String.eqb_eq, Z.eqb_eq.
  tauto.
Qed.

Lemma absences_within_lectures sid ref rows :
  unique_keys rows ->
  (List.length (filter (fun r => held_for sid ref r && is_absence r) rows)
   <= List.length (nodup string_dec (map date (filter (held ref) rows))))%nat.
Proof.
  intros Hu.
  rewrite <- (length_map date
                (filter (fun r => held_for sid ref r && is_absence r) rows)).
  apply NoDup_incl_length.
  - apply (dates_distinct sid ref); [exact Hu|].
    intros r Hr. apply andb_true_iff in Hr. destruct Hr as [Hr _].
    apply held_for_spec in Hr. tauto.
  - intros x Hx. apply nodup_In. apply in_map_iff in Hx.
    destruct Hx as (r & <- & Hr). apply filter_In in Hr.
    destruct Hr as [Hin Hp]. apply andb_true_iff in Hp. destruct Hp as [Hp _].
    apply held_for_spec in Hp. apply in_map, filter_In. tauto.
Qed.

Lemma count_absences_spec records :
  forall n ds,
    count_absences records n ds
    = (n + Z.of_nat (List.length (filter is_absence records)),
       ds ++ map date (filter is_absence records)).
Proof.
  induction records as [|r rest IH]; intros n ds; simpl.
  - now rewrite Z.add_0_r, app_nil_r.
  - destruct (is_absence r); simpl.
    + rewrite IH. f_equal; [lia | now rewrite <- app_assoc].
    + apply IH.
Qed.

Lemma filter_twice {A : Type} (p q : A -> bool) (l : list A) :
  filter q (filter p l) = filter (fun x => p x && q x) l.
Proof.
  induction l as [|a l IH]; simpl; [reflexivity|].
  destruct (p a); simpl; [|exact IH].
  destruct (q a); now rewrite IH.
Qed.

Lemma no_lecture_no_held ref rows :
  count_distinct_dates (filter (held ref) rows) = 0 ->
  filter (held ref) rows = [].
Proof.
  unfold count_distinct_dates. intros H.
  destruct (filter (held ref) rows) as [|r l] eqn:Hf; [reflexivity|].
  exfalso.
  assert (Hin : In (date r) (nodup string_dec (map date (r :: l))))
    by (apply nodup_In; now left).
  destruct (nodup string_dec (map date (r :: l))); [destruct Hin|].
  simpl in H. lia.
Qed.

(** The summary after the loop over the students, from any accumulator. *)
Lemma summary_fold d ref total students :
  forall acc,
    let s := fold_left (summary_step d ref total) students acc in
    good_count s + warning_count s + risk_count s + denied_count s
    = good_count acc + warning_count acc + risk_count acc + denied_count acc
      + Z.of_nat (List.length students)
    /\ map (fun st => (ss_student_id st, ss_student_name st)) (student_stats s)
       = map (fun st => (ss_student_id st, ss_student_name st))
             (student_stats acc) ++ students
    /\ summary_total_lectures s = summary_total_lectures acc
    /\ (good_count acc <= good_count s /\ warning_count acc <= warning_count s
        /\ risk_count acc <= risk_count s /\ denied_count acc <= denied_count s).
Proof.
  induction students as [|[sid nm] rest IH]; intros acc; cbn [fold_left].
  - simpl. rewrite app_nil_r. repeat split; lia.
  - specialize (IH (summary_step d ref total acc (sid, nm))).
    cbv zeta in IH. destruct IH as (I1 & I2 & I3 & I4).
    cbv zeta. rewrite I1, I2, I3.
    unfold summary_step in *.
    destruct (count_absences _ 0 []) as [n ds].
    destruct (Qle_bool 90 _); [|destruct (Qle_bool 85 _);
                                 [|destruct (Qle_bool 80 _)]];
      cbn [good_count warning_count risk_count denied_count student_stats
           summary_total_lectures] in *;
      rewrite map_app; simpl; rewrite <- app_assoc; simpl;
      (split; [lia | split; [reflexivity | split; [reflexivity | lia]]]).
Qed.

End Statistics.

(** [get_student_attendance] on a table that satisfies the UNIQUE
    constraint: the absences of a student never exceed the lectures held,
    so the percentage lies between 0 and 100; with no lecture held it is
    100 with no absence. *)
Theorem student_attendance_bounds d sid ref :
  Database.unique_keys (Database.attendance d) ->
  0 <= Tracker.absence_count (Tracker.get_student_attendance d sid ref)
    <= Tracker.total_lectures (Tracker.get_student_attendance d sid ref)
  /\ (0 <= Tracker.percentage (Tracker.get_student_attendance d sid ref)
        <= 100)%Q
  /\ (Tracker.total_lectures (Tracker.get_student_attendance d sid ref) = 0 ->
      Tracker.percentage (Tracker.get_student_attendance d sid ref) = 100%Q
      /\ Tracker.absence_count (Tracker.get_student_attendance d sid ref) = 0).
Proof.
  intros Hu. unfold Tracker.get_student_attendance.
  destruct (Z.eqb_spec
              (Tracker.count_distinct_dates
                 (filter (Tracker.held ref) (Database.attendance d))) 0)
    as [Hz | Hnz]; simpl.
  - repeat split; try lia; unfold Qle; simpl; lia.
  - pose proof (absences_within_lectures sid ref _ Hu) as Hle.
    unfold Tracker.count_distinct_dates in *.
    split; [lia|]. split; [|intros H0; contradiction].
    apply percentage_bounds; lia.
Qed.

Lemma student_attendance_bounds_instance :
  0 <= Tracker.absence_count (Tracker.get_student_attendance Samples.term "s1" 101)
    <= Tracker.total_lectures (Tracker.get_student_attendance Samples.term "s1" 101).
Proof.
  refine (proj1 (student_attendance_bounds Samples.term "s1" 101 _)).
  unfold Database.unique_keys. simpl.
  repeat constructor; simpl; intuition discriminate.
Defined.

(** [get_course_attendance_summary] counts every enrolled student in
    exactly one of the four categories, with or without lectures held; when
    lectures were held it returns one statistics entry per enrolled
    student, in the order of the enrollments. *)
Theorem summary_counts_every_student d ref :
  Tracker.good_count (Tracker.get_course_attendance_summary d ref)
  + Tracker.warning_count (Tracker.get_course_attendance_summary d ref)
  + Tracker.risk_count (Tracker.get_course_attendance_summary d ref)
  + Tracker.denied_count (Tracker.get_course_attendance_summary d ref)
  = Z.of_nat (List.length (Tracker.enrolled_with_names d ref))
  /\ 0 <= Tracker.good_count (Tracker.get_course_attendance_summary d ref)
  /\ 0 <= Tracker.warning_count (Tracker.get_course_attendance_summary d ref)
  /\ 0 <= Tracker.risk_count (Tracker.get_course_attendance_summary d ref)
  /\ 0 <= Tracker.denied_count (Tracker.get_course_attendance_summary d ref)
  /\ (Tracker.summary_total_lectures (Tracker.get_course_attendance_summary d ref)
        <> None ->
      map (fun st => (Tracker.ss_student_id st, Tracker.ss_student_name st))
          (Tracker.student_stats (Tracker.get_course_attendance_summary d ref))
      = Tracker.enrolled_with_names d ref).
Proof.
  unfold Tracker.get_course_attendance_summary.
  destruct (Tracker.count_distinct_dates _ =? 0).
  - simpl. repeat split; try lia. intros H. now elim H.
  - pose proof (summary_fold d ref
                  (Tracker.count_distinct_dates
                     (filter (Tracker.held ref) (Database.attendance d)))
                  (Tracker.enrolled_with_names d ref)
                  (Tracker.mk_summary 0 0 0 0 []
                     (Some (Tracker.count_distinct_dates
                              (filter (Tracker.held ref) (Database.attendance d))))))
      as H.
    cbv zeta in H. simpl in H. destruct H as (H1 & H2 & H3 & H4).
    repeat split; try lia. intros _. exact H2.
Qed.

(** Alice missed two of three lectures (33.3 percent, denied); Bob missed
    none (good). *)
Lemma summary_counts_every_student_instance :
  map (fun st => (Tracker.ss_student_id st, Tracker.ss_student_name st))
      (Tracker.student_stats
         (Tracker.get_course_attendance_summary Samples.term 101))
  = [("s1"%string, "Alice"%string); ("s2"%string, "Bob"%string)].
Proof.
  refine (proj2 (proj2 (proj2 (proj2 (proj2
            (summary_counts_every_student Samples.term 101))))) _).
  discriminate.
Defined.

Section StatisticsAgree.
Import Database Tracker.

Lemma summary_step_matches d ref acc student :
  count_distinct_dates (filter (held ref) (attendance d)) <> 0 ->
  Forall (stat_matches d ref) (student_stats acc) ->
  Forall (stat_matches d ref)
         (student_stats
            (summary_step d ref
               (count_distinct_dates (filter (held ref) (attendance d)))
               acc student)).
Proof.
  intros Hnz Hacc. destruct student as [sid nm].
  assert (Hpos : (0 <? count_distinct_dates (filter (held ref) (attendance d)))
                 = true).
  { apply Z.ltb_lt. unfold count_distinct_dates in *. lia. }
  assert (Hnew : stat_matches d ref
            (mk_student_stat sid nm
               (attendance_percentage
                  (count_distinct_dates (filter (held ref) (attendance d)))
                  (Z.of_nat (List.length
                     (filter is_absence
                        (filter (held_for sid ref) (attendance d))))))
               (Z.of_nat (List.length
                  (filter is_absence (filter (held_for sid ref) (attendance d)))))
               (count_distinct_dates (filter (held ref) (attendance d)))
               (sort_desc
                  (map date
                     (filter is_absence
                        (filter (held_for sid ref) (attendance d)))))
               max_absence_percentage)).
  { unfold stat_matches, get_student_attendance. simpl.
    apply Z.eqb_neq in Hnz. rewrite Hnz. simpl.
    rewrite !filter_twice. repeat split. }
  unfold summary_step. rewrite count_absences_spec, Hpos. simpl.
  destruct (Qle_bool 90 _); [|destruct (Qle_bool 85 _);
                               [|destruct (Qle_bool 80 _)]];
    simpl; apply Forall_app; (split; [exact Hacc | constructor; [exact Hnew | constructor]]).
Qed.

Lemma summary_fold_matches d ref students :
  count_distinct_dates (filter (held ref) (attendance d)) <> 0 ->
  forall acc,
    Forall (stat_matches d ref) (student_stats acc) ->
    Forall (stat_matches d ref)
           (student_stats
              (fold_left
                 (summary_step d ref
                    (count_distinct_dates (filter (held ref) (attendance d))))
                 students acc)).
Proof.
  intros Hnz. induction students as [|s rest IH]; intros acc Hacc;
    [exact Hacc|].
  cbn [fold_left]. apply IH. now apply summary_step_matches.
Qed.

(** The rows the batch rewrites are the Present rows; for the statistics
    each of them turns from a presence into an absence. *)
Lemma reconciled_absences today sid ref rows :
  List.length
    (filter (fun r => held_for sid ref r && is_absence r)
            (sql_update (partial_where today)
                        (set_status STATUS_UNAUTHORIZED_DEPARTURE) rows))
  = (List.length (filter (fun r => held_for sid ref r && is_absence r) rows)
     + List.length
         (filter (fun r => held_for sid ref r && partial_where today r) rows))%nat.
Proof.
  induction rows as [|r rows IH]; simpl; [reflexivity|].
  destruct (partial_where today r) eqn:Hw.
  - assert (Hst : status r = STATUS_PRESENT)
      by (apply partial_where_spec in Hw; tauto).
    assert (Ha : is_absence r = false) by (unfold is_absence; now rewrite Hst).
    assert (Hh : held_for sid ref (set_status STATUS_UNAUTHORIZED_DEPARTURE r)
                 = held_for sid ref r) by reflexivity.
    assert (Ha' : is_absence (set_status STATUS_UNAUTHORIZED_DEPARTURE r) = true)
      by reflexivity.
    rewrite Hh, Ha, Ha', !andb_false_r, !andb_true_r.
    destruct (held_for sid ref r); simpl; rewrite IH; lia.
  - rewrite andb_false_r.
    destruct (held_for sid ref r && is_absence r); simpl; rewrite IH; lia.
Qed.

Lemma reconciled_lectures today ref rows :
  map date (filter (held ref)
              (sql_update (partial_where today)
                          (set_status STATUS_UNAUTHORIZED_DEPARTURE) rows))
  = map date (filter (held ref) rows).
Proof.
  induction rows as [|r rows IH]; simpl; [reflexivity|].
  assert (Hh : held ref (if partial_where today r
                         then set_status STATUS_UNAUTHORIZED_DEPARTURE r else r)
               = held ref r) by (destruct (partial_where today r); reflexivity).
  rewrite Hh. destruct (held ref r); simpl; rewrite IH; [|reflexivity].
  now destruct (partial_where today r).
Qed.

End StatisticsAgree.

(** Every entry of the course summary carries the figures that
    [get_student_attendance] returns for that student: percentage, number
    of absences, lectures held and dates of absence. *)
Theorem summary_agrees_with_student_attendance d ref st :
  In st (Tracker.student_stats (Tracker.get_course_attendance_summary d ref)) ->
  Tracker.stat_matches d ref st.
Proof.
  unfold Tracker.get_course_attendance_summary.
  destruct (Z.eqb_spec
              (Tracker.count_distinct_dates
                 (filter (Tracker.held ref) (Database.attendance d))) 0)
    as [Hz | Hnz].
  - intros [].
  - intros Hin.
    pose proof (summary_fold_matches d ref (Tracker.enrolled_with_names d ref)
                  Hnz
                  (Tracker.mk_summary 0 0 0 0 []
                     (Some (Tracker.count_distinct_dates
                              (filter (Tracker.held ref) (Database.attendance d)))))
                  (Forall_nil _)) as H.
    rewrite Forall_forall in H. now apply H.
Qed.

Lemma summary_agrees_with_student_attendance_instance :
  Tracker.stat_matches Samples.term 101
    (Tracker.mk_student_stat "s1" "Alice"
       (Tracker.attendance_percentage 3 2) 2 3 [Demo.day1; Demo.day0] 20).
Proof.
  apply summary_agrees_with_student_attendance.
  left. reflexivity.
Defined.

(** The end-of-day batch and the statistics: the batch changes no count of
    lectures held, and a student's absences grow by exactly the number of
    that student's rows the batch rewrites (today's Present rows of the
    course with a first time and no second time). *)
Theorem reconciliation_counts_as_absence d today sid ref :
  Tracker.total_lectures
    (Tracker.get_student_attendance
       (snd (Database.update_partial_attendance d today)) sid ref)
  = Tracker.total_lectures (Tracker.get_student_attendance d sid ref)
  /\
  Tracker.absence_count
    (Tracker.get_student_attendance
       (snd (Database.update_partial_attendance d today)) sid ref)
  = Tracker.absence_count (Tracker.get_student_attendance d sid ref)
    + Z.of_nat
        (List.length
           (filter (fun r => Tracker.held_for sid ref r &&
                             Database.partial_where today r)
                   (Database.attendance d))).
Proof.
  unfold Tracker.get_student_attendance. simpl.
  unfold Tracker.count_distinct_dates.
  rewrite reconciled_lectures.
  destruct (Z.eqb_spec
              (Z.of_nat (List.length
                 (nodup string_dec
                    (map Database.date
                       (filter (Tracker.held ref) (Database.attendance d)))))) 0)
    as [Hz | Hnz]; simpl.
  - split; [reflexivity|].
    pose proof (no_lecture_no_held ref (Database.attendance d) Hz) as Hnone.
    assert (Hnil : filter (fun r => Tracker.held_for sid ref r &&
                                    Database.partial_where today r)
                          (Database.attendance d) = []).
    { clear - Hnone. induction (Database.attendance d) as [|r l IH];
        [reflexivity|].
      simpl in *. unfold Tracker.held_for at 1.
      destruct (Tracker.held ref r); [discriminate|].
      rewrite andb_false_r. simpl. exact (IH Hnone). }
    now rewrite Hnil.
  - split; [reflexivity|]. rewrite reconciled_absences. lia.
Qed.

(** * The "Mark Attendance" button *)

(** [AttendanceWindow.mark_attendance] for the student recognized last.
    If the student has any row for the day (cancelled, or waiting for a
    second check-in) it answers "Already Marked" and writes nothing: the
    button never records a second check-in.  If the student has no row it
    inserts one at any time of day, Late when the clock is past
    [start + 15 min] to the microsecond; and whenever
    [auto_mark_attendance] accepts a first check-in at a whole second, the
    button at that instant writes the same database. *)
Theorem window_button_outcome d c cid today now_us earlier sid nm :
  (forall r,
      Database.fetch_attendance d sid cid today = Some r ->
      Window.mark_attendance d c cid today now_us (earlier ++ [(sid, nm)])
      = Some ("Already Marked"%string, d))
  /\
  (Database.fetch_attendance d sid cid today = None ->
   Window.mark_attendance d c cid today now_us (earlier ++ [(sid, nm)])
   = Some ("Success"%string,
           Database.set_attendance d
             (Database.attendance d ++
              [Database.mk_row sid cid today (Some (now_us / Window.micro)) None
                 (if now_us >? Clock.plus_minutes (Database.start_time c) 15
                               * Window.micro
                  then STATUS_LATE else STATUS_PRESENT)
                 false])))
  /\
  (forall t,
      Database.get_course_by_id d cid = Some c ->
      Database.fetch_attendance d sid cid today = None ->
      fst (Database.auto_mark_attendance d today t sid cid) = true ->
      Window.mark_attendance d c cid today (t * Window.micro)
                             (earlier ++ [(sid, nm)])
      = Some ("Success"%string,
              snd (Database.auto_mark_attendance d today t sid cid))).
Proof.
  assert (Hrev : rev (earlier ++ [(sid, nm)]) = (sid, nm) :: rev earlier)
    by (rewrite rev_app_distr; reflexivity).
  assert (Hnone : forall us,
             Database.fetch_attendance d sid cid today = None ->
             Window.mark_attendance d c cid today us (earlier ++ [(sid, nm)])
             = Some ("Success"%string,
                     Database.set_attendance d
                       (Database.attendance d ++
                        [Database.mk_row sid cid today (Some (us / Window.micro))
                           None
                           (if us >? Clock.plus_minutes (Database.start_time c) 15
                                     * Window.micro
                            then STATUS_LATE else STATUS_PRESENT)
                           false]))).
  { intros us Hf. unfold Window.mark_attendance. rewrite Hrev, Hf.
    now rewrite sql_insert_fresh by exact Hf. }
  split; [|split].
  - intros r Hf. unfold Window.mark_attendance. now rewrite Hrev, Hf.
  - apply Hnone.
  - intros t Hc Hf Hacc. rewrite (Hnone _ Hf).
    apply (auto_mark_first_window d today t sid cid c Hc Hf) in Hacc.
    rewrite (auto_mark_first_insert d today t sid cid c Hc Hf Hacc). cbn [snd].
    unfold Window.micro. rewrite Z.div_mul by discriminate.
    unfold LATE_THRESHOLD.
    rewrite Z.gtb_ltb.
    destruct (Z.leb_spec t (Clock.plus_minutes (Database.start_time c) 15));
      destruct (Z.ltb_spec (Clock.plus_minutes (Database.start_time c) 15 * 1000000)
                           (t * 1000000)); try reflexivity; lia.
Qed.

(** ** Recognition on a loaded gallery *)

Section LoadedGallery.
Import Vit.
Context {E : Externals}.

Lemma load_loop_spec l :
  forall encs ids,
    load_loop l encs ids
    = (encs ++ flat_map (fun p => match snd p with
                                  | Some e => [normalize e]
                                  | None => []
                                  end) l,
       ids ++ flat_map (fun p => match snd p with
                                 | Some _ => [fst p]
                                 | None => []
                                 end) l).
Proof.
  induction l as [|[sid [e|]] rest IH]; intros encs ids; simpl.
  - now rewrite !app_nil_r.
  - rewrite IH. now rewrite <- !app_assoc.
  - apply IH.
Qed.

Lemma argmin_in_range ds : ds <> [] -> (argmin ds < List.length ds)%nat.
Proof.
  intros H. apply nth_error_Some.
  destruct (argmin_first_min ds H) as [Hn _]. congruence.
Qed.

(** With as many ids as encodings, a face always gets exactly one entry. *)
Lemma recognize_face_one_entry sys frame reference live res face :
  List.length (known_face_ids sys) = List.length (known_face_encodings sys) ->
  exists live' res',
    recognize_face sys frame reference (live, res) face = Some (live', res')
    /\ (List.length (recognized res') + List.length (unrecognized res')
        = S (List.length (recognized res) + List.length (unrecognized res)))%nat.
Proof.
  intros Hlen. unfold recognize_face.
  destruct (check_liveness live frame None (Some face)) as [live' ok].
  destruct ok; cbn [negb].
  - set (ds := face_distances sys (normalize (vit_encode frame face))).
    destruct (0 <? List.length ds)%nat eqn:Hpos.
    + destruct (Qle_bool (nth (argmin ds) ds 0%Q) tolerance_float32).
      * assert (Hr : (argmin ds < List.length (known_face_ids sys))%nat).
        { rewrite Hlen.
          replace (List.length (known_face_encodings sys))
            with (List.length ds)
            by (unfold ds, face_distances; apply length_map).
          apply argmin_in_range. apply Nat.ltb_lt in Hpos.
          destruct ds; [simpl in Hpos; lia | discriminate]. }
        destruct (nth_error (known_face_ids sys) (argmin ds)) as [sid|] eqn:Hs;
          [|apply nth_error_None in Hs; lia].
        destruct (match reference with Some _ => _ | None => _ end);
          eexists; eexists; (split; [reflexivity|]); simpl;
          rewrite length_app; simpl; lia.
      * eexists; eexists; (split; [reflexivity|]); simpl;
          rewrite length_app; simpl; lia.
    + eexists; eexists; (split; [reflexivity|]); simpl;
        rewrite length_app; simpl; lia.
  - eexists; eexists; (split; [reflexivity|]); simpl;
      rewrite length_app; simpl; lia.
Qed.

Lemma recognize_loop_entries sys frame reference faces :
  List.length (known_face_ids sys) = List.length (known_face_encodings sys) ->
  forall live res,
  exists live' res',
    recognize_loop sys frame reference faces (live, res) = Some (live', res')
    /\ (List.length (recognized res') + List.length (unrecognized res')
        = List.length faces
          + (List.length (recognized res) + List.length (unrecognized res)))%nat.
Proof.
  intros Hlen. induction faces as [|face rest IH]; intros live res;
    cbn [recognize_loop].
  - exists live, res. split; [reflexivity | simpl; lia].
  - destruct (recognize_face_one_entry sys frame reference live res face Hlen)
      as (live1 & res1 & H1 & L1).
    rewrite H1. destruct (IH live1 res1) as (live2 & res2 & H2 & L2).
    exists live2, res2. split; [exact H2 | simpl; lia].
Qed.

End LoadedGallery.

(** [load_face_encodings] replaces the gallery: whatever was loaded before,
    the ids are the students whose blob could be read, in the order of the
    query, with their normalised encodings beside them; the liveness
    detector and the database are kept.  Loading again discards the
    previous gallery. *)
Theorem load_face_encodings_replaces {E : Vit.Externals}
    (sys : Vit.ViTFaceRecognitionSystem)
    (first second : list (string * option (list Q))) :
  Vit.known_face_ids (Vit.load_face_encodings sys second)
  = flat_map (fun p => match snd p with Some _ => [fst p] | None => [] end)
             second
  /\ Vit.known_face_encodings (Vit.load_face_encodings sys second)
     = flat_map (fun p => match snd p with
                          | Some e => [Vit.normalize e]
                          | None => []
                          end) second
  /\ Vit.liveness_detector (Vit.load_face_encodings sys second)
     = Vit.liveness_detector sys
  /\ Vit.database (Vit.load_face_encodings sys second) = Vit.database sys
  /\ Vit.load_face_encodings (Vit.load_face_encodings sys first) second
     = Vit.load_face_encodings sys second.
Proof.
  unfold Vit.load_face_encodings. rewrite !load_loop_spec. simpl.
  repeat split.
Qed.

(** On a gallery built by [load_face_encodings], [recognize_faces] never
    fails on [known_face_ids[best_match_index]]: it always returns, keeps
    the gallery and the database, and, when the gallery is not empty, its
    two lists together hold exactly one entry per detected face. *)
Theorem recognize_faces_one_entry_per_face {E : Vit.Externals}
    (sys0 : Vit.ViTFaceRecognitionSystem)
    (blobs : list (string * option (list Q)))
    (frame : Vit.Frame) (reference : option Z) :
  exists sys' res,
    Vit.recognize_faces (Vit.load_face_encodings sys0 blobs) frame reference
    = Some (sys', res)
    /\ Vit.known_face_ids sys'
       = Vit.known_face_ids (Vit.load_face_encodings sys0 blobs)
    /\ Vit.known_face_encodings sys'
       = Vit.known_face_encodings (Vit.load_face_encodings sys0 blobs)
    /\ Vit.database sys' = Vit.database sys0
    /\ (Vit.known_face_encodings (Vit.load_face_encodings sys0 blobs) <> [] ->
        (List.length (Vit.recognized res) + List.length (Vit.unrecognized res)
         = List.length (Vit.detectMultiScale frame))%nat).
Proof.
  pose proof (load_face_encodings_lengths sys0 blobs) as Hlen.
  assert (Hdb : Vit.database (Vit.load_face_encodings sys0 blobs)
                = Vit.database sys0).
  { unfold Vit.load_face_encodings.
    now destruct (Vit.load_loop blobs [] []). }
  set (sys := Vit.load_face_encodings sys0 blobs) in *.
  unfold Vit.recognize_faces.
  destruct (Vit.known_face_encodings sys) as [|k ks] eqn:Hg.
  - exists sys, (Vit.mk_results [] []).
    repeat split; auto. intros H. now elim H.
  - destruct (Vit.detectMultiScale frame) as [|f fs] eqn:Hd.
    + exists sys, (Vit.mk_results [] []). repeat split; auto.
    + assert (Hlen' : List.length (Vit.known_face_ids sys)
                      = List.length (Vit.known_face_encodings sys))
        by (now rewrite Hg).
      destruct (recognize_loop_entries sys frame reference (f :: fs) Hlen'
                  (Vit.liveness_detector sys) (Vit.mk_results [] []))
        as (live' & res' & Hrun & Hcount).
      rewrite Hrun. exists (Vit.set_liveness sys live'), res'.
      split; [reflexivity|]. split; [reflexivity|].
      split; [simpl; now rewrite Hg|]. split; [exact Hdb|].
      intros _. simpl in Hcount. simpl. lia.
Qed.

Section RecognizedFaces.
Import Vit.
Context {E : Externals}.

Lemma confidence_nonnegative m :
  Qle_bool m tolerance_float32 = true ->
  (0 <= float32_sub 1 (float32_div m tolerance_float32))%Q.
Proof.
  intros H. apply Qle_bool_iff in H.
  apply float32_sub_nonneg, float32_div_le_one; [reflexivity | exact H].
Qed.

(** What holds of every entry of the recognized list. *)
Lemma recognize_face_keeps sys frame reference live res face live' res' :
  recognize_face sys frame reference (live, res) face = Some (live', res') ->
  forall r, In r (recognized res') ->
    In r (recognized res)
    \/ (In (r_student_id r) (known_face_ids sys)
        /\ (forall cid, reference = Some cid ->
                        Database.is_student_enrolled_in_course
                          (database sys) (r_student_id r) cid = true)
        /\ (0 <= confidence r)%Q).
Proof.
  unfold recognize_face.
  destruct (check_liveness live frame None (Some face)) as [live1 ok].
  destruct ok; cbn [negb]; [|intros [= _ <-]; simpl; auto].
  destruct (0 <? _)%nat; [|intros [= _ <-]; simpl; auto].
  destruct (Qle_bool _ tolerance_float32) eqn:Hq;
    [|intros [= _ <-]; simpl; auto].
  destruct (nth_error (known_face_ids sys) _) as [sid|] eqn:Hs; [|discriminate].
  destruct reference as [cid|].
  - destruct (Database.is_student_enrolled_in_course (database sys) sid cid)
      eqn:He; cbn [negb]; intros [= _ <-]; simpl; [|auto].
    intros r Hin. apply in_app_or in Hin.
    destruct Hin as [Hin | [<- | []]]; [now left|]. right. simpl.
    split; [exact (nth_error_In _ _ Hs)|]. split.
    + intros cid' [= <-]. exact He.
    + now apply confidence_nonnegative.
  - intros [= _ <-]; simpl. intros r Hin. apply in_app_or in Hin.
    destruct Hin as [Hin | [<- | []]]; [now left|]. right. simpl.
    split; [exact (nth_error_In _ _ Hs)|]. split.
    + intros cid' Hc. discriminate.
    + now apply confidence_nonnegative.
Qed.

Lemma recognize_loop_keeps sys frame reference faces :
  forall live res live' res',
    recognize_loop sys frame reference faces (live, res) = Some (live', res') ->
    forall r, In r (recognized res') ->
      In r (recognized res)
      \/ (In (r_student_id r) (known_face_ids sys)
          /\ (forall cid, reference = Some cid ->
                          Database.is_student_enrolled_in_course
                            (database sys) (r_student_id r) cid = true)
          /\ (0 <= confidence r)%Q).
Proof.
  induction faces as [|face rest IH]; intros live res live' res';
    cbn [recognize_loop].
  - intros [= _ <-] r Hin. now left.
  - destruct (recognize_face sys frame reference (live, res) face)
      as [[live1 res1]|] eqn:H1; [|discriminate].
    intros H2 r Hin.
    destruct (IH _ _ _ _ H2 r Hin) as [Hold | Hnew]; [|now right].
    exact (recognize_face_keeps _ _ _ _ _ _ _ _ H1 r Hold).
Qed.

End RecognizedFaces.

(** Every student that [recognize_faces] reports as recognized comes from
    the gallery and was matched within the tolerance (the confidence is not
    negative); when a course is given, the student is enrolled in it. *)
Theorem recognized_students_are_enrolled {E : Vit.Externals}
    (sys : Vit.ViTFaceRecognitionSystem) (frame : Vit.Frame)
    (reference : option Z) (sys' : Vit.ViTFaceRecognitionSystem)
    (res : Vit.recognition_results) (r : Vit.recognized_student) :
  Vit.recognize_faces sys frame reference = Some (sys', res) ->
  In r (Vit.recognized res) ->
  In (Vit.r_student_id r) (Vit.known_face_ids sys)
  /\ (forall cid, reference = Some cid ->
                  Database.is_student_enrolled_in_course
                    (Vit.database sys) (Vit.r_student_id r) cid = true)
  /\ (0 <= Vit.confidence r)%Q.
Proof.
  unfold Vit.recognize_faces.
  destruct (Vit.known_face_encodings sys); [intros [= _ <-] []|].
  destruct (Vit.detectMultiScale frame) as [|f fs]; [intros [= _ <-] []|].
  destruct (Vit.recognize_loop sys frame reference (f :: fs) _)
    as [[live res1]|] eqn:Hl; [|discriminate].
  intros [= _ <-] Hin.
  destruct (recognize_loop_keeps _ _ _ _ _ _ _ _ Hl r Hin) as [[] | H].
  exact H.
Qed.

Lemma recognized_students_are_enrolled_instance :
  Database.is_student_enrolled_in_course Demo.alice_in "s2" 101 = true.
Proof.
  refine (proj1 (proj2
            (@recognized_students_are_enrolled Demo.externals Demo.system
               0%nat (Some 101)
               (Vit.set_liveness Demo.system
                  (Vit.mk_liveness 0 1 (Some Demo.face0) 1 1 [] [0%Q] 5))
               (Vit.mk_results
                  [Vit.mk_recognized "s2" "Bob"
                     (1 - (1 - (1 * 1 + (0 * 0 + 0))) / Vit.tolerance_float32)%Q
                     (20, 40, 60, 10)]
                  [])
               (Vit.mk_recognized "s2" "Bob"
                  (1 - (1 - (1 * 1 + (0 * 0 + 0))) / Vit.tolerance_float32)%Q
                  (20, 40, 60, 10))
               eq_refl (or_introl eq_refl)))
            101 eq_refl).
Defined.

(** ** The liveness detector over a session *)

Section Session.
Import Vit.
Context {E : Externals}.

Lemma push_history_length size h v :
  (List.length h <= size)%nat ->
  (List.length (push_history size h v) <= size)%nat.
Proof.
  intros H. unfold push_history.
  destruct (Nat.ltb_spec size (List.length (h ++ [v]))) as [Hlt | Hge];
    [|exact Hge].
  rewrite length_app in Hlt. simpl in Hlt.
  destruct h as [|x h]; simpl in *; [lia|].
  rewrite length_app. simpl. lia.
Qed.

Lemma push_history_short size h v :
  (S (List.length h) <= size)%nat ->
  push_history size h v = h ++ [v].
Proof.
  intros H. unfold push_history.
  destruct (Nat.ltb_spec size (List.length (h ++ [v]))) as [Hlt | Hge];
    [|reflexivity].
  rewrite length_app in Hlt. simpl in Hlt. lia.
Qed.

Lemma check_liveness_histories s img lm pos :
  (List.length (blink_history s) <= history_size s)%nat ->
  (List.length (movement_history s) <= history_size s)%nat ->
  (List.length (blink_history (fst (check_liveness s img lm pos)))
   <= history_size (fst (check_liveness s img lm pos)))%nat
  /\ (List.length (movement_history (fst (check_liveness s img lm pos)))
      <= history_size (fst (check_liveness s img lm pos)))%nat
  /\ history_size (fst (check_liveness s img lm pos)) = history_size s.
Proof.
  intros Hb Hm.
  assert (B : forall s0 l,
             (List.length (blink_history s0) <= history_size s0)%nat ->
             (List.length (blink_history (fst (detect_blink s0 l)))
              <= history_size s0)%nat
             /\ movement_history (fst (detect_blink s0 l)) = movement_history s0
             /\ history_size (fst (detect_blink s0 l)) = history_size s0).
  { intros s0 l H0. unfold detect_blink.
    pose proof (push_history_length (history_size s0) (blink_history s0)
                  (calculate_eye_aspect_ratio l) H0) as Hp.
    destruct (_ <? history_size s0)%nat; simpl; [auto|].
    destruct (Qltb _ _); simpl; auto. }
  assert (M : forall s0 p,
             (List.length (movement_history s0) <= history_size s0)%nat ->
             (List.length (movement_history (fst (detect_head_movement s0 p)))
              <= history_size s0)%nat
             /\ blink_history (fst (detect_head_movement s0 p)) = blink_history s0
             /\ history_size (fst (detect_head_movement s0 p)) = history_size s0).
  { intros s0 p H0. unfold detect_head_movement.
    destruct (last_face_position s0) as [last|]; simpl; [|auto].
    pose proof (push_history_length (history_size s0) (movement_history s0)
                  (linalg_norm_diff p last) H0) as Hp.
    destruct (_ <? history_size s0)%nat; simpl; [auto|].
    destruct (Qltb _ _); simpl; auto. }
  unfold check_liveness. cbn [fst].
  destruct lm as [l|], pos as [p|].
  - destruct (B s l Hb) as (B1 & B2 & B3).
    destruct (M (fst (detect_blink s l)) p) as (M1 & M2 & M3);
      [rewrite B2, B3; exact Hm|].
    rewrite M2, M3, B3. rewrite B3 in M1. auto.
  - destruct (B s l Hb) as (B1 & B2 & B3). rewrite B2, B3. auto.
  - destruct (M s p Hm) as (M1 & M2 & M3). rewrite M2, M3. auto.
  - auto.
Qed.

(** While the detector has counted nothing and its movement history is
    short, a call without landmarks counts nothing and is rejected. *)
Lemma check_liveness_cold s img pos (n : nat) :
  blink_count s = 0 -> head_movement_count s = 0 ->
  1 <= required_blinks s -> 1 <= required_movements s ->
  (last_face_position s = None -> movement_history s = []) ->
  (List.length (movement_history s)
   + (match last_face_position s with Some _ => 1 | None => 0 end) <= n)%nat ->
  (n < history_size s)%nat ->
  snd (check_liveness s img None pos) = false
  /\ blink_count (fst (check_liveness s img None pos)) = 0
  /\ head_movement_count (fst (check_liveness s img None pos)) = 0
  /\ required_blinks (fst (check_liveness s img None pos)) = required_blinks s
  /\ required_movements (fst (check_liveness s img None pos))
     = required_movements s
  /\ history_size (fst (check_liveness s img None pos)) = history_size s
  /\ (last_face_position (fst (check_liveness s img None pos)) = None ->
      movement_history (fst (check_liveness s img None pos)) = [])
  /\ (List.length (movement_history (fst (check_liveness s img None pos)))
      + (match last_face_position (fst (check_liveness s img None pos)) with
         | Some _ => 1 | None => 0 end) <= S n)%nat.
Proof.
  intros Hb Hh Rb Rm Hnone Hlen Hn.
  assert (Hres : forall s2 : LivenessDetector,
             blink_count s2 = 0 -> head_movement_count s2 = 0 ->
             required_blinks s2 = required_blinks s ->
             required_movements s2 = required_movements s ->
             ((required_blinks s2 <=? blink_count s2) ||
              (required_movements s2 <=? head_movement_count s2)) &&
             analyze_texture img = false).
  { intros s2 A1 A2 A3 A4. rewrite A1, A2, A3, A4.
    destruct (Z.leb_spec (required_blinks s) 0); [lia|].
    destruct (Z.leb_spec (required_movements s) 0); [lia|]. reflexivity. }
  unfold check_liveness. cbn [fst snd].
  destruct pos as [p|].
  - unfold detect_head_movement.
    destruct (last_face_position s) as [last|] eqn:Hl.
    + assert (Hshort : push_history (history_size s) (movement_history s)
                         (linalg_norm_diff p last)
                       = movement_history s ++ [linalg_norm_diff p last])
        by (apply push_history_short; lia).
      rewrite Hshort.
      assert (Hlt : (List.length (movement_history s ++ [linalg_norm_diff p last])
                     <? history_size s)%nat = true).
      { apply Nat.ltb_lt. rewrite length_app. simpl. lia. }
      rewrite Hlt. cbn [fst].
      split; [now apply Hres|]. simpl.
      repeat split; auto; try discriminate;
        try (rewrite length_app; simpl; lia).
    + cbn [fst]. split; [now apply Hres|]. simpl.
      rewrite (Hnone eq_refl). simpl.
      repeat split; auto; try discriminate; try lia.
  - split; [now apply Hres|].
    repeat split; auto; try lia.
Qed.

Lemma run_checks_cold calls :
  forall s (n : nat),
    Forall (fun c => snd (fst c) = None) calls ->
    blink_count s = 0 -> head_movement_count s = 0 ->
    1 <= required_blinks s -> 1 <= required_movements s ->
    (last_face_position s = None -> movement_history s = []) ->
    (List.length (movement_history s)
     + (match last_face_position s with Some _ => 1 | None => 0 end) <= n)%nat ->
    (n + List.length calls <= history_size s)%nat ->
    blink_count (run_checks s calls) = 0
    /\ head_movement_count (run_checks s calls) = 0
    /\ required_blinks (run_checks s calls) = required_blinks s
    /\ required_movements (run_checks s calls) = required_movements s
    /\ history_size (run_checks s calls) = history_size s
    /\ (last_face_position (run_checks s calls) = None ->
        movement_history (run_checks s calls) = [])
    /\ (List.length (movement_history (run_checks s calls))
        + (match last_face_position (run_checks s calls) with
           | Some _ => 1 | None => 0 end) <= n + List.length calls)%nat.
Proof.
  induction calls as [|[[img lm] pos] rest IH]; intros s n Hall Hb Hh Rb Rm Hnone Hlen Hn.
  - simpl. repeat split; auto. lia.
  - inversion Hall as [|c cs Hc Hrest]; subst. simpl in Hc. subst lm.
    cbn [run_checks]. simpl in Hn.
    destruct (check_liveness_cold s img pos n Hb Hh Rb Rm Hnone Hlen)
      as (_ & C1 & C2 & C3 & C4 & C5 & C6 & C7); [lia|].
    destruct (IH (fst (check_liveness s img None pos)) (S n) Hrest C1 C2)
      as (I1 & I2 & I3 & I4 & I5 & I6 & I7); try lia; auto.
    rewrite I3, I4, I5, C3, C4, C5.
    repeat split; auto. cbn [List.length]. lia.
Qed.

End Session.

(** The rolling windows of the detector never grow beyond [history_size]:
    over any run of [check_liveness] calls, the blink history and the
    movement history keep at most [history_size] values. *)
Theorem liveness_histories_bounded {E : Vit.Externals}
    (s : Vit.LivenessDetector)
    (calls : list (Vit.Frame * option Vit.Landmarks * option Vit.rect)) :
  (List.length (Vit.blink_history s) <= Vit.history_size s)%nat ->
  (List.length (Vit.movement_history s) <= Vit.history_size s)%nat ->
  (List.length (Vit.blink_history (Vit.run_checks s calls))
   <= Vit.history_size s)%nat
  /\ (List.length (Vit.movement_history (Vit.run_checks s calls))
      <= Vit.history_size s)%nat.
Proof.
  revert s. induction calls as [|[[img lm] pos] rest IH]; intros s Hb Hm.
  - simpl. auto.
  - cbn [Vit.run_checks].
    destruct (check_liveness_histories s img lm pos Hb Hm) as (H1 & H2 & H3).
    rewrite H3 in H1, H2. rewrite <- H3. apply IH; now rewrite H3.
Qed.

Lemma liveness_histories_bounded_instance :
  (List.length
     (Vit.movement_history
        (@Vit.run_checks Demo.externals Demo.warmed_up
           [(0%nat, None, Some Demo.face0); (0%nat, None, Some Demo.face0);
            (0%nat, None, Some Demo.face0); (0%nat, None, Some Demo.face0);
            (0%nat, None, Some Demo.face0); (0%nat, None, Some Demo.face0);
            (0%nat, None, Some Demo.face0)]))
   <= 5)%nat.
Proof.
  refine (proj2 (@liveness_histories_bounded Demo.externals Demo.warmed_up
                   _ _ _)).
  - simpl. apply Nat.le_0_l.
  - simpl. apply Nat.le_0_l.
Defined.

(** After [reset] (the required counts being at least one, as [__init__]
    sets them), the session has to warm up: as long as fewer than
    [history_size] calls were made, each without landmarks as
    [recognize_faces] makes them, the next call is rejected whatever the
    image, the texture and the face position. *)
Theorem liveness_needs_warm_up {E : Vit.Externals}
    (s0 : Vit.LivenessDetector)
    (calls : list (Vit.Frame * option Vit.Landmarks * option Vit.rect))
    (img : Vit.Frame) (pos : option Vit.rect) :
  1 <= Vit.required_blinks s0 ->
  1 <= Vit.required_movements s0 ->
  Forall (fun c => snd (fst c) = None) calls ->
  (List.length calls < Vit.history_size s0)%nat ->
  snd (Vit.check_liveness (Vit.run_checks (Vit.reset s0) calls) img None pos)
  = false.
Proof.
  intros Rb Rm Hall Hlen.
  destruct (run_checks_cold calls (Vit.reset s0) 0%nat Hall)
    as (R1 & R2 & R3 & R4 & R5 & R6 & R7); simpl; auto; try lia.
  apply (check_liveness_cold (Vit.run_checks (Vit.reset s0) calls) img pos
           (List.length calls)); auto.
  - rewrite R3. exact Rb.
  - rewrite R4. exact Rm.
  - rewrite R5. exact Hlen.
Qed.

(** Four frames after a reset, the fifth is still rejected although its
    texture passes. *)
Lemma liveness_needs_warm_up_instance :
  snd (@Vit.check_liveness Demo.externals
         (@Vit.run_checks Demo.externals (Vit.reset Demo.warmed_up)
            [(0%nat, None, Some Demo.face0); (0%nat, None, Some (11, 20, 30, 40));
             (0%nat, None, Some (90, 20, 30, 40)); (0%nat, None, Some Demo.face0)])
         0%nat None (Some (200, 300, 30, 40)))
  = false.
Proof.
  refine (@liveness_needs_warm_up Demo.externals Demo.warmed_up _ 0%nat _ _ _ _ _).
  - discriminate.
  - discriminate.
  - repeat constructor.
  - simpl. repeat constructor.
Defined.

(** * Marking the recognized students *)

Section MarkRecognized.
Import Database.

Lemma mark_one_total ref today now ce ea lt s1 s2 d sid nm :
  exists r d',
    Vit.mark_one ref today now ce ea lt s1 s2 d sid nm = Some (r, d')
    /\ Vit.a_student_id r = sid /\ Vit.a_name r = nm
    /\ (unique_keys (attendance d) -> unique_keys (attendance d')).
Proof.
  unfold Vit.mark_one.
  destruct (is_student_enrolled_in_course d sid ref);
    [|eexists; eexists; repeat split; auto].
  destruct (fetch_attendance d sid ref today) as [r|] eqn:Hf.
  - destruct (is_cancelled r); [eexists; eexists; repeat split; auto|].
    destruct (_ && _); [|eexists; eexists; repeat split; auto].
    eexists; eexists. split; [reflexivity|]. repeat split.
    intros Hu. simpl. unfold unique_keys.
    now rewrite (sql_update_keys _ (set_second_time now)).
  - destruct (now <? ea); [eexists; eexists; repeat split; auto|].
    destruct (now >? ce); [eexists; eexists; repeat split; auto|].
    rewrite sql_insert_fresh by exact Hf.
    eexists; eexists. split; [reflexivity|]. repeat split.
    intros Hu. simpl.
    apply (sql_insert_unique
             (mk_row sid ref today (Some now) None
                     (if now <=? lt then STATUS_PRESENT else STATUS_LATE) false)
             (attendance d)); [exact Hu|].
    now apply sql_insert_fresh.
Qed.

Lemma mark_loop_total ref today now ce ea lt s1 s2 students :
  forall results d,
  exists results' d',
    Vit.mark_loop (Vit.mark_one ref today now ce ea lt s1 s2) students results d
    = Some (results', d')
    /\ map (fun r => (Vit.a_student_id r, Vit.a_name r)) results'
       = map (fun r => (Vit.a_student_id r, Vit.a_name r)) results ++ students
    /\ (unique_keys (attendance d) -> unique_keys (attendance d')).
Proof.
  induction students as [|[sid nm] rest IH]; intros results d;
    cbn [Vit.mark_loop].
  - exists results, d. rewrite app_nil_r. auto.
  - destruct (mark_one_total ref today now ce ea lt s1 s2 d sid nm)
      as (r & d1 & H1 & A1 & A2 & U1).
    rewrite H1.
    destruct (IH (results ++ [r]) d1) as (results' & d' & H2 & M2 & U2).
    exists results', d'. split; [exact H2|]. split; [|auto].
    rewrite M2, map_app. simpl. rewrite A1, A2. now rewrite <- app_assoc.
Qed.

End MarkRecognized.

(** [mark_attendance_for_recognized_students] always returns: its INSERT,
    which it does not guard, never breaks the UNIQUE constraint.  When the
    course exists it answers once per recognized student, in order; when
    the course does not exist it answers nothing and writes nothing; and it
    keeps [UNIQUE(student_id, course_id, date)]. *)
Theorem recognition_marking_answers_everyone d today now students cid :
  exists results d',
    Vit.mark_attendance_for_recognized_students d today now students cid
    = Some (results, d')
    /\ (Database.get_course_by_id d cid <> None ->
        map (fun r => (Vit.a_student_id r, Vit.a_name r)) results = students)
    /\ (Database.get_course_by_id d cid = None -> results = [] /\ d' = d)
    /\ (Database.unique_keys (Database.attendance d) ->
        Database.unique_keys (Database.attendance d')).
Proof.
  unfold Vit.mark_attendance_for_recognized_students.
  destruct (Database.get_course_by_id d cid) as [c|].
  - destruct (mark_loop_total cid today now
                (Database.course_end_on d c cid today)
                (Clock.minus_minutes (Database.start_time c) EARLY_ARRIVAL_MARGIN)
                (Clock.plus_minutes (Database.start_time c) LATE_THRESHOLD)
                (Clock.minus_minutes (Database.course_end_on d c cid today)
                                     SECOND_CHECKIN_WINDOW)
                (Clock.plus_minutes (Database.course_end_on d c cid today)
                                    SECOND_CHECKIN_WINDOW)
                students [] d)
      as (results & d' & H & M & U).
    exists results, d'. split; [exact H|]. split; [intros _; exact M|].
    split; [discriminate | exact U].
  - exists [], d. split; [reflexivity|]. split; [intros H; now elim H|].
    split; auto.
Qed.

(** A student who appears twice among the recognized faces of one call,
    with no row yet and at a time that lies both in the first check-in
    window of the recognition path and in the second check-in window, gets
    the first and the second check-in at once: the row carries the same
    time twice. *)
Theorem recognized_twice_checks_in_twice d today now sid nm nm' cid c :
  Database.get_course_by_id d cid = Some c ->
  Database.is_student_enrolled_in_course d sid cid = true ->
  Database.fetch_attendance d sid cid today = None ->
  Clock.minus_minutes (Database.start_time c) EARLY_ARRIVAL_MARGIN <= now
    <= Database.course_end_on d c cid today ->
  Database.in_second_window (Database.course_end_on d c cid today) now ->
  exists d',
    Vit.mark_attendance_for_recognized_students d today now
      [(sid, nm); (sid, nm')] cid
    = Some ([Vit.mk_attendance_result sid nm true
               (String.append "Marked as "
                  (status_text
                     (if now <=? Clock.plus_minutes (Database.start_time c)
                                                    LATE_THRESHOLD
                      then STATUS_PRESENT else STATUS_LATE)));
             Vit.mk_attendance_result sid nm' true "Second check-in recorded"],
            d')
    /\ Database.fetch_attendance d' sid cid today
       = Some (Database.mk_row sid cid today (Some now) (Some now)
                 (if now <=? Clock.plus_minutes (Database.start_time c)
                                                LATE_THRESHOLD
                  then STATUS_PRESENT else STATUS_LATE)
                 false).
Proof.
  intros Hc He Hf [Hw1 Hw2] Hin.
  set (st := if now <=? Clock.plus_minutes (Database.start_time c) LATE_THRESHOLD
             then STATUS_PRESENT else STATUS_LATE).
  set (r1 := Database.mk_row sid cid today (Some now) None st false).
  set (d1 := Database.set_attendance d (Database.attendance d ++ [r1])).
  assert (Hk1 : Database.same_key sid cid today r1 = true)
    by (apply same_key_spec; repeat split).
  assert (Hf1 : Database.fetch_attendance d1 sid cid today = Some r1).
  { unfold Database.fetch_attendance, d1. simpl.
    unfold Database.fetch_attendance in Hf.
    rewrite (find_app_none _ _ _ Hf). simpl. now rewrite Hk1. }
  exists (Database.set_attendance d1
            (Database.sql_update (Database.same_key sid cid today)
               (Database.set_second_time now) (Database.attendance d1))).
  split.
  - assert (S1 : forall ce ea lt w1 w2,
               ea <= now -> now <= ce ->
               Vit.mark_one cid today now ce ea lt w1 w2 d sid nm
               = Some (Vit.mk_attendance_result sid nm true
                         (String.append "Marked as "
                            (status_text (if now <=? lt
                                          then STATUS_PRESENT else STATUS_LATE))),
                       Database.set_attendance d
                         (Database.attendance d ++
                          [Database.mk_row sid cid today (Some now) None
                             (if now <=? lt then STATUS_PRESENT else STATUS_LATE)
                             false]))).
    { intros ce ea lt w1 w2 A1 A2. unfold Vit.mark_one. rewrite He, Hf.
      destruct (Z.ltb_spec now ea); [lia|]. rewrite Z.gtb_ltb.
      destruct (Z.ltb_spec ce now); [lia|].
      now rewrite sql_insert_fresh by exact Hf. }
    assert (S2 : forall ce ea lt,
               Vit.mark_one cid today now ce ea lt
                 (Clock.minus_minutes (Database.course_end_on d c cid today)
                                      SECOND_CHECKIN_WINDOW)
                 (Clock.plus_minutes (Database.course_end_on d c cid today)
                                     SECOND_CHECKIN_WINDOW)
                 d1 sid nm'
               = Some (Vit.mk_attendance_result sid nm' true
                         "Second check-in recorded",
                       Database.set_attendance d1
                         (Database.sql_update (Database.same_key sid cid today)
                            (Database.set_second_time now)
                            (Database.attendance d1)))).
    { intros ce ea lt. unfold Vit.mark_one.
      change (Database.is_student_enrolled_in_course d1 sid cid)
        with (Database.is_student_enrolled_in_course d sid cid).
      rewrite He, Hf1. cbn [Database.is_cancelled Database.second_time r1].
      apply in_second_window_dec in Hin. now rewrite andb_true_l, Hin. }
    unfold Vit.mark_attendance_for_recognized_students. rewrite Hc.
    cbn [Vit.mark_loop]. rewrite S1 by assumption.
    fold st. fold r1. fold d1. rewrite S2. reflexivity.
  - unfold Database.fetch_attendance. simpl.
    rewrite find_sql_update by reflexivity.
    unfold Database.fetch_attendance in Hf1. simpl in Hf1. now rewrite Hf1.
Qed.

(** Two faces are matched to Alice at 08:57, three minutes before the end
    of the lecture. *)
Lemma recognized_twice_checks_in_twice_instance :
  exists d',
    Vit.mark_attendance_for_recognized_students Demo.empty_day Demo.day1
      (Clock.hm 8 57) [("s1"%string, "Alice"%string); ("s1"%string, "Alice"%string)]
      101
    = Some ([Vit.mk_attendance_result "s1" "Alice" true "Marked as Late";
             Vit.mk_attendance_result "s1" "Alice" true
                                      "Second check-in recorded"],
            d')
    /\ Database.fetch_attendance d' "s1" 101 Demo.day1
       = Some (Database.mk_row "s1" 101 Demo.day1 (Some (Clock.hm 8 57))
                 (Some (Clock.hm 8 57)) STATUS_LATE false).
Proof.
  refine (recognized_twice_checks_in_twice Demo.empty_day Demo.day1
            (Clock.hm 8 57) "s1" "Alice" "Alice" 101 Demo.course101
            eq_refl eq_refl eq_refl _ _).
  - split; discriminate.
  - split; discriminate.
Defined.
